(** * telegram-pdf-converter: the job lifecycle of [app.py] and [Bot.py]

    A shallow embedding of the two bots of the repository.  [app.py] is the
    webhook bot: handlers [start], [stop], [handle_pdf] and the background
    worker [process_pdf_async]; [Bot.py] is the polling bot with the single
    handler [handle_document].

    The Python built-ins and the libraries the code calls into
    ([str], [os.path], [openpyxl], [pandas], [pdfplumber]) are modelled
    first, then the shared world the handlers and the worker act on, then
    the code itself, in the order of the source. *)

From Stdlib Require Import ZArith String Ascii List DecimalString Lia.
From stdpp Require Import gmap strings list sorting.

Local Open Scope string_scope.
Local Open Scope list_scope.
Local Open Scope nat_scope.

(** ** Python built-ins *)

Module Py.

(** [str.lower] on a file name.  File names are held as their UTF-8 bytes;
    the only code points whose lower case is one of [.], [p], [d], [f] are
    the ASCII ones, so for the test [lower().endswith(".pdf")] it is enough
    to fold the ASCII capitals. *)
Definition lower_ascii (c : ascii) : ascii :=
  let n := nat_of_ascii c in
  if (65 <=? n)%nat && (n <=? 90)%nat then ascii_of_nat (n + 32) else c.

Fixpoint lower (s : string) : string :=
  match s with
  | EmptyString => EmptyString
  | String c s' => String (lower_ascii c) (lower s')
  end.

(** [s.endswith(suf)]: some suffix of [s] is [suf]. *)
Fixpoint endswith (s suf : string) : bool :=
  String.eqb s suf ||
  match s with
  | EmptyString => false
  | String _ s' => endswith s' suf
  end.

(** [sub in s]: [sub] occurs at some position of [s]. *)
Fixpoint contains (s sub : string) : bool :=
  String.prefix sub s ||
  match s with
  | EmptyString => false
  | String _ s' => contains s' sub
  end.

(** [s.replace(old, new)] for a non-empty [old]: every occurrence of [old],
    scanning from the left and without overlap, is replaced.  [skip] counts
    the characters of the occurrence being replaced that are still to be
    dropped. *)
Fixpoint replace_from (old new : string) (skip : nat) (s : string) : string :=
  match s with
  | EmptyString => EmptyString
  | String c s' =>
      match skip with
      | S k => replace_from old new k s'
      | O =>
          if String.prefix old s
          then new +:+ replace_from old new (String.length old - 1) s'
          else String c (replace_from old new 0 s')
      end
  end.

Definition replace (s old new : string) : string := replace_from old new 0 s.

(** Replacing the first occurrence only ([s.replace(old, new, 1)]); the
    source never calls it, it is here to be compared with [replace]. *)
Fixpoint replace_first_from (old new : string) (skip : nat) (s : string) : string :=
  match s with
  | EmptyString => EmptyString
  | String c s' =>
      match skip with
      | S (S k) => replace_first_from old new (S k) s'
      | S O => s'
      | O =>
          if String.prefix old s
          then new +:+ (match String.length old with
                        | S (S k) => replace_first_from old new (S k) s'
                        | _ => s'
                        end)
          else String c (replace_first_from old new 0 s')
      end
  end.

Definition replace_first (s old new : string) : string :=
  replace_first_from old new 0 s.

(** [os.path.basename(p)]: what follows the last slash. *)
Fixpoint basename (p : string) : string :=
  match p with
  | EmptyString => EmptyString
  | String c p' =>
      if contains p' "/" then basename p'
      else if Ascii.eqb c "/" then p' else p
  end.

(** An integer inside an f-string. *)
Definition str (n : nat) : string := NilEmpty.string_of_uint (Nat.to_uint n).

(** [os.path.splitext(p)[1]]: the extension of [p], from the last dot of
    its last component on; it is empty when that component has no dot, or
    has nothing but dots before its last one.  [seen] tells whether the
    component has shown a character other than a dot. *)
Fixpoint splitext_from (seen : bool) (p : string) : string :=
  match p with
  | EmptyString => EmptyString
  | String c p' =>
      if Ascii.eqb c "/" || contains p' "/" then splitext_from false p'
      else if contains p' "." then
        splitext_from (seen || negb (Ascii.eqb c ".")) p'
      else if Ascii.eqb c "." && seen then p
      else EmptyString
  end.

Definition splitext_ext (p : string) : string := splitext_from false p.

End Py.

(** ** openpyxl: the sheet the worker writes *)

Module Openpyxl.

(** A cell value: [None] or a text. *)
Definition Cell : Type := option string.
Definition Row : Type := list Cell.
Definition Table : Type := list Row.

(** A worksheet is its dictionary of cells, keyed by (row, column) from 1,
    and the index of the last appended row. *)
Record Worksheet := {
  ws_cells : list ((nat * nat) * Cell);
  ws_current_row : nat
}.

(** [Workbook().active]: no cell, nothing appended. *)
Definition Workbook : Worksheet := {| ws_cells := []; ws_current_row := 0 |}.

(** [ws.append(row)]: the cells of [row] go to columns 1, 2, ... of the row
    after the current one; the row counter advances even for an empty row. *)
Definition append (ws : Worksheet) (row : Row) : Worksheet :=
  let row_idx := S (ws_current_row ws) in
  {| ws_cells := ws_cells ws ++ imap (fun j v => ((row_idx, S j), v)) row;
     ws_current_row := row_idx |}.

(** [ws.max_row] and [ws.max_column]: 1 for a sheet without cells, the
    largest index in use otherwise. *)
Definition max_row (ws : Worksheet) : nat :=
  match ws_cells ws with
  | [] => 1
  | _ => list_max (map (fun kv => fst (fst kv)) (ws_cells ws))
  end.

Definition max_column (ws : Worksheet) : nat :=
  match ws_cells ws with
  | [] => 1
  | _ => list_max (map (fun kv => snd (fst kv)) (ws_cells ws))
  end.

(** [ws.cell(r, c).value]: a cell that was never written reads [None]. *)
Definition cell_value (ws : Worksheet) (r c : nat) : Cell :=
  match find (fun kv => (fst (fst kv) =? r)%nat && (snd (fst kv) =? c)%nat)
             (ws_cells ws) with
  | Some kv => snd kv
  | None => None
  end.

(** [ws[r]]: the values of row [r] over columns 1 .. [max_column]. *)
Definition row_values (ws : Worksheet) (r : nat) : list Cell :=
  map (cell_value ws r) (seq 1 (max_column ws)).

Definition is_None (c : Cell) : bool :=
  match c with None => true | Some _ => false end.

End Openpyxl.

Export Openpyxl.

(** ** pandas: the writer [Bot.py] saves with *)

Module Pandas.

(** [DataFrame.to_excel(path)] opens an [ExcelWriter], which picks its
    engine by the extension of the path, [os.path.splitext(path)[-1][1:]],
    looked up among the options [io.excel.<ext>.writer].  There is one for
    [xlsx], [xlsm] and [ods]; for any other extension, the empty one too,
    the lookup fails and [to_excel] raises [ValueError].  The test is on
    the extension as it is spelled. *)
Definition writer_extensions : list string := [".xlsx"; ".xlsm"; ".ods"].

Definition has_writer (path : string) : bool :=
  existsb (String.eqb (Py.splitext_ext path)) writer_extensions.

End Pandas.

(** ** pdfplumber: the pages the worker reads *)

(** What [page.extract_table()] does on a page: it raises, or it returns
    [None] or a list of rows. *)
Inductive Page :=
| ExtractRaises
| ExtractReturns (table : option Table).

(** A table as [extract_table] builds it.  pdfplumber makes a row out of
    the cells of the page that share its top edge, so that a row has at
    least one such cell, and the text of a cell of the page is a string,
    the empty one at most; [None] stands where the row has no cell in a
    column. *)
Definition row_has_text (row : Row) : Prop := Exists (fun c => c <> None) row.

Definition as_extracted (p : Page) : Prop :=
  match p with
  | ExtractReturns (Some rows) => Forall row_has_text rows
  | _ => True
  end.

(** A file under [/tmp].  [pdfplumber.open] succeeds on a [PdfFile] only. *)
Inductive File :=
| PdfFile (pages : list Page)
| XlsxFile (ws : Worksheet)
| FrameFile (rows : list Row)
| OtherFile.

(** ** Telegram: what the bot says *)

Definition nl : string := String (ascii_of_nat 10) EmptyString.

(** Every text the two bots send, with the values its f-string holds. *)
Inductive Msg :=
| MsgGreeting
| MsgNoActive
| MsgStopRequested
| MsgPleaseUpload
| MsgTooLarge (mb : nat)
| MsgAlreadyRunning
| MsgDownloadFailed
| MsgStarting
| MsgProcessing
| MsgEmpty
| MsgCancelled (i total_pages_to_process : nat)
| MsgProgress (percent page_num total_pages_to_process : nat)
| MsgNoTables
| MsgComplete
| MsgError
| MsgBotGreeting
| MsgBotPleaseSend
| MsgBotGotIt
| MsgBotNoTables.

Definition text (m : Msg) : string :=
  match m with
  | MsgGreeting =>
      "Hi! 👋" +:+ nl +:+ nl +:+
      "Send me a *PDF with tables* and I’ll convert it to Excel 📊" +:+ nl +:+
      "You can send /stop to cancel a running conversion." +:+ nl +:+ nl +:+
      "_Note: very large PDFs may be partially processed due to server limits._"
  | MsgNoActive => "There is no active conversion to stop 🙂"
  | MsgStopRequested => "🛑 Stop requested. I’ll cancel the current conversion."
  | MsgPleaseUpload => "Please upload a PDF file 😄"
  | MsgTooLarge mb =>
      "⚠️ This PDF is too large for this bot (limit ~" +:+ Py.str mb +:+ " MB)." +:+ nl +:+
      "Please split the file or process it in parts."
  | MsgAlreadyRunning =>
      "⚠️ You already have a conversion running." +:+ nl +:+
      "Send /stop to cancel it before starting a new one."
  | MsgDownloadFailed => "❌ Failed to download the PDF from Telegram."
  | MsgStarting => "Starting PDF processing… ⏳"
  | MsgProcessing => "Processing your PDF… ⏳"
  | MsgEmpty => "⚠️ This PDF seems to be empty."
  | MsgCancelled i total =>
      "❌ Conversion cancelled at page " +:+ Py.str i +:+ "/" +:+ Py.str total +:+ "."
  | MsgProgress percent page_num total =>
      "Processing… " +:+ Py.str percent +:+ "% done ⏳ " +:+
      "(" +:+ Py.str page_num +:+ "/" +:+ Py.str total +:+ " pages)"
  | MsgNoTables => "⚠️ I couldn't detect any tables in this PDF."
  | MsgComplete => "✅ Conversion complete! Sending your Excel file…"
  | MsgError =>
      "❌ An error occurred while converting your PDF. Please try again later."
  | MsgBotGreeting => "Send me a PDF, I’ll convert it to Excel 😊"
  | MsgBotPleaseSend => "Please send a PDF file."
  | MsgBotGotIt => "Got your PDF, converting to Excel. Please wait..."
  | MsgBotNoTables => "Sorry, I couldn’t detect any tables in this PDF."
  end.

Definition caption_app : string := "Here is your converted Excel file 😊".
Definition caption_bot : string := "Here is your Excel file ✅".

(** An uploaded document: the name and the size its sender declares, and
    what downloading it yields. *)
Record Document := {
  file_name : string;
  file_size : option Z;
  content : File
}.

(** A call of the Telegram API. *)
Inductive TgCall :=
| edit_message_text (chat_id : Z) (message_id : nat) (m : Msg)
| send_document (chat_id : Z) (document : File) (filename caption : string)
| reply_text (chat_id : Z) (m : Msg).

(** ** The shared world *)

(** The arguments a worker thread is created with. *)
Record ThreadArgs := {
  t_chat_id : Z;
  t_status_message_id : nat;
  t_pdf_path : string;
  t_excel_path : string;
  t_cancel_event : nat
}.

(** An entry of [active_jobs]: [{"cancel_event": Event, "thread": Thread}].
    The event is a reference into the store of events, shared with the
    worker that received the same reference as an argument. *)
Record JobEntry := {
  cancel_event : nat;
  thread : ThreadArgs
}.

Inductive LogRecord :=
| LogJobStart (chat_id : Z) (pdf_path : string)
| LogTooManyPages (total_pages : nat) (chat_id : Z)
| LogJobCancelled (chat_id : Z)
| LogExtractError (page_num : nat) (chat_id : Z)
| LogProgressFailed
| LogJobCompleted (chat_id : Z)
| LogUnhandled
| LogErrorEditFailed
| LogDeleteFailed
| LogStartCommand (chat_id : Z)
| LogStopCommand (chat_id : Z)
| LogReceived (chat_id : Z) (file_name : string) (file_size : option Z)
| LogRejectedSize (chat_id : Z) (file_size : option Z)
| LogDownloaded (pdf_path : string) (chat_id : Z)
| LogDownloadError
| LogThreadStarted (chat_id : Z).

Record World := {
  active_jobs : gmap Z JobEntry;       (* the dictionary [active_jobs] *)
  events : list bool;                  (* the [threading.Event] objects *)
  files : gmap string File;            (* the file system *)
  outbox : list (TgCall * bool);       (* Telegram calls issued; delivered? *)
  extracted : list (Z * nat);          (* [extract_table] calls: chat, page index *)
  started : list ThreadArgs;           (* threads started *)
  logs : list LogRecord
}.

Definition set_active_jobs (f : gmap Z JobEntry -> gmap Z JobEntry) (w : World) : World :=
  {| active_jobs := f (active_jobs w); events := events w; files := files w;
     outbox := outbox w; extracted := extracted w; started := started w;
     logs := logs w |}.

Definition set_events (f : list bool -> list bool) (w : World) : World :=
  {| active_jobs := active_jobs w; events := f (events w); files := files w;
     outbox := outbox w; extracted := extracted w; started := started w;
     logs := logs w |}.

Definition set_files (f : gmap string File -> gmap string File) (w : World) : World :=
  {| active_jobs := active_jobs w; events := events w; files := f (files w);
     outbox := outbox w; extracted := extracted w; started := started w;
     logs := logs w |}.

Definition set_outbox (f : list (TgCall * bool) -> list (TgCall * bool)) (w : World) : World :=
  {| active_jobs := active_jobs w; events := events w; files := files w;
     outbox := f (outbox w); extracted := extracted w; started := started w;
     logs := logs w |}.

Definition set_extracted (f : list (Z * nat) -> list (Z * nat)) (w : World) : World :=
  {| active_jobs := active_jobs w; events := events w; files := files w;
     outbox := outbox w; extracted := f (extracted w); started := started w;
     logs := logs w |}.

Definition set_started (f : list ThreadArgs -> list ThreadArgs) (w : World) : World :=
  {| active_jobs := active_jobs w; events := events w; files := files w;
     outbox := outbox w; extracted := extracted w; started := f (started w);
     logs := logs w |}.

Definition set_logs (f : list LogRecord -> list LogRecord) (w : World) : World :=
  {| active_jobs := active_jobs w; events := events w; files := files w;
     outbox := outbox w; extracted := extracted w; started := started w;
     logs := f (logs w) |}.

Definition empty_world : World :=
  {| active_jobs := ∅; events := []; files := ∅; outbox := [];
     extracted := []; started := []; logs := [] |}.

(** ** Control flow: values, [return] and exceptions *)

(** How a block of statements ends: it falls through with a value, it
    executes [return], or it raises. *)
Inductive Res (A : Type) :=
| Val (a : A)
| Returned
| Raised.
Arguments Val {A} a.
Arguments Returned {A}.
Arguments Raised {A}.

Definition M (A : Type) : Type := World -> Res A * World.

#[export] Instance M_ret : MRet M := fun A a w => (Val a, w).

#[export] Instance M_bind : MBind M := fun A B f m w =>
  match m w with
  | (Val a, w') => f a w'
  | (Returned, w') => (Returned, w')
  | (Raised, w') => (Raised, w')
  end.

Definition return_ {A} : M A := fun w => (Returned, w).
Definition raise {A} : M A := fun w => (Raised, w).
Definition modify (f : World -> World) : M unit := fun w => (Val tt, f w).
Definition gets {A} (f : World -> A) : M A := fun w => (Val (f w), w).

(** [try: body except Exception: handler]. *)
Definition try_except {A} (body handler : M A) : M A := fun w =>
  match body w with
  | (Raised, w') => handler w'
  | r => r
  end.

(** [try: body finally: fin]: [fin] runs however [body] ended; the way
    [body] ended stands unless [fin] itself leaves in another way. *)
Definition try_finally {A} (body : M A) (fin : M unit) : M A := fun w =>
  match body w with
  | (r, w') =>
      match fin w' with
      | (Val _, w'') => (r, w'')
      | (Returned, w'') => (Returned, w'')
      | (Raised, w'') => (Raised, w'')
      end
  end.

(** The body of a function seen from its caller: [return] ends the call. *)
Definition call (body : M unit) : M unit := fun w =>
  match body w with
  | (Returned, w') => (Val tt, w')
  | r => r
  end.

(** [for x in l: ws = f(ws, x)], the accumulator being the sheet. *)
Fixpoint for_each {A S : Type} (f : S -> A -> M S) (s : S) (l : list A) : M S :=
  match l with
  | [] => mret s
  | x :: l' => s' ← f s x; for_each f s' l'
  end.

Definition log (r : LogRecord) : M unit := modify (set_logs (fun l => l ++ [r])).

(** Handlers reply through [message.reply_text]; the message Telegram
    creates is identified by its position among the calls issued. *)
Definition reply (chat_id : Z) (m : Msg) : M nat := fun w =>
  (Val (length (outbox w)),
   set_outbox (fun l => l ++ [(reply_text chat_id m, true)]) w).

(** ** app.py *)

Module App.

Definition MAX_PAGES : nat := 3000.
Definition MAX_FILE_SIZE_BYTES : Z := 20 * 1024 * 1024.
Definition PROGRESS_STEPS : nat := 10.

(** *** What the surroundings decide

    The operations of the worker that may raise, and the environment of one
    run: which of them raise, and before which checks of the loop another
    thread signals the cancel event of the job.  In one run no operation is
    issued twice (the progress texts differ in their page number), so a
    predicate on operations covers every pattern of faults. *)
Inductive Op :=
| OpTelegram (c : TgCall)
| OpAppend (page_num row : nat)
| OpSave (path : string).

Record Env := {
  raises : Op -> bool;
  signalled_before : nat -> bool
}.

Section Worker.

Variable env : Env.
Variable remove_raises : string -> bool.   (* [os.remove] fails on these paths *)

Variable chat_id : Z.
Variable status_message_id : nat.
Variables pdf_path excel_path : string.
Variable cancel_event : nat.

(** A call of the Telegram API from the worker: it is issued, and it is
    delivered or it raises. *)
Definition telegram (c : TgCall) : M unit := fun w =>
  if raises env (OpTelegram c)
  then (Raised, set_outbox (fun l => l ++ [(c, false)]) w)
  else (Val tt, set_outbox (fun l => l ++ [(c, true)]) w).

(** [bot.edit_message_text] on the status message of the job. *)
Definition edit (m : Msg) : M unit :=
  telegram (edit_message_text chat_id status_message_id m).

(** [cancel_event.is_set()], and the point between two iterations at which
    the other threads run. *)
Definition is_set : M bool :=
  gets (fun w => default false (events w !! cancel_event)).

Definition interleave (i : nat) : M unit :=
  if signalled_before env i
  then modify (set_events (fun l => <[cancel_event := true]> l))
  else mret tt.

(** [pdf.pages[i]] and [page.extract_table()]. *)
Definition get_page (pages : list Page) (i : nat) : M Page := fun w =>
  match pages !! i with
  | Some p => (Val p, w)
  | None => (Raised, w)
  end.

Definition extract_table (i : nat) (page : Page) : M (option Table) := fun w =>
  let w' := set_extracted (fun l => l ++ [(chat_id, i)]) w in
  match page with
  | ExtractReturns t => (Val t, w')
  | ExtractRaises => (Raised, w')
  end.

(** [if table:] holds for a list with at least one row. *)
Definition rows_of (table : option Table) : list Row :=
  match table with
  | Some rows => rows
  | None => []
  end.

(** [ws.append(row)] for the row of index [fst jr] of the table of a page. *)
Definition append_row (page_num : nat) (ws : Worksheet) (jr : nat * Row) : M Worksheet :=
  if raises env (OpAppend page_num (fst jr)) then raise
  else mret (Openpyxl.append ws (snd jr)).

(** [int(page_num * 100 / total_pages_to_process)].  The division of the
    source is the division of floats; for the numbers at hand (a numerator
    of at most 300000, a denominator of at most 3000) a quotient that is
    not an integer lies further from the next one than a float rounds, so
    that truncating it gives the integer quotient. *)
Definition percent_of (page_num total_pages_to_process : nat) : nat :=
  page_num * 100 / total_pages_to_process.

(** One turn of the loop of lines 97-139. *)
Definition iteration (pages : list Page) (total_pages_to_process step : nat)
    (ws : Worksheet) (i : nat) : M Worksheet :=
  interleave i ;;
  c ← is_set;
  if c : bool then
    log (LogJobCancelled chat_id) ;;
    edit (MsgCancelled i total_pages_to_process) ;;
    return_
  else
    let page_num := i + 1 in
    page ← get_page pages i;
    table ← try_except (extract_table i page)
                       (log (LogExtractError page_num chat_id) ;; mret None);
    ws' ← for_each (append_row page_num) ws
                   (combine (seq 0 (length (rows_of table))) (rows_of table));
    (if (page_num mod step =? 0) || (page_num =? total_pages_to_process) then
       let percent := percent_of page_num total_pages_to_process in
       try_except
         (edit (MsgProgress percent page_num total_pages_to_process))
         (log LogProgressFailed)
     else mret tt) ;;
    mret ws'.

(** The block under [with pdfplumber.open(pdf_path) as pdf] (lines 75-139). *)
Definition convert (ws : Worksheet) : M Worksheet :=
  f ← gets (fun w => files w !! pdf_path);
  match f with
  | Some (PdfFile pages) =>
      let total_pages := length pages in
      if total_pages =? 0 then
        edit MsgEmpty ;; return_
      else
        (if MAX_PAGES <? total_pages
         then log (LogTooManyPages total_pages chat_id) else mret tt) ;;
        let total_pages_to_process := min total_pages MAX_PAGES in
        let step := max 1 (total_pages_to_process / PROGRESS_STEPS) in
        for_each (iteration pages total_pages_to_process step) ws
                 (seq 0 total_pages_to_process)
  | _ => raise
  end.

(** The test of line 142. *)
Definition sheet_is_blank (ws : Worksheet) : bool :=
  (max_row ws =? 1) && forallb is_None (row_values ws 1).

(** [wb.save(path)] and [open(path, "rb")]. *)
Definition save (path : string) (ws : Worksheet) : M unit := fun w =>
  if raises env (OpSave path) then (Raised, w)
  else (Val tt, set_files (fun fs => <[path := XlsxFile ws]> fs) w).

Definition open_rb (path : string) : M File := fun w =>
  match files w !! path with
  | Some f => (Val f, w)
  | None => (Raised, w)
  end.

(** Lines 141-167. *)
Definition deliver (ws : Worksheet) : M unit :=
  if sheet_is_blank ws then
    edit MsgNoTables ;; return_
  else
    save excel_path ws ;;
    edit MsgComplete ;;
    f ← open_rb excel_path;
    telegram (send_document chat_id f (Py.basename excel_path) caption_app) ;;
    log (LogJobCompleted chat_id).

(** [os.path.exists(path)] and [os.remove(path)]. *)
Definition path_exists (path : string) : M bool :=
  gets (fun w => bool_decide (is_Some (files w !! path))).

Definition remove (path : string) : M unit := fun w =>
  if remove_raises path then (Raised, w)
  else (Val tt, set_files (fun fs => delete path fs) w).

(** The [finally] block (lines 180-190). *)
Definition cleanup : M unit :=
  modify (set_active_jobs (fun jobs => delete chat_id jobs)) ;;
  try_except
    (b ← path_exists pdf_path;
     (if b : bool then remove pdf_path else mret tt) ;;
     b' ← path_exists excel_path;
     (if b' : bool then remove excel_path else mret tt))
    (log LogDeleteFailed).

(** The [except Exception] block (lines 169-179). *)
Definition on_error : M unit :=
  log LogUnhandled ;;
  try_except (edit MsgError) (log LogErrorEditFailed).

(** The worker: the first line of its log, then [try], [except] and
    [finally]. *)
Definition process_pdf_async : M unit :=
  call
    (log (LogJobStart chat_id pdf_path) ;;
     try_finally
       (try_except
          (edit MsgProcessing ;;
           ws ← convert Workbook;
           deliver ws)
          on_error)
       cleanup).

End Worker.

(** *** Handlers

    The dispatcher hands [handle_pdf] the documents whose MIME type is that
    of a PDF, [start] and [stop] the two commands.  The replies of the
    handlers are taken to be delivered; the one failure the handlers
    provide for is that of the download. *)

Definition start (chat_id : Z) : M unit :=
  call
    (log (LogStartCommand chat_id) ;;
     reply chat_id MsgGreeting ;;
     mret tt).

Definition stop (chat_id : Z) : M unit :=
  call
    (log (LogStopCommand chat_id) ;;
     job ← gets (fun w => active_jobs w !! chat_id);
     match job with
     | None => reply chat_id MsgNoActive ;; return_
     | Some job =>
         modify (set_events (fun l => <[cancel_event job := true]> l)) ;;
         reply chat_id MsgStopRequested ;;
         mret tt
     end).

(** The two paths of line 263-264. *)
Definition pdf_path_of (document : Document) : string :=
  "/tmp/" +:+ file_name document.

Definition excel_path_of (document : Document) : string :=
  Py.replace (pdf_path_of document) ".pdf" ".xlsx".

Definition is_pdf_name (document : Document) : bool :=
  Py.endswith (Py.lower (file_name document)) ".pdf".

Definition too_large (document : Document) : bool :=
  match file_size document with
  | Some n => negb (n =? 0)%Z && (MAX_FILE_SIZE_BYTES <? n)%Z
  | None => false
  end.

(** [handle_pdf] in three parts, cut where it gives up [jobs_lock]:
    the checks up to the first critical section (lines 235-260), the
    download and the creation of the thread (lines 262-283), the second
    critical section and the start of the thread (lines 285-292). *)
Definition admission (chat_id : Z) (document : Document) : M unit :=
  log (LogReceived chat_id (file_name document) (file_size document)) ;;
  (if negb (is_pdf_name document) then
     reply chat_id MsgPleaseUpload ;; return_
   else mret tt) ;;
  (if too_large document then
     let mb := Z.to_nat (MAX_FILE_SIZE_BYTES / (1024 * 1024)) in
     reply chat_id (MsgTooLarge mb) ;;
     log (LogRejectedSize chat_id (file_size document)) ;;
     return_
   else mret tt) ;;
  existing ← gets (fun w => active_jobs w !! chat_id);
  match existing with
  | Some _ => reply chat_id MsgAlreadyRunning ;; return_
  | None => mret tt
  end.

(** [threading.Event()]: a new event, not set. *)
Definition new_event : M nat := fun w =>
  (Val (length (events w)), set_events (fun l => l ++ [false]) w).

Definition fetch (download_raises : bool) (chat_id : Z) (document : Document)
    : M ThreadArgs :=
  let pdf_path := pdf_path_of document in
  let excel_path := excel_path_of document in
  try_except
    (if download_raises then raise
     else
       modify (set_files (fun fs => <[pdf_path := content document]> fs)) ;;
       log (LogDownloaded pdf_path chat_id))
    (log LogDownloadError ;;
     reply chat_id MsgDownloadFailed ;;
     return_) ;;
  status_message_id ← reply chat_id MsgStarting;
  cancel_event ← new_event;
  mret {| t_chat_id := chat_id;
          t_status_message_id := status_message_id;
          t_pdf_path := pdf_path;
          t_excel_path := excel_path;
          t_cancel_event := cancel_event |}.

Definition register_and_start (thread : ThreadArgs) : M unit :=
  modify (set_active_jobs (fun jobs =>
    <[t_chat_id thread := {| cancel_event := t_cancel_event thread;
                             thread := thread |}]> jobs)) ;;
  modify (set_started (fun l => l ++ [thread])) ;;
  log (LogThreadStarted (t_chat_id thread)).

Definition handle_pdf (download_raises : bool) (chat_id : Z) (document : Document)
    : M unit :=
  call
    (admission chat_id document ;;
     thread ← fetch download_raises chat_id document;
     register_and_start thread).

(** The worker of a started thread. *)
Definition run_thread (env : Env) (remove_raises : string -> bool) (t : ThreadArgs)
    : M unit :=
  process_pdf_async env remove_raises (t_chat_id t) (t_status_message_id t)
    (t_pdf_path t) (t_excel_path t) (t_cancel_event t).

(** *** Handlers running side by side

    The web server runs one [handle_pdf] per request, and requests may
    overlap.  [jobs_lock] makes each critical section atomic, nothing more:
    a handler is at one of these points, and a step of the system runs one
    handler from its point up to the next. *)
Inductive Point :=
| AtAdmission
| AtFetch
| AtRegister (thread : ThreadArgs)
| Finished.

Record Handler := {
  h_chat_id : Z;
  h_document : Document;
  h_download_raises : bool;
  h_point : Point
}.

Definition at_point (h : Handler) (p : Point) : Handler :=
  {| h_chat_id := h_chat_id h; h_document := h_document h;
     h_download_raises := h_download_raises h; h_point := p |}.

Definition handler_step (h : Handler) (w : World) : Handler * World :=
  match h_point h with
  | AtAdmission =>
      match admission (h_chat_id h) (h_document h) w with
      | (Val _, w') => (at_point h AtFetch, w')
      | (_, w') => (at_point h Finished, w')
      end
  | AtFetch =>
      match fetch (h_download_raises h) (h_chat_id h) (h_document h) w with
      | (Val thread, w') => (at_point h (AtRegister thread), w')
      | (_, w') => (at_point h Finished, w')
      end
  | AtRegister thread =>
      (at_point h Finished, snd (register_and_start thread w))
  | Finished => (h, w)
  end.

(** A schedule names, step by step, the handler that moves. *)
Fixpoint run_schedule (schedule : list nat) (hs : list Handler) (w : World)
    : list Handler * World :=
  match schedule with
  | [] => (hs, w)
  | n :: schedule' =>
      match hs !! n with
      | Some h =>
          let '(h', w') := handler_step h w in
          run_schedule schedule' (<[n := h']> hs) w'
      | None => run_schedule schedule' hs w
      end
  end.

Definition incoming (chat_id : Z) (document : Document) : Handler :=
  {| h_chat_id := chat_id; h_document := document;
     h_download_raises := false; h_point := AtAdmission |}.

(** The jobs of a client that are under way: threads started for it.  (No
    worker has finished in a world no worker has run in.) *)
Definition jobs_of (chat_id : Z) (w : World) : list ThreadArgs :=
  filter (fun t => t_chat_id t = chat_id) (started w).

End App.

(** ** Bot.py *)

Module BotPy.

Definition pdf_path_of (doc : Document) : string := "/tmp/" +:+ file_name doc.

Definition xlsx_path_of (doc : Document) : string :=
  Py.replace (pdf_path_of doc) ".pdf" ".xlsx".

(** The loop of lines 30-35; an exception of [extract_table] is not caught. *)
Definition collect (chat_id : Z) (all_rows : list Row) (ip : nat * Page)
    : M (list Row) := fun w =>
  let w' := set_extracted (fun l => l ++ [(chat_id, fst ip)]) w in
  match snd ip with
  | ExtractReturns (Some rows) => (Val (all_rows ++ rows), w')
  | ExtractReturns None => (Val all_rows, w')
  | ExtractRaises => (Raised, w')
  end.

(** [pd.DataFrame(all_rows).to_excel(xlsx_path, index=False)] (lines
    41-42): the frame is written when pandas has a writer for the extension
    of the path; otherwise [to_excel] raises and nothing is written. *)
Definition to_excel (path : string) (all_rows : list Row) : M unit := fun w =>
  if Pandas.has_writer path
  then (Val tt, set_files (fun fs => <[path := FrameFile all_rows]> fs) w)
  else (Raised, w).

Definition start (chat_id : Z) : M unit :=
  call (reply chat_id MsgBotGreeting ;; mret tt).

Definition handle_document (chat_id : Z) (doc : Document) : M unit :=
  call
    ((if negb (Py.endswith (Py.lower (file_name doc)) ".pdf") then
        reply chat_id MsgBotPleaseSend ;; return_
      else mret tt) ;;
     reply chat_id MsgBotGotIt ;;
     let pdf_path := pdf_path_of doc in
     let xlsx_path := xlsx_path_of doc in
     modify (set_files (fun fs => <[pdf_path := content doc]> fs)) ;;
     f ← gets (fun w => files w !! pdf_path);
     all_rows ← match f with
                | Some (PdfFile pages) =>
                    for_each (collect chat_id) []
                             (combine (seq 0 (length pages)) pages)
                | _ => raise
                end;
     match all_rows with
     | [] => reply chat_id MsgBotNoTables ;; return_
     | _ =>
         to_excel xlsx_path all_rows ;;
         modify (set_outbox (fun l => l ++
           [(send_document chat_id (FrameFile all_rows)
                           (Py.basename xlsx_path) caption_bot, true)]))
     end).

End BotPy.

(** ** What a run shows

    The code keeps no record of the state of a job: what a client, or a
    test, can observe of a run is the calls it issued, the pages it
    extracted and the files and registry it left. *)

(** The calls issued between two worlds. *)
Definition issued (w w' : World) : list (TgCall * bool) :=
  drop (length (outbox w)) (outbox w').

(** The pages extracted between two worlds. *)
Definition processed (w w' : World) : list (Z * nat) :=
  drop (length (extracted w)) (extracted w').

Inductive Reason := EmptyDocument | NoTableDetected | Unexpected.

Inductive JobState := Completed | Cancelled | Failed (reason : Reason).

(** The terminal state a notification announces; [None] for the
    notifications of a job under way. *)
Definition announces (c : TgCall) : option JobState :=
  match c with
  | edit_message_text _ _ MsgEmpty => Some (Failed EmptyDocument)
  | edit_message_text _ _ (MsgCancelled _ _) => Some Cancelled
  | edit_message_text _ _ MsgNoTables => Some (Failed NoTableDetected)
  | edit_message_text _ _ MsgError => Some (Failed Unexpected)
  | edit_message_text _ _ MsgComplete => Some Completed
  | send_document _ _ _ _ => Some Completed
  | _ => None
  end.

Definition is_terminal (c : TgCall) : bool :=
  match announces c with Some _ => true | None => false end.

(** The state a job ended in: what its last notification announces. *)
Definition final_state (calls : list (TgCall * bool)) : option JobState :=
  match last calls with
  | Some (c, _) => announces c
  | None => None
  end.

(** The unit count and the percentage of a progress report. *)
Definition unit_count (c : TgCall) : option nat :=
  match c with
  | edit_message_text _ _ (MsgProgress _ page_num _) => Some page_num
  | _ => None
  end.

Definition percentage (c : TgCall) : option nat :=
  match c with
  | edit_message_text _ _ (MsgProgress percent _ _) => Some percent
  | _ => None
  end.

Definition text_of (c : TgCall) : string :=
  match c with
  | edit_message_text _ _ m => text m
  | reply_text _ m => text m
  | send_document _ _ _ caption => caption
  end.

(** The progress reports due on the pages [a+1 .. a+k] of a run over
    [total] pages: the calls of line 130, in the order of the loop. *)
Definition report_due (total step i : nat) : bool :=
  ((i + 1) mod step =? 0) || (i + 1 =? total).

Definition report (chat_id : Z) (message_id total i : nat) : TgCall :=
  edit_message_text chat_id message_id
    (MsgProgress (App.percent_of (i + 1) total) (i + 1) total).

Definition reports (chat_id : Z) (message_id total step a k : nat) : list TgCall :=
  map (report chat_id message_id total)
      (filter (fun i => report_due total step i = true) (seq a k)).

(** The rows a page gives the sheet: those of its table, none when it has
    no table or when its extraction raises. *)
Definition table_of (p : Page) : list Row :=
  match p with
  | ExtractReturns t => App.rows_of t
  | ExtractRaises => []
  end.

(** The sheet after the tables of some pages were appended to it. *)
Definition sheet_after (pages : list Page) (ws : Worksheet) : Worksheet :=
  fold_left (fun ws p => fold_left Openpyxl.append (table_of p) ws) pages ws.

(** The rows a run over some pages produced. *)
Definition rows_produced (pages : list Page) : list Row :=
  flat_map table_of pages.

(** An environment without faults, and one whose cancel event is first
    signalled before the check of unit [k]. *)
Definition quiet (env : App.Env) : Prop :=
  forall op, App.raises env op = false.

Definition first_signalled (env : App.Env) (k : nat) : Prop :=
  App.signalled_before env k = true /\
  forall j, j < k -> App.signalled_before env j = false.

(** ** Vocabulary of the proofs *)

(** A computation preserves a relation between the world it starts in and
    the world it ends in. *)
Definition preserves {A} (R : World -> World -> Prop) (m : M A) : Prop :=
  forall w, R w (snd (m w)).

(** Worlds with the same registry and the same threads. *)
Definition same_registry (w w' : World) : Prop :=
  active_jobs w' = active_jobs w /\ started w' = started w.

(** The worker up to its [finally] block: the [try] with its [except]. *)
Definition guarded (env : App.Env) (chat_id : Z) (status_message_id : nat)
    (pdf_path excel_path : string) (cancel_event : nat) : M unit :=
  try_except
    (App.edit env chat_id status_message_id MsgProcessing ;;
     ws ← App.convert env chat_id status_message_id pdf_path cancel_event Workbook;
     App.deliver env chat_id status_message_id excel_path ws)
    (App.on_error env chat_id status_message_id).

(** From [w] to [w'] a job issued the calls [calls], all delivered, and
    extracted the pages [pages]; the registry, the events, the files and
    the threads stand, and the log has grown. *)
Definition advanced (chat_id : Z) (calls : list TgCall) (pages : list nat)
    (w w' : World) : Prop :=
  active_jobs w' = active_jobs w /\
  events w' = events w /\
  files w' = files w /\
  started w' = started w /\
  outbox w' = outbox w ++ map (fun c => (c, true)) calls /\
  extracted w' = extracted w ++ map (pair chat_id) pages /\
  logs w `prefix_of` logs w'.

(** The calls of a job from its first to its last: the processing text,
    the progress reports due on its first [k] pages, and an ending of
    terminal notifications. *)
Definition job_shape (chat_id : Z) (message_id : nat) (calls : list TgCall) : Prop :=
  exists total step k ending,
    calls =
      edit_message_text chat_id message_id MsgProcessing ::
      reports chat_id message_id total step 0 k ++ ending /\
    ending <> [] /\
    Forall (fun c => is_terminal c = true) ending.

(** The cells [ws.append] writes for the rows [rows], the first of them
    going to the row after [n]. *)
Fixpoint cells_from (n : nat) (rows : list Row) : list ((nat * nat) * Cell) :=
  match rows with
  | [] => []
  | row :: rows' =>
      imap (fun j v => ((S n, S j), v)) row ++ cells_from (S n) rows'
  end.

(** A sheet the test of line 142 takes for an empty one, read off the rows
    appended to a new sheet: the first row holds no value and no later row
    holds a cell. *)
Definition looks_empty (rows : list Row) : Prop :=
  match rows with
  | [] => True
  | row :: rows' => Forall (fun c => c = None) row /\ Forall (fun r => r = []) rows'
  end.

(** A call that sends a file. *)
Definition sends_file (c : TgCall) : bool :=
  match c with
  | send_document _ _ _ _ => true
  | _ => false
  end.

(** ** Concrete inputs *)

Definition failing_notifier : App.Env :=
  {| App.raises := fun op => match op with App.OpTelegram _ => true | _ => false end;
     App.signalled_before := fun _ => false |}.

Definition registered_job : World :=
  snd (App.handle_pdf false 7
         {| file_name := "r.pdf"; file_size := Some 100%Z;
            content := PdfFile [ExtractReturns (Some [[Some "a"]])] |}
         empty_world).

Definition report_pdf : Document :=
  {| file_name := "report.pdf"; file_size := Some 100%Z;
     content := PdfFile [ExtractReturns (Some [[Some "a"]])] |}.

Definition invoice_pdf : Document :=
  {| file_name := "invoice.pdf"; file_size := Some 200%Z;
     content := PdfFile [ExtractReturns (Some [[Some "b"]])] |}.

Definition huge_pdf : Document :=
  {| file_name := "huge.pdf"; file_size := Some 20971521%Z;
     content := PdfFile [ExtractReturns (Some [[Some "c"]])] |}.

Definition twice_pdf : Document :=
  {| file_name := "a.pdf.pdf"; file_size := None; content := PdfFile [] |}.

Definition capital_pdf : Document :=
  {| file_name := "scan.PDF"; file_size := None;
     content := PdfFile [ExtractReturns (Some [[Some "d"]])] |}.

(** Two uploads of one client in flight at once, and the order in which
    their handlers move: both pass the first critical section before
    either reaches the second. *)
Definition two_uploads : list App.Handler :=
  [App.incoming 7 report_pdf; App.incoming 7 invoice_pdf].

Definition overlapping : list nat := [0; 1; 0; 1; 0; 1].
Definition one_after_the_other : list nat := [0; 0; 0; 1; 1; 1].

(** The scenario of 25 pages: rows on pages 1-10 and 20-25, and the cancel
    event signalled once page 12 is processed, that is, before the check
    that precedes page 13. *)
Definition with_rows : Page := ExtractReturns (Some [[Some "x"; Some "y"]]).
Definition without_rows : Page := ExtractReturns None.

Definition scenario_pdf : Document :=
  {| file_name := "scenario.pdf"; file_size := Some 4096%Z;
     content := PdfFile (replicate 10 with_rows ++ replicate 9 without_rows ++
                         replicate 6 with_rows) |}.

Definition scenario_world : World :=
  snd (App.handle_pdf false 7 scenario_pdf empty_world).

Definition signalled_after (pages_done : nat) : App.Env :=
  {| App.raises := fun _ => false;
     App.signalled_before := fun i => i =? pages_done |}.

Definition never_signalled : App.Env :=
  {| App.raises := fun _ => false; App.signalled_before := fun _ => false |}.

Definition scenario_run (env : App.Env) : World :=
  snd (App.process_pdf_async env (fun _ => false) 7 0
         "/tmp/scenario.pdf" "/tmp/scenario.xlsx" 0 scenario_world).

(** A document of one page more than the ceiling. *)
Definition long_world : World :=
  set_files (fun fs => <["/tmp/long.pdf" := PdfFile (replicate 3001 with_rows)]> fs)
            empty_world.

(** A document without pages, and one whose only row has an empty cell. *)
Definition empty_world_pdf : World :=
  set_files (fun fs => <["/tmp/empty.pdf" := PdfFile []]> fs) empty_world.

Definition blank_row_pdf : Document :=
  {| file_name := "blank.pdf"; file_size := Some 512%Z;
     content := PdfFile [ExtractReturns (Some [[None]])] |}.

Definition blank_row_world : World :=
  snd (App.handle_pdf false 7 blank_row_pdf empty_world).

(** The threads [handle_pdf] creates for two clients that upload
    [report.pdf], the first in the empty world. *)
Definition first_thread : ThreadArgs :=
  {| t_chat_id := 1; t_status_message_id := 0;
     t_pdf_path := "/tmp/report.pdf"; t_excel_path := "/tmp/report.xlsx";
     t_cancel_event := 0 |}.

Definition second_thread : ThreadArgs :=
  {| t_chat_id := 2; t_status_message_id := 1;
     t_pdf_path := "/tmp/report.pdf"; t_excel_path := "/tmp/report.xlsx";
     t_cancel_event := 1 |}.

(** Two clients with a job each. *)
Definition two_clients : World :=
  snd (App.handle_pdf false 2 invoice_pdf
         (snd (App.handle_pdf false 1 report_pdf empty_world))).

(** A world whose source path holds something that is not a PDF, and a
    document whose second page cannot be extracted. *)
Definition garbage_world : World :=
  set_files (fun fs => <["/tmp/garbage.pdf" := OtherFile]> fs) empty_world.

Definition torn_world : World :=
  set_files (fun fs => <["/tmp/torn.pdf" :=
                           PdfFile [with_rows; ExtractRaises; with_rows]]> fs)
            empty_world.

(** An environment in which every edit that reports progress fails. *)
Definition flaky_progress : App.Env :=
  {| App.raises := fun op =>
       match op with
       | App.OpTelegram (edit_message_text _ _ (MsgProgress _ _ _)) => true
       | _ => false
       end;
     App.signalled_before := fun _ => false |}.

(** A document of as many pages as the ceiling, the first 3000 of the
    document of [long_world]. *)
Definition exact_world : World :=
  set_files (fun fs => <["/tmp/long.pdf" := PdfFile (replicate 3000 with_rows)]> fs)
            empty_world.

(** ** Vocabulary of the further properties *)

(** The job [handle_pdf] registers for a document in a world: its status
    message is the reply about to be issued, its event the one about to be
    created. *)
Definition job_for (chat_id : Z) (document : Document) (w : World) : ThreadArgs :=
  {| t_chat_id := chat_id;
     t_status_message_id := length (outbox w);
     t_pdf_path := App.pdf_path_of document;
     t_excel_path := App.excel_path_of document;
     t_cancel_event := length (events w) |}.

(** A registry whose entries refer to events that exist, no two clients to
    the same one. *)
Definition well_formed (w : World) : Prop :=
  forall c j, active_jobs w !! c = Some j ->
    cancel_event j < length (events w) /\
    forall c' j', active_jobs w !! c' = Some j' ->
      cancel_event j' = cancel_event j -> c' = c.

(** Worlds with as many events. *)
Definition same_events_length (w w' : World) : Prop :=
  length (events w') = length (events w).

(** Worlds whose files agree but at the path [path]. *)
Definition same_files_but (path : string) (w w' : World) : Prop :=
  forall p, p <> path -> files w' !! p = files w !! p.

(** From [w] to [w'] calls were issued that all satisfy [P]. *)
Definition issues (P : TgCall -> Prop) (w w' : World) : Prop :=
  exists l, outbox w' = outbox w ++ l /\ Forall (fun cb => P (fst cb)) l.

(** The numbers a notification of the worker shows are within bounds: a
    progress report counts from 1 to the pages of the run, which are at
    most [MAX_PAGES], and shows at most 100 percent; a cancellation text
    shows fewer pages than the run has. *)
Definition within_bounds (c : TgCall) : Prop :=
  match c with
  | edit_message_text _ _ (MsgProgress percent page_num total) =>
      1 <= page_num <= total /\ total <= App.MAX_PAGES /\ percent <= 100
  | edit_message_text _ _ (MsgCancelled i total) =>
      i < total /\ total <= App.MAX_PAGES
  | _ => True
  end.

(** An environment in which nothing raises but, possibly, the edits that
    report progress. *)
Definition only_progress_fails (env : App.Env) : Prop :=
  forall op, App.raises env op = true ->
    exists chat_id message_id percent page_num total,
      op = App.OpTelegram
             (edit_message_text chat_id message_id
                (MsgProgress percent page_num total)).

(** A page whose extraction raises, taken for a page without table. *)
Definition healed (p : Page) : Page :=
  match p with
  | ExtractRaises => ExtractReturns None
  | _ => p
  end.

(** The environment [env] with its faults taken out: nothing raises, the
    cancel event is signalled as in [env]. *)
Definition without_faults (env : App.Env) : App.Env :=
  {| App.raises := fun _ => false;
     App.signalled_before := App.signalled_before env |}.

(** Worlds that differ in their logs and in which calls were delivered,
    and in nothing else. *)
Definition same_but_delivery (w1 w2 : World) : Prop :=
  active_jobs w1 = active_jobs w2 /\
  events w1 = events w2 /\
  files w1 = files w2 /\
  map fst (outbox w1) = map fst (outbox w2) /\
  extracted w1 = extracted w2 /\
  started w1 = started w2.

(** Two computations that, from such worlds, end in the same way and in
    such worlds. *)
Definition simulates {A} (m1 m2 : M A) : Prop :=
  forall w1 w2, same_but_delivery w1 w2 ->
    fst (m1 w1) = fst (m2 w2) /\ same_but_delivery (snd (m1 w1)) (snd (m2 w2)).

(** A handler of [handle_pdf] for an upload that passes the tests of the
    name and of the size and whose download succeeds, at one of its points. *)
Definition handler_at (chat_id : Z) (document : Document) (p : App.Point)
    : App.Handler :=
  {| App.h_chat_id := chat_id; App.h_document := document;
     App.h_download_raises := false; App.h_point := p |}.

(** What the registry holds for the client of such a handler.  Until the
    handler has registered its job there is no entry; once it has, the
    entry is there as long as no worker has run ([untouched]), for the
    worker of the job removes it. *)
Definition registry_at (untouched : bool) (chat_id : Z) (p : App.Point) (w : World)
    : Prop :=
  match p with
  | App.Finished => if untouched then is_Some (active_jobs w !! chat_id) else True
  | App.AtRegister t => active_jobs w !! chat_id = None /\ t_chat_id t = chat_id
  | _ => active_jobs w !! chat_id = None
  end.

Definition finished (p : App.Point) : nat :=
  match p with App.Finished => 1 | _ => 0 end.

(** What moves next in the bot: a handler of [handle_pdf] goes on to its
    next point, or the worker of a thread that was started runs, in an
    environment of its own.  The worker touches the registry once, in its
    [finally] block and under [jobs_lock], and reads nothing a handler
    writes there: for the registry and the threads its run is one step,
    taken when it reaches that block. *)
Inductive Move :=
| HandlerMoves (n : nat)
| WorkerRuns (k : nat) (env : App.Env) (remove_raises : string -> bool).

Fixpoint run_system (moves : list Move) (hs : list App.Handler) (w : World)
    : list App.Handler * World :=
  match moves with
  | [] => (hs, w)
  | HandlerMoves n :: moves' =>
      match hs !! n with
      | Some h =>
          let '(h', w') := App.handler_step h w in
          run_system moves' (<[n := h']> hs) w'
      | None => run_system moves' hs w
      end
  | WorkerRuns k env remove_raises :: moves' =>
      match started w !! k with
      | Some t => run_system moves' hs (snd (App.run_thread env remove_raises t w))
      | None => run_system moves' hs w
      end
  end.

Definition handlers_only (moves : list Move) : Prop :=
  Forall (fun m => match m with HandlerMoves _ => True | _ => False end) moves.

(** The handler of a first client goes through, the worker it started runs
    to its end, and then the handler of a second client goes through. *)
Definition worker_between : list Move :=
  [HandlerMoves 0; HandlerMoves 0; HandlerMoves 0;
   WorkerRuns 0 never_signalled (fun _ => false);
   HandlerMoves 1; HandlerMoves 1; HandlerMoves 1].

(** * Properties *)


(** ** Strings and paths *)

Lemma replace_absent (old new s : string) :
  Py.contains s old = false -> Py.replace s old new = s.
Proof.
  unfold Py.replace. induction s as [|c s IH]; intros H; [reflexivity|].
  cbn [Py.contains] in H. apply orb_false_iff in H as [Hp Hc].
  cbn [Py.replace_from]. rewrite Hp. f_equal. now apply IH.
Qed.

Lemma tmp_unfold (name : string) :
  "/tmp/" +:+ name =
  String "/" (String "t" (String "m" (String "p" (String "/" name)))).
Proof. reflexivity. Qed.

Lemma contains_tmp (name sub : string) (c : ascii) (rest : string) :
  sub = String c rest -> c <> "/"%char -> c <> "t"%char -> c <> "m"%char ->
  c <> "p"%char ->
  Py.contains ("/tmp/" +:+ name) sub = Py.contains name sub.
Proof.
  intros -> H1 H2 H3 H4.
  assert (E : forall a s, a <> c -> String.prefix (String c rest) (String a s) = false).
  { intros a s Ha. cbn. destruct (ascii_dec c a); congruence. }
  rewrite tmp_unfold. cbn [Py.contains].
  rewrite !E by congruence. reflexivity.
Qed.

Lemma basename_tmp (name : string) :
  Py.contains name "/" = false -> Py.basename ("/tmp/" +:+ name) = name.
Proof.
  intros H. rewrite tmp_unfold. cbn. rewrite H.
  assert (P : String.prefix "" name = true) by (destruct name; reflexivity).
  now rewrite P.
Qed.

Lemma tmp_inj (a b : string) : "/tmp/" +:+ a = "/tmp/" +:+ b -> a = b.
Proof. rewrite !tmp_unfold. congruence. Qed.

(** ** The extension pandas looks at *)

Lemma lower_ascii_inv (c : ascii) :
  (Py.lower_ascii c = "."%char -> c = "."%char) /\
  (Py.lower_ascii c = "p"%char -> c = "p"%char \/ c = "P"%char) /\
  (Py.lower_ascii c = "d"%char -> c = "d"%char \/ c = "D"%char) /\
  (Py.lower_ascii c = "f"%char -> c = "f"%char \/ c = "F"%char).
Proof.
  destruct c as [[] [] [] [] [] [] [] []]; vm_compute;
    repeat split; intros H; try discriminate H; auto.
Qed.

(** The strings that read [.pdf] once lowered. *)
Lemma lower_is_pdf (s : string) :
  Py.lower s = ".pdf" ->
  exists p d f,
    s = String "." (String p (String d (String f EmptyString))) /\
    (p = "p" \/ p = "P")%char /\ (d = "d" \/ d = "D")%char /\
    (f = "f" \/ f = "F")%char.
Proof.
  destruct s as [|c0 [|c1 [|c2 [|c3 [|c4 s]]]]]; cbn [Py.lower]; intros H;
    try discriminate H.
  injection H as H0 H1 H2 H3.
  destruct (lower_ascii_inv c0) as (D0 & _).
  destruct (lower_ascii_inv c1) as (_ & D1 & _).
  destruct (lower_ascii_inv c2) as (_ & _ & D2 & _).
  destruct (lower_ascii_inv c3) as (_ & _ & _ & D3).
  rewrite (D0 H0). exists c1, c2, c3. auto.
Qed.

Lemma endswith_cons (c : ascii) (s suf : string) :
  Py.endswith (String c s) suf = String.eqb (String c s) suf || Py.endswith s suf.
Proof. reflexivity. Qed.

Lemma contains_cons (c : ascii) (s sub : string) :
  Py.contains (String c s) sub = String.prefix sub (String c s) || Py.contains s sub.
Proof. reflexivity. Qed.

Lemma endswith_pdf_has_dot (s : string) :
  Py.endswith (Py.lower s) ".pdf" = true -> Py.contains s "." = true.
Proof.
  induction s as [|c s IH]; [discriminate|].
  cbn [Py.lower]. rewrite endswith_cons, contains_cons. intros H.
  apply orb_true_iff in H as [H|H].
  - apply String.eqb_eq in H.
    destruct (lower_is_pdf (String c s) H) as (p & d & f & E & _).
    inversion E; subst. reflexivity.
  - rewrite (IH H). apply orb_true_r.
Qed.

Lemma no_writer_from (path : string) : forall seen,
  Py.endswith (Py.lower path) ".pdf" = true ->
  existsb (String.eqb (Py.splitext_from seen path)) Pandas.writer_extensions = false.
Proof.
  induction path as [|c s IH]; intros seen; [discriminate|].
  cbn [Py.lower]. rewrite endswith_cons. intros H.
  destruct (Py.endswith (Py.lower s) ".pdf") eqn:E.
  - cbn [Py.splitext_from].
    destruct (Ascii.eqb c "/" || Py.contains s "/"); [now apply IH|].
    rewrite (endswith_pdf_has_dot s E). now apply IH.
  - rewrite orb_false_r in H. apply String.eqb_eq in H.
    destruct (lower_is_pdf (String c s) H) as (p & d & f & Es & Hp & Hd & Hf).
    rewrite Es.
    destruct Hp as [-> | ->], Hd as [-> | ->], Hf as [-> | ->], seen;
      reflexivity.
Qed.

(** A path that ends in [.pdf], however that is spelled, has no extension
    pandas writes. *)
Lemma no_writer_for_pdf (path : string) :
  Py.endswith (Py.lower path) ".pdf" = true -> Pandas.has_writer path = false.
Proof. apply no_writer_from. Qed.

Lemma endswith_tmp (name suf : string) :
  Py.endswith (Py.lower name) suf = true ->
  Py.endswith (Py.lower ("/tmp/" +:+ name)) suf = true.
Proof.
  intros H. rewrite tmp_unfold. cbn [Py.lower].
  rewrite !endswith_cons, H. now rewrite !orb_true_r.
Qed.
Import App.

(** ** Sequencing, and what a computation leaves alone *)

Lemma bind_val {A B} (m : M A) (f : A -> M B) w a w' :
  m w = (Val a, w') -> (m ≫= f) w = f a w'.
Proof. intros H. unfold mbind, M_bind. now rewrite H. Qed.

Lemma bind_returned {A B} (m : M A) (f : A -> M B) w w' :
  m w = (Returned, w') -> (m ≫= f) w = (Returned, w').
Proof. intros H. unfold mbind, M_bind. now rewrite H. Qed.

Lemma bind_raised {A B} (m : M A) (f : A -> M B) w w' :
  m w = (Raised, w') -> (m ≫= f) w = (Raised, w').
Proof. intros H. unfold mbind, M_bind. now rewrite H. Qed.

Lemma for_each_app {A S} (f : S -> A -> M S) (l1 l2 : list A) (s : S) w :
  for_each f s (l1 ++ l2) w =
  (s' ← for_each f s l1; for_each f s' l2) w.
Proof.
  revert s w. induction l1 as [|x l1 IH]; intros s w; [reflexivity|].
  cbn [for_each app]. unfold mbind, M_bind in *.
  destruct (f s x w) as [[s'| |] w1]; auto.
Qed.

Section Frame.

Context (R : World -> World -> Prop) `{!PreOrder R}.

Lemma preserves_ret {A} (a : A) : preserves R (mret a).
Proof. intros w. cbn. reflexivity. Qed.

Lemma preserves_return {A} : preserves R (@return_ A).
Proof. intros w. cbn. reflexivity. Qed.

Lemma preserves_raise {A} : preserves R (@raise A).
Proof. intros w. cbn. reflexivity. Qed.

Lemma preserves_gets {A} (f : World -> A) : preserves R (gets f).
Proof. intros w. cbn. reflexivity. Qed.

Lemma preserves_bind {A B} (m : M A) (f : A -> M B) :
  preserves R m -> (forall a, preserves R (f a)) -> preserves R (m ≫= f).
Proof.
  intros Hm Hf w. unfold mbind, M_bind. specialize (Hm w).
  destruct (m w) as [[a| |] w1]; cbn in *; auto.
  etransitivity; [exact Hm | apply Hf].
Qed.

Lemma preserves_try_except {A} (body handler : M A) :
  preserves R body -> preserves R handler -> preserves R (try_except body handler).
Proof.
  intros Hb Hh w. unfold try_except. specialize (Hb w).
  destruct (body w) as [[a| |] w1]; cbn in *; auto.
  etransitivity; [exact Hb | apply Hh].
Qed.

Lemma preserves_try_finally {A} (body : M A) (fin : M unit) :
  preserves R body -> preserves R fin -> preserves R (try_finally body fin).
Proof.
  intros Hb Hf w. unfold try_finally. specialize (Hb w).
  destruct (body w) as [r w1]. specialize (Hf w1).
  destruct (fin w1) as [[a| |] w2]; cbn in *; etransitivity; eauto.
Qed.

Lemma preserves_call (body : M unit) : preserves R body -> preserves R (call body).
Proof.
  intros Hb w. unfold call. specialize (Hb w).
  destruct (body w) as [[a| |] w1]; cbn in *; auto.
Qed.

Lemma preserves_for_each {A S} (f : S -> A -> M S) (l : list A) :
  (forall s x, preserves R (f s x)) -> forall s, preserves R (for_each f s l).
Proof.
  intros Hf. induction l as [|x l IH]; intros s; cbn [for_each].
  - apply preserves_ret.
  - apply preserves_bind; auto.
Qed.

Lemma preserves_if {A} (b : bool) (m1 m2 : M A) :
  preserves R m1 -> preserves R m2 -> preserves R (if b then m1 else m2).
Proof. destruct b; auto. Qed.

End Frame.

#[export] Instance same_registry_preorder : PreOrder same_registry.
Proof.
  split.
  - intros w. split; reflexivity.
  - intros w1 w2 w3 [H1 H2] [H3 H4]. split; congruence.
Qed.

Ltac frame_rule :=
  lazymatch goal with
  | |- preserves _ (mbind _ _) => apply preserves_bind
  | |- preserves _ (try_except _ _) => apply preserves_try_except
  | |- preserves _ (try_finally _ _) => apply preserves_try_finally
  | |- preserves _ (call _) => apply preserves_call
  | |- preserves _ (for_each _ _ _) => apply preserves_for_each
  | |- preserves _ (mret _) => apply preserves_ret
  | |- preserves _ return_ => apply preserves_return
  | |- preserves _ raise => apply preserves_raise
  | |- preserves _ (gets _) => apply preserves_gets
  | |- preserves _ (if _ then _ else _) => apply preserves_if
  end.

Ltac frame_structure := repeat (intros; frame_rule; try tc_solve).

Ltac frame_prim :=
  let w := fresh "w" in
  intros; unfold preserves; intros w;
  unfold edit, is_set, interleave, path_exists, log;
  unfold get_page, extract_table, append_row, telegram, save, open_rb,
    remove, modify, gets, raise, return_, mret, M_ret;
  repeat match goal with
         | |- context [if ?b then _ else _] => destruct b
         | |- context [match ?x with _ => _ end] => destruct x
         end;
  cbn; try reflexivity; split; reflexivity.

Section WorkerFrame.

Variable env : Env.
Variable rm : string -> bool.
Variables (chat : Z) (mid : nat) (pdf excel : string) (ev : nat).

Lemma iteration_registry pages total step ws i :
  preserves same_registry (iteration env chat mid ev pages total step ws i).
Proof. unfold iteration. frame_structure; frame_prim. Qed.

Lemma convert_registry ws :
  preserves same_registry (convert env chat mid pdf ev ws).
Proof.
  unfold convert. apply preserves_bind; [tc_solve | frame_prim | intros f].
  destruct f as [[pages| | |]|]; try (apply preserves_raise; tc_solve).
  destruct (length pages =? 0).
  - frame_structure; frame_prim.
  - apply preserves_bind; [tc_solve | frame_structure; frame_prim | intros _].
    apply preserves_for_each; [tc_solve|]. intros. apply iteration_registry.
Qed.

Lemma deliver_registry ws :
  preserves same_registry (deliver env chat mid excel ws).
Proof. unfold deliver. frame_structure; frame_prim. Qed.

Lemma on_error_registry : preserves same_registry (on_error env chat mid).
Proof. unfold on_error. frame_structure; frame_prim. Qed.

#[local] Abbreviation the_try := (guarded env chat mid pdf excel ev).

Lemma guarded_registry : preserves same_registry the_try.
Proof.
  unfold guarded. frame_structure; try frame_prim.
  - apply convert_registry.
  - apply deliver_registry.
  - apply on_error_registry.
Qed.

Lemma on_error_never_raises w : fst (on_error env chat mid w) = Val tt.
Proof.
  unfold on_error, try_except, edit, telegram, log, modify, mbind, M_bind.
  cbn. destruct (raises env _); reflexivity.
Qed.

Lemma guarded_never_raises w : fst (the_try w) <> Raised.
Proof.
  unfold guarded, try_except.
  destruct ((edit env chat mid MsgProcessing ;; _) w) as [[[]| |] w1] eqn:E;
    cbn; try discriminate.
  rewrite on_error_never_raises. discriminate.
Qed.

Lemma cleanup_result w : fst (cleanup rm chat pdf excel w) = Val tt.
Proof.
  unfold cleanup, try_except, path_exists, remove, log, modify, gets, mbind,
    M_bind, mret, M_ret. cbn.
  repeat (case_bool_decide || case_match); simplify_eq; reflexivity.
Qed.

Lemma process_pdf_async_unfold w :
  process_pdf_async env rm chat mid pdf excel ev w =
  (Val tt,
   snd (cleanup rm chat pdf excel
          (snd (the_try (set_logs (fun l => l ++ [LogJobStart chat pdf]) w))))).
Proof.
  unfold process_pdf_async, call, try_finally.
  change (try_except _ _) with the_try.
  unfold mbind at 1. unfold M_bind at 1. unfold log at 1. unfold modify. 
  pose proof (guarded_never_raises
    (set_logs (fun l => l ++ [LogJobStart chat pdf]) w)) as Hg.
  destruct (guarded _ _ _ _ _ _ _) as [r w1] eqn:Eg. cbn [fst snd] in *.
  pose proof (cleanup_result w1) as Hc.
  destruct (cleanup rm chat pdf excel w1) as [rc w2] eqn:Ec.
  cbn [fst snd] in *. subst rc.
  destruct r as [[]| |]; try reflexivity. contradiction.
Qed.

Lemma cleanup_registry w :
  let w' := snd (cleanup rm chat pdf excel w) in
  active_jobs w' = delete chat (active_jobs w) /\
  events w' = events w /\ outbox w' = outbox w /\
  extracted w' = extracted w /\ started w' = started w.
Proof.
  unfold cleanup, try_except, path_exists, remove, log, modify, gets, mbind,
    M_bind, mret, M_ret. cbn.
  repeat (case_bool_decide || case_match); simplify_eq; cbn; auto.
Qed.

Lemma cleanup_files w :
  let w' := snd (cleanup rm chat pdf excel w) in
  (rm pdf = false -> files w' !! pdf = None) /\
  (rm pdf = false -> rm excel = false -> files w' !! excel = None) /\
  (forall p, p <> pdf -> p <> excel -> files w' !! p = files w !! p) /\
  (rm pdf = false -> rm excel = false -> logs w' = logs w).
Proof.
  unfold cleanup, try_except, path_exists, remove, log, modify, gets, mbind,
    M_bind, mret, M_ret. cbn.
  repeat (case_bool_decide || case_match); simplify_eq; cbn.
  all: repeat split; intros; cbn in *; try congruence.
  all: repeat match goal with
         | H : ¬ is_Some _ |- _ => apply eq_None_not_Some in H
         end.
  all: try (destruct (decide (pdf = excel)) as [->|]).
  all: rewrite ?lookup_delete_eq, ?lookup_delete_ne in * by congruence; auto.
  all: try congruence.
  all: try apply lookup_delete_eq.
Qed.

Lemma cleanup_logs w :
  logs w `prefix_of` logs (snd (cleanup rm chat pdf excel w)).
Proof.
  unfold cleanup, try_except, path_exists, remove, log, modify, gets, mbind,
    M_bind, mret, M_ret. cbn.
  repeat (case_bool_decide || case_match); simplify_eq; cbn;
    first [reflexivity | apply prefix_app_r; reflexivity].
Qed.

End WorkerFrame.

(** ** The [finally] block *)

(** What the [finally] block does on every exit.  However the run of a job
    ends, and whichever of its notifications
    failed, the worker returns normally after its [finally] block: the entry
    of the client is gone from [active_jobs] (the other entries stand), the
    source artifact is gone unless its deletion raised, and the output
    artifact is gone unless a deletion raised.  Which deletions raise
    changes nothing but the files and the log: the notifications issued,
    the pages extracted, the events and the registry are the same. *)
Theorem cleanup_runs_on_every_exit env rm chat mid pdf excel ev w :
  let run := App.process_pdf_async env rm chat mid pdf excel ev w in
  fst run = Val tt /\
  active_jobs (snd run) = delete chat (active_jobs w) /\
  (rm pdf = false -> files (snd run) !! pdf = None) /\
  (rm pdf = false -> rm excel = false -> files (snd run) !! excel = None) /\
  (forall rm',
     let run' := App.process_pdf_async env rm' chat mid pdf excel ev w in
     outbox (snd run') = outbox (snd run) /\
     extracted (snd run') = extracted (snd run) /\
     events (snd run') = events (snd run) /\
     active_jobs (snd run') = active_jobs (snd run) /\
     started (snd run') = started (snd run)).
Proof.
  cbn zeta. rewrite process_pdf_async_unfold. cbn [fst snd].
  set (w0 := set_logs _ w).
  set (w1 := snd (guarded env chat mid pdf excel ev w0)).
  destruct (cleanup_registry rm chat pdf excel w1) as (Hj & He & Ho & Hx & Hs).
  destruct (cleanup_files rm chat pdf excel w1) as (Hp & Hq & _ & _).
  destruct (guarded_registry env chat mid pdf excel ev w0) as [Hg _].
  fold w1 in Hg.
  repeat split; auto.
  - rewrite Hj, Hg. reflexivity.
  - rewrite process_pdf_async_unfold. cbn [snd]. fold w0 w1.
    destruct (cleanup_registry rm' chat pdf excel w1) as (_ & _ & Ho' & _).
    congruence.
  - rewrite process_pdf_async_unfold. cbn [snd]. fold w0 w1.
    destruct (cleanup_registry rm' chat pdf excel w1) as (_ & _ & _ & Hx' & _).
    congruence.
  - rewrite process_pdf_async_unfold. cbn [snd]. fold w0 w1.
    destruct (cleanup_registry rm' chat pdf excel w1) as (_ & He' & _).
    congruence.
  - rewrite process_pdf_async_unfold. cbn [snd]. fold w0 w1.
    destruct (cleanup_registry rm' chat pdf excel w1) as (Hj' & _).
    congruence.
  - rewrite process_pdf_async_unfold. cbn [snd]. fold w0 w1.
    destruct (cleanup_registry rm' chat pdf excel w1) as (_ & _ & _ & _ & Hs').
    congruence.
Qed.

Lemma cleanup_runs_on_every_exit_witness :
  let run := App.process_pdf_async failing_notifier (fun _ => false) 7 0
               "/tmp/r.pdf" "/tmp/r.xlsx" 0 registered_job in
  is_Some (active_jobs registered_job !! 7%Z) /\
  is_Some (files registered_job !! "/tmp/r.pdf") /\
  active_jobs (snd run) !! 7%Z = None /\
  files (snd run) !! "/tmp/r.pdf" = None /\
  files (snd run) !! "/tmp/r.xlsx" = None.
Proof.
  cbn zeta.
  destruct (cleanup_runs_on_every_exit failing_notifier (fun _ => false) 7 0
              "/tmp/r.pdf" "/tmp/r.xlsx" 0 registered_job)
    as (_ & Hj & Hp & Hx & _).
  split; [vm_compute; eauto|]. split; [vm_compute; eauto|].
  split; [rewrite Hj; apply lookup_delete_eq|].
  split; [apply Hp; reflexivity | apply Hx; reflexivity].
Defined.

(** When the deletion of the source raises, the [except] of the [finally]
    block is entered before the output is looked at: the output stays. *)
Lemma output_stays_when_source_deletion_raises :
  let w := set_files (fun fs => <["/tmp/r.xlsx" := OtherFile]> fs) registered_job in
  let rm := fun p => String.eqb p "/tmp/r.pdf" in
  let w' := snd (App.cleanup rm 7 "/tmp/r.pdf" "/tmp/r.xlsx" w) in
  files w' !! "/tmp/r.xlsx" = Some OtherFile /\ last (logs w') = Some LogDeleteFailed.
Proof. vm_compute. split; reflexivity. Qed.

(** C2. The two removals of the [finally] block stand in one [try] (lines
    184-190): when [os.remove] raises on the source, the [except] is
    entered and the removal of the output is never attempted.  A job that
    completes, with [os.remove] raising on the source and on nothing else:
    the spreadsheet was sent, the entry of the client is gone and the
    failure is in the log, but both artifacts are still in [/tmp], the
    output too, whose removal would not have raised.  In the same run
    with no removal raising both are gone. *)
Theorem source_removal_failure_leaves_output :
  let rm := fun p => String.eqb p "/tmp/r.pdf" in
  let run := App.process_pdf_async never_signalled rm 7 0
               "/tmp/r.pdf" "/tmp/r.xlsx" 0 registered_job in
  let clean := App.process_pdf_async never_signalled (fun _ => false) 7 0
                 "/tmp/r.pdf" "/tmp/r.xlsx" 0 registered_job in
  let sheet := {| ws_cells := [((1, 1), Some "a")]; ws_current_row := 1 |} in
  rm "/tmp/r.xlsx" = false /\
  fst run = Val tt /\
  final_state (issued registered_job (snd run)) = Some Completed /\
  active_jobs (snd run) !! 7%Z = None /\
  files (snd run) !! "/tmp/r.pdf" =
    Some (PdfFile [ExtractReturns (Some [[Some "a"]])]) /\
  files (snd run) !! "/tmp/r.xlsx" = Some (XlsxFile sheet) /\
  last (logs (snd run)) = Some LogDeleteFailed /\
  final_state (issued registered_job (snd clean)) = Some Completed /\
  files (snd clean) !! "/tmp/r.pdf" = None /\
  files (snd clean) !! "/tmp/r.xlsx" = None.
Proof. vm_compute. repeat split. Qed.

(** ** Admission: [handle_pdf] *)

Section Admission.

Import App.

Lemma too_large_spec doc n :
  file_size doc = Some n -> (MAX_FILE_SIZE_BYTES < n)%Z -> too_large doc = true.
Proof.
  intros E H. unfold too_large. rewrite E.
  unfold MAX_FILE_SIZE_BYTES in *.
  apply andb_true_iff. split.
  - apply negb_true_iff, Z.eqb_neq. lia.
  - apply Z.ltb_lt. exact H.
Qed.

(** C7. An upload whose declared size exceeds [MAX_FILE_SIZE_BYTES]
    (20 MiB) is turned away before the registry is looked at and before
    anything is downloaded: the registry, the events, the files and the
    threads are as they were, whether or not the download would have
    failed.  The one thing that happens is the reply: the size-limit text
    when the name passes the PDF test of line 235, the text of that test
    otherwise. *)
Theorem oversized_upload_rejected dl chat doc n w :
  file_size doc = Some n -> (MAX_FILE_SIZE_BYTES < n)%Z ->
  let run := handle_pdf dl chat doc w in
  MAX_FILE_SIZE_BYTES = (20 * 1024 * 1024)%Z /\
  fst run = Val tt /\
  active_jobs (snd run) = active_jobs w /\
  events (snd run) = events w /\
  files (snd run) = files w /\
  started (snd run) = started w /\
  extracted (snd run) = extracted w /\
  outbox (snd run) =
    outbox w ++ [(reply_text chat (if is_pdf_name doc then MsgTooLarge 20
                                   else MsgPleaseUpload), true)].
Proof.
  intros E H. pose proof (too_large_spec doc n E H) as T.
  cbn zeta. unfold handle_pdf, call, admission, mbind, M_bind, log, modify, reply.
  cbn. destruct (is_pdf_name doc); cbn; [rewrite T; cbn|]; repeat split.
Qed.

Lemma oversized_upload_rejected_witness :
  let run := handle_pdf false 7 huge_pdf registered_job in
  active_jobs (snd run) = active_jobs registered_job /\
  files (snd run) = files registered_job /\
  started (snd run) = started registered_job /\
  last (outbox (snd run)) = Some (reply_text 7 (MsgTooLarge 20), true).
Proof.
  cbn zeta.
  assert (H : (MAX_FILE_SIZE_BYTES < 20971521)%Z)
    by (unfold MAX_FILE_SIZE_BYTES; lia).
  destruct (oversized_upload_rejected false 7 huge_pdf 20971521 registered_job
              eq_refl H)
    as (_ & _ & Hj & _ & Hf & Hs & _ & Ho).
  split; [exact Hj|]. split; [exact Hf|]. split; [exact Hs|].
  rewrite Ho. apply last_snoc.
Defined.

(** An upload of exactly 20 MiB, or one that declares no size, is not
    turned away by the size test. *)
Lemma size_limit_is_strict doc :
  file_size doc = Some MAX_FILE_SIZE_BYTES \/ file_size doc = None ->
  too_large doc = false.
Proof. intros [E|E]; unfold too_large; rewrite E; reflexivity. Qed.

(** A start request that finds an entry of its client in the registry is
    answered with the already-running text and changes nothing else. *)
Lemma start_rejected_while_running dl chat doc job w :
  active_jobs w !! chat = Some job ->
  is_pdf_name doc = true -> too_large doc = false ->
  let run := handle_pdf dl chat doc w in
  fst run = Val tt /\
  active_jobs (snd run) = active_jobs w /\
  events (snd run) = events w /\
  files (snd run) = files w /\
  started (snd run) = started w /\
  outbox (snd run) = outbox w ++ [(reply_text chat MsgAlreadyRunning, true)].
Proof.
  intros J P T. cbn zeta.
  unfold handle_pdf, call, admission, mbind, M_bind, log, modify, reply, gets.
  cbn. rewrite P, T. cbn. rewrite J. cbn. repeat split.
Qed.

(** The three parts of [handle_pdf], run without interruption, are
    [handle_pdf]. *)
Lemma uninterrupted_handler chat doc w :
  snd (run_schedule [0; 0; 0] [incoming chat doc] w) =
  snd (handle_pdf false chat doc w).
Proof.
  unfold handle_pdf, call, mbind, M_bind. cbn.
  destruct (admission chat doc w) as [[[]| |] w1]; cbn; try reflexivity.
  all: try (destruct (fetch false chat doc w1) as [[t| |] w2]; cbn; reflexivity).
Qed.

End Admission.

(** ** Single flight *)

Section SingleFlight.

Import App.

(** C1. Two uploads of one client whose handlers overlap: each passes the
    test of the first critical section before the other has reached the
    second one, nobody is told that a conversion is running, and two
    threads are started for the client.  The registry holds one entry, that
    of the second job: [/stop] signals the event of the second job only.
    Run one after the other, the same two uploads start one job and the
    second is turned away. *)
Theorem overlapping_uploads_start_two_jobs :
  let w := snd (run_schedule overlapping two_uploads empty_world) in
  let w1 := snd (run_schedule one_after_the_other two_uploads empty_world) in
  map h_point (fst (run_schedule overlapping two_uploads empty_world)) =
    [Finished; Finished] /\
  map t_pdf_path (jobs_of 7 w) = ["/tmp/report.pdf"; "/tmp/invoice.pdf"] /\
  map fst (outbox w) = [reply_text 7 MsgStarting; reply_text 7 MsgStarting] /\
  size (active_jobs w) = 1 /\
  cancel_event <$> active_jobs w !! 7%Z = Some 1 /\
  events (snd (stop 7 w)) = [false; true] /\
  map t_pdf_path (jobs_of 7 w1) = ["/tmp/report.pdf"] /\
  map fst (outbox w1) = [reply_text 7 MsgStarting; reply_text 7 MsgAlreadyRunning].
Proof. vm_compute. repeat split. Qed.

End SingleFlight.

(** ** Paths *)

Section Paths.

Import App.

Lemma fetch_paths dl chat doc w t w' :
  fetch dl chat doc w = (Val t, w') ->
  t_chat_id t = chat /\
  t_pdf_path t = pdf_path_of doc /\ t_excel_path t = excel_path_of doc.
Proof.
  unfold fetch, try_except, mbind, M_bind, reply, new_event, log, modify, raise,
    return_, mret, M_ret.
  destruct dl; cbn; intros H; inversion H; subst; cbn; auto.
Qed.

(** C4, as the code has it.  The thread of a job is created with the
    source path [/tmp/] followed by the uploaded file name, and with the
    output path that [replace] makes of it: the client does not enter.
    Source paths of two jobs are equal exactly when the file names are, and
    equal file names give equal output paths, whoever the clients are. *)
Theorem paths_follow_the_file_name dl1 dl2 c1 c2 d1 d2 w1 w2 t1 t2 w1' w2' :
  fetch dl1 c1 d1 w1 = (Val t1, w1') ->
  fetch dl2 c2 d2 w2 = (Val t2, w2') ->
  t_pdf_path t1 = "/tmp/" +:+ file_name d1 /\
  t_excel_path t1 = Py.replace (t_pdf_path t1) ".pdf" ".xlsx" /\
  (t_pdf_path t1 = t_pdf_path t2 <-> file_name d1 = file_name d2) /\
  (file_name d1 = file_name d2 -> t_excel_path t1 = t_excel_path t2).
Proof.
  intros H1 H2.
  apply fetch_paths in H1 as (_ & P1 & E1).
  apply fetch_paths in H2 as (_ & P2 & E2).
  rewrite P1, P2, E1, E2. unfold excel_path_of, pdf_path_of.
  repeat split.
  - apply tmp_inj.
  - intros ->. reflexivity.
  - intros ->. reflexivity.
Qed.

Lemma paths_follow_the_file_name_witness :
  let w1 := snd (fetch false 1 report_pdf empty_world) in
  let w2 := snd (fetch false 2 report_pdf w1) in
  fetch false 1 report_pdf empty_world = (Val first_thread, w1) /\
  fetch false 2 report_pdf w1 = (Val second_thread, w2) /\
  t_chat_id first_thread <> t_chat_id second_thread /\
  t_pdf_path first_thread = t_pdf_path second_thread /\
  t_excel_path first_thread = t_excel_path second_thread.
Proof.
  cbn zeta.
  assert (F1 : fetch false 1 report_pdf empty_world =
               (Val first_thread, snd (fetch false 1 report_pdf empty_world)))
    by reflexivity.
  assert (F2 : fetch false 2 report_pdf (snd (fetch false 1 report_pdf empty_world)) =
               (Val second_thread,
                snd (fetch false 2 report_pdf
                       (snd (fetch false 1 report_pdf empty_world)))))
    by reflexivity.
  destruct (paths_follow_the_file_name _ _ _ _ _ _ _ _ _ _ _ _ F1 F2)
    as (_ & _ & Hp & He).
  split; [exact F1|]. split; [exact F2|]. split; [discriminate|].
  split; [apply Hp; reflexivity | apply He; reflexivity].
Defined.

(** Two clients that upload files of one name are given the same two
    paths; the second download replaces the source of the first job. *)
Lemma same_name_same_paths :
  let w := snd (handle_pdf false 2 report_pdf
                  (snd (handle_pdf false 1 report_pdf empty_world))) in
  map (fun t => (t_chat_id t, t_pdf_path t, t_excel_path t)) (started w) =
    [(1%Z, "/tmp/report.pdf", "/tmp/report.xlsx");
     (2%Z, "/tmp/report.pdf", "/tmp/report.xlsx")] /\
  ~ (forall t1 t2, t1 ∈ started w -> t2 ∈ started w ->
       t_chat_id t1 <> t_chat_id t2 ->
       t_pdf_path t1 <> t_pdf_path t2 /\ t_excel_path t1 <> t_excel_path t2).
Proof.
  cbn zeta.
  set (w := snd (handle_pdf false 2 report_pdf _)).
  assert (S : started w = [first_thread; second_thread])
    by (vm_compute; reflexivity).
  rewrite S. split; [reflexivity|].
  intros H.
  destruct (H _ _ (list_elem_of_here _ _)
              (list_elem_of_further _ _ _ (list_elem_of_here _ _))) as [Hp _].
  - cbn. discriminate.
  - apply Hp. reflexivity.
Qed.

End Paths.

(** ** Runs without faults *)

Ltac log_grows :=
  first [ reflexivity
        | apply prefix_app_r; reflexivity
        | etransitivity; [|apply prefix_app_r; reflexivity];
          apply prefix_app_r; reflexivity ].

Lemma advanced_refl chat w : advanced chat [] [] w w.
Proof. unfold advanced. cbn. rewrite !app_nil_r. repeat split; log_grows. Qed.

Lemma advanced_trans chat c1 c2 p1 p2 w w1 w2 :
  advanced chat c1 p1 w w1 -> advanced chat c2 p2 w1 w2 ->
  advanced chat (c1 ++ c2) (p1 ++ p2) w w2.
Proof.
  intros (A1 & A2 & A3 & A4 & A5 & A6 & A7) (B1 & B2 & B3 & B4 & B5 & B6 & B7).
  unfold advanced. rewrite !map_app, !app_assoc.
  repeat split; try congruence. etransitivity; eauto.
Qed.

Lemma reports_step chat mid total step a n :
  reports chat mid total step a (S n) =
  (if report_due total step a then [report chat mid total a] else []) ++
  reports chat mid total step (S a) n.
Proof.
  unfold reports. cbn [seq]. rewrite filter_cons.
  destruct (report_due total step a) eqn:E.
  - rewrite decide_True by reflexivity. reflexivity.
  - rewrite decide_False by discriminate. reflexivity.
Qed.

Lemma reports_app chat mid total step a k n :
  reports chat mid total step a (k + n) =
  reports chat mid total step a k ++ reports chat mid total step (a + k) n.
Proof.
  unfold reports. rewrite seq_app, filter_app, map_app. reflexivity.
Qed.

Lemma sheet_after_cons page pages ws :
  sheet_after (page :: pages) ws =
  sheet_after pages (fold_left Openpyxl.append (table_of page) ws).
Proof. reflexivity. Qed.

Section QuietRuns.

Import App.

Variable env : Env.
Variables (chat : Z) (mid : nat) (pdf excel : string) (ev : nat).
Hypothesis Q : quiet env.

Lemma append_rows_quiet p rows : forall a ws w,
  for_each (append_row env p) ws (combine (seq a (length rows)) rows) w =
  (Val (fold_left Openpyxl.append rows ws), w).
Proof.
  induction rows as [|row rows IH]; intros a ws w; [reflexivity|].
  cbn [length seq combine for_each fold_left].
  unfold mbind, M_bind, append_row at 1. rewrite Q. cbn. apply IH.
Qed.

Lemma telegram_quiet c w :
  telegram env c w = (Val tt, set_outbox (fun l => l ++ [(c, true)]) w).
Proof. unfold telegram. now rewrite Q. Qed.

(** A turn of the loop that does not see the event set. *)
Lemma iteration_quiet pages total step ws i page w :
  pages !! i = Some page ->
  signalled_before env i = false ->
  default false (events w !! ev) = false ->
  exists w',
    iteration env chat mid ev pages total step ws i w =
      (Val (fold_left Openpyxl.append (table_of page) ws), w') /\
    advanced chat
      (if report_due total step i then [report chat mid total i] else [])
      [i] w w'.
Proof.
  intros P Hs E. unfold iteration, interleave, is_set. rewrite Hs.
  unfold mbind at 1, M_bind at 1. cbn [mret M_ret].
  unfold mbind at 1, M_bind at 1, gets at 1. rewrite E.
  unfold mbind at 1, M_bind at 1, get_page at 1. rewrite P.
  unfold mbind at 1, M_bind at 1, try_except at 1, extract_table at 1.
  fold (report_due total step i).
  destruct page as [|t]; cbn [table_of].
  - unfold mbind at 1, M_bind at 1, log at 1, modify. cbn [mret M_ret rows_of].
    unfold mbind at 1, M_bind at 1. rewrite append_rows_quiet.
    cbn [length seq combine for_each mret M_ret fold_left].
    unfold mbind, M_bind. unfold edit. unfold try_except.
    destruct (report_due total step i); [rewrite telegram_quiet|];
      eexists; (split; [reflexivity|]); unfold advanced; cbn;
      rewrite ?app_nil_r; repeat split; log_grows.
  - unfold mbind at 1, M_bind at 1. rewrite append_rows_quiet.
    unfold mbind, M_bind. unfold edit. unfold try_except.
    destruct (report_due total step i); [rewrite telegram_quiet|];
      eexists; (split; [reflexivity|]); unfold advanced; cbn;
      rewrite ?app_nil_r; repeat split; log_grows.
Qed.

(** The loop over the pages [a .. a+n-1] when the event is never seen set. *)
Lemma loop_quiet pages total step : forall n a ws w,
  a + n <= length pages ->
  (forall i, a <= i < a + n -> signalled_before env i = false) ->
  default false (events w !! ev) = false ->
  exists w',
    for_each (iteration env chat mid ev pages total step) ws (seq a n) w =
      (Val (sheet_after (take n (drop a pages)) ws), w') /\
    advanced chat (reports chat mid total step a n) (seq a n) w w'.
Proof.
  induction n as [|n IH]; intros a ws w L Hs E.
  - exists w. split; [reflexivity|]. apply advanced_refl.
  - destruct (pages !! a) as [page|] eqn:P;
      [|apply lookup_ge_None in P; lia].
    destruct (iteration_quiet pages total step ws a page w P) as (w1 & R1 & A1);
      [apply Hs; lia | exact E |].
    destruct (IH (S a) (fold_left Openpyxl.append (table_of page) ws) w1)
      as (w2 & R2 & A2).
    + lia.
    + intros i Hi. apply Hs. lia.
    + destruct A1 as (_ & -> & _). exact E.
    + exists w2. split.
      * cbn [seq for_each]. rewrite (bind_val _ _ _ _ _ R1).
        rewrite (drop_S _ _ _ P). cbn [take]. rewrite sheet_after_cons.
        exact R2.
      * rewrite reports_step.
        change (seq a (S n)) with ([a] ++ seq (S a) n).
        eapply advanced_trans; eauto.
Qed.

(** The turn of the loop that sees the event set. *)
Lemma iteration_cancelled pages total step ws i w :
  default false
    ((if signalled_before env i then <[ev:=true]> (events w) else events w)
       !! ev) = true ->
  exists w',
    iteration env chat mid ev pages total step ws i w = (Returned, w') /\
    active_jobs w' = active_jobs w /\
    files w' = files w /\
    started w' = started w /\
    outbox w' =
      outbox w ++ [(edit_message_text chat mid (MsgCancelled i total), true)] /\
    extracted w' = extracted w /\
    logs w `prefix_of` logs w'.
Proof.
  intros E. unfold iteration, interleave, is_set.
  unfold mbind, M_bind, edit, log, modify, gets.
  destruct (signalled_before env i); cbn in *; rewrite E;
    rewrite telegram_quiet; cbn; eexists; (split; [reflexivity|]);
    repeat split; log_grows.
Qed.

Lemma loop_cancelled pages total step n a k ws w :
  a + n <= length pages -> k < n ->
  (forall i, a <= i < a + k -> signalled_before env i = false) ->
  signalled_before env (a + k) = true ->
  events w !! ev = Some false ->
  exists w',
    for_each (iteration env chat mid ev pages total step) ws (seq a n) w =
      (Returned, w') /\
    active_jobs w' = active_jobs w /\
    files w' = files w /\
    started w' = started w /\
    outbox w' =
      outbox w ++
      map (fun c => (c, true))
          (reports chat mid total step a k ++
           [edit_message_text chat mid (MsgCancelled (a + k) total)]) /\
    extracted w' = extracted w ++ map (pair chat) (seq a k) /\
    logs w `prefix_of` logs w'.
Proof.
  intros L K Hs T E.
  destruct (loop_quiet pages total step k a ws w) as (w1 & R1 & A1);
    [lia | exact Hs | now rewrite E |].
  destruct A1 as (A1 & A2 & A3 & A4 & A5 & A6 & A7).
  destruct (iteration_cancelled pages total step
              (sheet_after (take k (drop a pages)) ws) (a + k) w1)
    as (w2 & R2 & B1 & B3 & B4 & B5 & B6 & B7).
  { rewrite T, A2. rewrite list_lookup_insert_eq; [reflexivity|].
    apply lookup_lt_Some in E. exact E. }
  exists w2. split.
  - replace n with (k + S (n - k - 1)) by lia.
    rewrite seq_app, for_each_app. rewrite (bind_val _ _ _ _ _ R1).
    cbn [seq for_each]. apply bind_returned. exact R2.
  - rewrite map_app, app_assoc. cbn [map].
    repeat split; try congruence. etransitivity; eauto.
Qed.

End QuietRuns.

Section QuietJobs.

Import App.

Variable env : Env.
Variables (chat : Z) (mid : nat) (pdf excel : string) (ev : nat).
Hypothesis Q : quiet env.

(** The number of pages a run goes over, and its cadence of reports. *)
#[local] Abbreviation clamp pages := (length pages `min` MAX_PAGES).
#[local] Abbreviation cadence pages := (1 `max` (clamp pages / PROGRESS_STEPS)).

Lemma clamp_le (pages : list Page) : clamp pages <= length pages.
Proof. lia. Qed.

Lemma convert_quiet pages w :
  files w !! pdf = Some (PdfFile pages) ->
  pages <> [] ->
  (forall i, i < clamp pages -> signalled_before env i = false) ->
  default false (events w !! ev) = false ->
  exists w',
    convert env chat mid pdf ev Workbook w =
      (Val (sheet_after (take (clamp pages) pages) Workbook), w') /\
    advanced chat (reports chat mid (clamp pages) (cadence pages) 0 (clamp pages))
      (seq 0 (clamp pages)) w w' /\
    (MAX_PAGES < length pages ->
     LogTooManyPages (length pages) chat ∈ logs w').
Proof.
  intros F N Hs E. unfold convert.
  unfold mbind at 1, M_bind at 1, gets at 1. rewrite F.
  destruct (length pages =? 0) eqn:Z.
  { apply Nat.eqb_eq in Z. destruct pages; [contradiction | discriminate]. }
  cbn zeta.
  set (w0 := snd ((if MAX_PAGES <? length pages
                   then log (LogTooManyPages (length pages) chat)
                   else mret tt) w)).
  assert (A0 : advanced chat [] [] w w0 /\
               (MAX_PAGES < length pages ->
                LogTooManyPages (length pages) chat ∈ logs w0)).
  { subst w0. destruct (MAX_PAGES <? length pages) eqn:C; cbn.
    - split.
      + unfold advanced; cbn; rewrite !app_nil_r; repeat split; log_grows.
      + intros _. apply elem_of_app. right. apply list_elem_of_here.
    - split; [apply advanced_refl|]. apply Nat.ltb_ge in C. lia. }
  destruct A0 as [A0 Hl].
  destruct (loop_quiet env chat mid ev Q pages (clamp pages) (cadence pages)
              (clamp pages) 0 Workbook w0) as (w1 & R & A).
  - cbn. apply clamp_le.
  - intros i Hi. apply Hs. lia.
  - destruct A0 as (_ & -> & _). exact E.
  - exists w1. split; [|split].
    + unfold mbind, M_bind.
      destruct (MAX_PAGES <? length pages); cbn in w0; subst w0; cbn;
        exact R.
    + apply (advanced_trans chat [] _ [] _ w w0 w1 A0 A).
    + intros H. destruct A as (_ & _ & _ & _ & _ & _ & [l ->]).
      apply elem_of_app. left. auto.
Qed.

Lemma deliver_blank ws w :
  sheet_is_blank ws = true ->
  exists w',
    deliver env chat mid excel ws w = (Returned, w') /\
    advanced chat [edit_message_text chat mid MsgNoTables] [] w w'.
Proof.
  intros B. unfold deliver. rewrite B.
  unfold mbind, M_bind, edit. rewrite telegram_quiet by assumption.
  eexists. split; [reflexivity|].
  unfold advanced; cbn; rewrite ?app_nil_r; repeat split; log_grows.
Qed.

Lemma deliver_sheet ws w :
  sheet_is_blank ws = false ->
  exists w',
    deliver env chat mid excel ws w = (Val tt, w') /\
    active_jobs w' = active_jobs w /\
    events w' = events w /\
    started w' = started w /\
    extracted w' = extracted w /\
    files w' = <[excel := XlsxFile ws]> (files w) /\
    outbox w' =
      outbox w ++
      [(edit_message_text chat mid MsgComplete, true);
       (send_document chat (XlsxFile ws) (Py.basename excel) caption_app, true)] /\
    logs w' = logs w ++ [LogJobCompleted chat].
Proof.
  intros B. unfold deliver. rewrite B.
  unfold mbind at 1, M_bind at 1, save at 1. rewrite Q.
  unfold mbind at 1, M_bind at 1, edit. rewrite telegram_quiet by assumption.
  unfold mbind at 1, M_bind at 1, open_rb at 1. cbn [files set_outbox set_files].
  rewrite lookup_insert_eq.
  unfold mbind at 1, M_bind at 1. rewrite telegram_quiet by assumption.
  eexists. split; [reflexivity|]. cbn. rewrite <- app_assoc. repeat split.
Qed.

Lemma convert_cancelled pages k w :
  files w !! pdf = Some (PdfFile pages) ->
  k < clamp pages ->
  first_signalled env k ->
  events w !! ev = Some false ->
  exists w',
    convert env chat mid pdf ev Workbook w = (Returned, w') /\
    active_jobs w' = active_jobs w /\
    files w' = files w /\
    started w' = started w /\
    outbox w' =
      outbox w ++
      map (fun c => (c, true))
          (reports chat mid (clamp pages) (cadence pages) 0 k ++
           [edit_message_text chat mid (MsgCancelled k (clamp pages))]) /\
    extracted w' = extracted w ++ map (pair chat) (seq 0 k).
Proof.
  intros F K [T Hs] E. unfold convert.
  unfold mbind at 1, M_bind at 1, gets at 1. rewrite F.
  destruct (length pages =? 0) eqn:Z.
  { apply Nat.eqb_eq in Z. lia. }
  cbn zeta.
  set (w0 := snd ((if MAX_PAGES <? length pages
                   then log (LogTooManyPages (length pages) chat)
                   else mret tt) w)).
  assert (A0 : advanced chat [] [] w w0).
  { subst w0. destruct (MAX_PAGES <? length pages); cbn.
    - unfold advanced; cbn; rewrite !app_nil_r; repeat split; log_grows.
    - apply advanced_refl. }
  destruct A0 as (A1 & A2 & A3 & A4 & A5 & A6 & A7).
  cbn in A5, A6. rewrite app_nil_r in A5, A6.
  destruct (loop_cancelled env chat mid ev Q pages (clamp pages) (cadence pages)
              (clamp pages) 0 k Workbook w0)
    as (w1 & R & B1 & B3 & B4 & B5 & B6 & B7).
  - cbn. apply clamp_le.
  - exact K.
  - intros i Hi. apply Hs. lia.
  - exact T.
  - rewrite A2. exact E.
  - exists w1. split.
    + unfold mbind, M_bind.
      destruct (MAX_PAGES <? length pages); cbn in w0; subst w0; cbn;
        exact R.
    + cbn [Nat.add] in B5. repeat split; congruence.
Qed.

#[local] Abbreviation the_try := (guarded env chat mid pdf excel ev).

Lemma guarded_cancelled pages k w :
  files w !! pdf = Some (PdfFile pages) ->
  k < clamp pages ->
  first_signalled env k ->
  events w !! ev = Some false ->
  exists w',
    the_try w = (Returned, w') /\
    files w' = files w /\
    outbox w' =
      outbox w ++
      map (fun c => (c, true))
          ([edit_message_text chat mid MsgProcessing] ++
           reports chat mid (clamp pages) (cadence pages) 0 k ++
           [edit_message_text chat mid (MsgCancelled k (clamp pages))]) /\
    extracted w' = extracted w ++ map (pair chat) (seq 0 k).
Proof.
  intros F K T E. unfold guarded, try_except, edit.
  unfold mbind at 1, M_bind at 1. rewrite telegram_quiet by assumption.
  destruct (convert_cancelled pages k
              (set_outbox (fun l => l ++ [(edit_message_text chat mid MsgProcessing, true)]) w))
    as (w1 & R & B1 & B3 & B4 & B5 & B6); auto.
  rewrite (bind_returned _ _ _ _ R).
  exists w1. split; [reflexivity|].
  cbn [outbox files extracted set_outbox] in B3, B5, B6.
  rewrite B5. cbn [map app]. rewrite <- app_assoc.
  repeat split; auto.
Qed.

Lemma guarded_quiet pages w :
  files w !! pdf = Some (PdfFile pages) ->
  pages <> [] ->
  (forall i, i < clamp pages -> signalled_before env i = false) ->
  default false (events w !! ev) = false ->
  let ws := sheet_after (take (clamp pages) pages) Workbook in
  exists w',
    the_try w = (if sheet_is_blank ws then Returned else Val tt, w') /\
    files w' =
      (if sheet_is_blank ws then files w
       else <[excel := XlsxFile ws]> (files w)) /\
    outbox w' =
      outbox w ++
      map (fun c => (c, true))
          ([edit_message_text chat mid MsgProcessing] ++
           reports chat mid (clamp pages) (cadence pages) 0 (clamp pages) ++
           (if sheet_is_blank ws
            then [edit_message_text chat mid MsgNoTables]
            else [edit_message_text chat mid MsgComplete;
                  send_document chat (XlsxFile ws) (Py.basename excel)
                                caption_app])) /\
    extracted w' = extracted w ++ map (pair chat) (seq 0 (clamp pages)) /\
    (MAX_PAGES < length pages ->
     LogTooManyPages (length pages) chat ∈ logs w').
Proof.
  intros F N Hs E ws. unfold guarded, try_except, edit.
  unfold mbind at 1, M_bind at 1. rewrite telegram_quiet by assumption.
  destruct (convert_quiet pages
              (set_outbox (fun l => l ++ [(edit_message_text chat mid MsgProcessing, true)]) w))
    as (w1 & R & (A1 & A2 & A3 & A4 & A5 & A6 & A7) & Hl); auto.
  rewrite (bind_val _ _ _ _ _ R). fold ws.
  cbn [outbox files extracted set_outbox] in A3, A5, A6.
  destruct (sheet_is_blank ws) eqn:B.
  - destruct (deliver_blank ws w1 B) as (w2 & R2 & C1 & C2 & C3 & C4 & C5 & C6 & C7).
    cbn [map] in C6. rewrite app_nil_r in C6.
    rewrite R2. exists w2. split; [reflexivity|].
    rewrite C5, A5. cbn [map app]. rewrite !map_app, <- !app_assoc.
    repeat split; try congruence.
    intros H. destruct C7 as [l ->]. apply elem_of_app. left. auto.
  - destruct (deliver_sheet ws w1 B) as (w2 & R2 & C1 & C2 & C3 & C4 & C5 & C6 & C7).
    rewrite R2. exists w2. split; [reflexivity|].
    rewrite C6, A5. cbn [map app]. rewrite !map_app, <- !app_assoc.
    repeat split; try congruence.
    intros H. rewrite C7. apply elem_of_app. left. auto.
Qed.

End QuietJobs.

(** What the call of the worker adds to its [try]: the first line of the
    log and the [finally] block. *)
Lemma process_after_guarded env rm chat mid pdf excel ev w r w1 :
  guarded env chat mid pdf excel ev
    (set_logs (fun l => l ++ [LogJobStart chat pdf]) w) = (r, w1) ->
  let w' := snd (App.process_pdf_async env rm chat mid pdf excel ev w) in
  outbox w' = outbox w1 /\
  extracted w' = extracted w1 /\
  events w' = events w1 /\
  (rm pdf = false -> files w' !! pdf = None) /\
  (rm pdf = false -> rm excel = false -> files w' !! excel = None) /\
  logs w1 `prefix_of` logs w'.
Proof.
  intros G. cbn zeta. rewrite process_pdf_async_unfold. rewrite G. cbn [snd].
  destruct (cleanup_registry rm chat pdf excel w1) as (_ & He & Ho & Hx & _).
  destruct (cleanup_files rm chat pdf excel w1) as (Hp & Hq & _ & _).
  repeat split; auto. apply cleanup_logs.
Qed.

(** ** What a run shows *)

Lemma issued_app w w' l : outbox w' = outbox w ++ l -> issued w w' = l.
Proof. intros H. unfold issued. rewrite H. apply drop_app_length. Qed.

Lemma processed_app w w' l : extracted w' = extracted w ++ l -> processed w w' = l.
Proof. intros H. unfold processed. rewrite H. apply drop_app_length. Qed.

Lemma final_state_snoc l c b : final_state (l ++ [(c, b)]) = announces c.
Proof. unfold final_state. now rewrite last_snoc. Qed.

(** ** Cancellation *)

Section Cancellation.

Import App.

(** C3, as the code has it.  In a run without faults whose cancel event is
    first signalled before the check of unit [k] (counting from 0, so once
    [k] pages are processed), exactly the units before [k] are extracted
    and none from [k] on; the last notification is the cancellation text,
    which carries [k], the number of pages processed, and the number of
    pages of the run; [k] is below that number; no output artifact is
    left. *)
Theorem cancelled_before_unit env rm chat mid pdf excel ev w pages k :
  quiet env ->
  files w !! pdf = Some (PdfFile pages) ->
  events w !! ev = Some false ->
  first_signalled env k ->
  k < length pages `min` MAX_PAGES ->
  let total := length pages `min` MAX_PAGES in
  let w' := snd (process_pdf_async env rm chat mid pdf excel ev w) in
  processed w w' = map (pair chat) (seq 0 k) /\
  (forall i, k <= i -> (chat, i) ∉ processed w w') /\
  length (processed w w') = k /\
  k < total /\ total <= length pages /\
  last (issued w w') =
    Some (edit_message_text chat mid (MsgCancelled k total), true) /\
  final_state (issued w w') = Some Cancelled /\
  text (MsgCancelled k total) =
    "❌ Conversion cancelled at page " +:+ Py.str k +:+ "/" +:+ Py.str total +:+ "." /\
  (rm pdf = false -> rm excel = false -> files w' !! excel = None).
Proof.
  intros Q F E T K total w'.
  destruct (guarded_cancelled env chat mid pdf excel ev Q pages k
              (set_logs (fun l => l ++ [LogJobStart chat pdf]) w))
    as (w1 & G & G1 & G2 & G3); auto.
  destruct (process_after_guarded env rm chat mid pdf excel ev w _ _ G)
    as (P1 & P2 & P3 & P4 & P5 & _).
  fold w' in P1, P2, P3, P4, P5.
  cbn [outbox extracted set_logs] in G2, G3.
  rewrite G2 in P1. rewrite G3 in P2.
  rewrite (issued_app _ _ _ P1), (processed_app _ _ _ P2).
  repeat split.
  - intros i Hi Hin. apply list_elem_of_fmap in Hin as (j & Hj & Hin).
    apply elem_of_seq in Hin. inversion Hj. lia.
  - now rewrite length_map, length_seq.
  - exact K.
  - subst total. lia.
  - rewrite !app_assoc, map_app. cbn [map]. apply last_snoc.
  - rewrite !app_assoc, map_app. cbn [map]. apply final_state_snoc.
  - intros R1 R2. apply P5; assumption.
Qed.

Lemma cancelled_before_unit_witness :
  let w' := scenario_run (signalled_after 12) in
  length (processed scenario_world w') = 12 /\
  last (issued scenario_world w') =
    Some (edit_message_text 7 0 (MsgCancelled 12 25), true) /\
  files w' !! "/tmp/scenario.xlsx" = None.
Proof.
  cbn zeta.
  assert (Q : quiet (signalled_after 12)) by (intros op; reflexivity).
  assert (F : files scenario_world !! "/tmp/scenario.pdf" =
              Some (content scenario_pdf)) by (vm_compute; reflexivity).
  assert (E : events scenario_world !! 0 = Some false) by reflexivity.
  assert (T : first_signalled (signalled_after 12) 12).
  { split; [reflexivity|]. intros j Hj. cbn. apply Nat.eqb_neq. lia. }
  assert (K : 12 < length (replicate 10 with_rows ++ replicate 9 without_rows ++
                           replicate 6 with_rows) `min` MAX_PAGES)
    by (vm_compute; lia).
  destruct (cancelled_before_unit (signalled_after 12) (fun _ => false) 7 0
              "/tmp/scenario.pdf" "/tmp/scenario.xlsx" 0 scenario_world _ 12
              Q F E T K)
    as (_ & _ & Hn & _ & _ & Hl & _ & _ & Hf).
  split; [exact Hn|]. split; [exact Hl|].
  apply Hf; reflexivity.
Defined.

(** The scenario of the 25 pages, run: with the event signalled once page
    12 is processed the run reports 12, not 13.  It reports 13 when the
    event is signalled one check later, while page 13 is processed. *)
Lemma scenario_reports_twelve :
  let w' := scenario_run (signalled_after 12) in
  let late := scenario_run (signalled_after 13) in
  map snd (processed scenario_world w') = seq 0 12 /\
  text_of <$> (fst <$> last (issued scenario_world w')) =
    Some "❌ Conversion cancelled at page 12/25." /\
  Py.contains "❌ Conversion cancelled at page 12/25." "13" = false /\
  ~ (length (processed scenario_world w') = 13 /\
     text_of <$> (fst <$> last (issued scenario_world w')) =
       Some "❌ Conversion cancelled at page 13/25.") /\
  text_of <$> (fst <$> last (issued scenario_world late)) =
    Some "❌ Conversion cancelled at page 13/25.".
Proof.
  cbn zeta. split; [vm_compute; reflexivity|].
  split; [vm_compute; reflexivity|].
  split; [vm_compute; reflexivity|].
  split; [|vm_compute; reflexivity].
  intros [H _]. vm_compute in H. discriminate.
Qed.

(** [/stop] signals the event of the job the registry holds for the client. *)
Lemma stop_signals chat job w :
  active_jobs w !! chat = Some job ->
  cancel_event job < length (events w) ->
  events (snd (stop chat w)) !! cancel_event job = Some true /\
  last (outbox (snd (stop chat w))) = Some (reply_text chat MsgStopRequested, true).
Proof.
  intros J L. unfold stop, call, mbind, M_bind, log, modify, gets, reply.
  cbn. rewrite J. cbn. split.
  - apply list_lookup_insert_eq. exact L.
  - apply last_snoc.
Qed.

End Cancellation.


(** ** Documents without pages, documents without tables *)

Section Outcomes.

Import App.

Lemma guarded_empty env chat mid pdf excel ev w :
  raises env (OpTelegram (edit_message_text chat mid MsgProcessing)) = false ->
  raises env (OpTelegram (edit_message_text chat mid MsgEmpty)) = false ->
  files w !! pdf = Some (PdfFile []) ->
  exists w',
    guarded env chat mid pdf excel ev w = (Returned, w') /\
    advanced chat [edit_message_text chat mid MsgProcessing;
                   edit_message_text chat mid MsgEmpty] [] w w'.
Proof.
  intros R1 R2 F. unfold guarded, try_except, convert, edit.
  unfold mbind at 1, M_bind at 1, telegram at 1. rewrite R1.
  unfold mbind at 1, M_bind at 1.
  unfold mbind at 1, M_bind at 1, gets at 1.
  cbn [files set_outbox]. rewrite F. cbn [length Nat.eqb].
  unfold mbind at 1, M_bind at 1, telegram at 1. rewrite R2.
  cbn [return_].
  eexists. split; [reflexivity|].
  unfold advanced; cbn; rewrite ?app_nil_r, <- ?app_assoc; repeat split; log_grows.
Qed.

(** C8. A document without pages, the two notifications of the run being
    delivered: no page is extracted, the run issues the processing text
    and then the empty-document text, which is its last notification and is
    not the no-table text. *)
Theorem empty_document env rm chat mid pdf excel ev w :
  raises env (OpTelegram (edit_message_text chat mid MsgProcessing)) = false ->
  raises env (OpTelegram (edit_message_text chat mid MsgEmpty)) = false ->
  files w !! pdf = Some (PdfFile []) ->
  let w' := snd (process_pdf_async env rm chat mid pdf excel ev w) in
  processed w w' = [] /\
  issued w w' = [(edit_message_text chat mid MsgProcessing, true);
                 (edit_message_text chat mid MsgEmpty, true)] /\
  final_state (issued w w') = Some (Failed EmptyDocument) /\
  Failed EmptyDocument <> Failed NoTableDetected /\
  text MsgEmpty = "⚠️ This PDF seems to be empty." /\
  text MsgEmpty <> text MsgNoTables.
Proof.
  intros R1 R2 F w'.
  destruct (guarded_empty env chat mid pdf excel ev
              (set_logs (fun l => l ++ [LogJobStart chat pdf]) w) R1 R2 F)
    as (w1 & G & (_ & _ & _ & _ & G2 & G3 & _)).
  destruct (process_after_guarded env rm chat mid pdf excel ev w _ _ G)
    as (P1 & P2 & _).
  fold w' in P1, P2.
  cbn [outbox extracted set_logs map] in G2, G3.
  rewrite G2 in P1. rewrite G3 in P2.
  rewrite (issued_app _ _ _ P1), (processed_app _ _ _ P2).
  repeat split; try discriminate.
Qed.

Lemma empty_document_witness :
  let w' := snd (process_pdf_async never_signalled (fun _ => false) 7 0
                   "/tmp/empty.pdf" "/tmp/empty.xlsx" 0 empty_world_pdf) in
  processed empty_world_pdf w' = [] /\
  final_state (issued empty_world_pdf w') = Some (Failed EmptyDocument).
Proof.
  cbn zeta.
  destruct (empty_document never_signalled (fun _ => false) 7 0
              "/tmp/empty.pdf" "/tmp/empty.xlsx" 0 empty_world_pdf
              eq_refl eq_refl (lookup_insert_eq _ _ _))
    as (Hp & _ & Hf & _).
  split; [exact Hp | exact Hf].
Defined.

(** [Bot.py] has no case for a document without pages: it answers with its
    no-table text. *)
Lemma bot_empty_document chat doc w :
  Py.endswith (Py.lower (file_name doc)) ".pdf" = true ->
  content doc = PdfFile [] ->
  issued w (snd (BotPy.handle_document chat doc w)) =
    [(reply_text chat MsgBotGotIt, true); (reply_text chat MsgBotNoTables, true)].
Proof.
  intros P C. apply issued_app.
  unfold BotPy.handle_document, call, mbind, M_bind, reply, modify, gets.
  rewrite P. cbn. rewrite lookup_insert_eq, C. cbn.
  now rewrite <- app_assoc.
Qed.

End Outcomes.

Section Tables.

Import App.

Lemma sheet_after_no_rows pages ws :
  rows_produced pages = [] -> sheet_after pages ws = ws.
Proof.
  unfold rows_produced. induction pages as [|p pages IH]; intros H; [reflexivity|].
  cbn [flat_map] in H. apply app_eq_nil in H as [H1 H2].
  rewrite sheet_after_cons, H1. cbn [fold_left]. now apply IH.
Qed.

(** A run without faults and without cancellation over a document with
    pages ends on the test of line 142: with the no-table text when the
    sheet passes it, with the spreadsheet otherwise. *)
Lemma quiet_run env rm chat mid pdf excel ev w pages :
  quiet env ->
  files w !! pdf = Some (PdfFile pages) ->
  pages <> [] ->
  (forall i, i < length pages `min` MAX_PAGES -> signalled_before env i = false) ->
  default false (events w !! ev) = false ->
  let total := length pages `min` MAX_PAGES in
  let w' := snd (process_pdf_async env rm chat mid pdf excel ev w) in
  let ws := sheet_after (take total pages) Workbook in
  processed w w' = map (pair chat) (seq 0 total) /\
  issued w w' =
    map (fun c => (c, true))
      ([edit_message_text chat mid MsgProcessing] ++
       reports chat mid total (1 `max` (total / PROGRESS_STEPS)) 0 total ++
       (if sheet_is_blank ws
        then [edit_message_text chat mid MsgNoTables]
        else [edit_message_text chat mid MsgComplete;
              send_document chat (XlsxFile ws) (Py.basename excel) caption_app])) /\
  final_state (issued w w') =
    Some (if sheet_is_blank ws then Failed NoTableDetected else Completed) /\
  (MAX_PAGES < length pages -> LogTooManyPages (length pages) chat ∈ logs w').
Proof.
  intros Q F N Hs E total w' ws.
  destruct (guarded_quiet env chat mid pdf excel ev Q pages
              (set_logs (fun l => l ++ [LogJobStart chat pdf]) w))
    as (w1 & G & G1 & G2 & G3 & G4); auto.
  fold total in G, G1, G2, G3. fold ws in G, G1, G2.
  destruct (process_after_guarded env rm chat mid pdf excel ev w _ _ G)
    as (P1 & P2 & P3 & P4 & P5 & P6).
  fold w' in P1, P2, P3, P4, P5, P6.
  cbn [outbox extracted set_logs] in G2, G3.
  rewrite G2 in P1. rewrite G3 in P2.
  rewrite (issued_app _ _ _ P1), (processed_app _ _ _ P2).
  split; [reflexivity|]. split; [reflexivity|]. split.
  - rewrite !app_assoc.
    destruct (sheet_is_blank ws).
    + rewrite map_app. cbn [map]. apply final_state_snoc.
    + change [edit_message_text chat mid MsgComplete;
              send_document chat (XlsxFile ws) (Py.basename excel) caption_app]
        with ([edit_message_text chat mid MsgComplete] ++
              [send_document chat (XlsxFile ws) (Py.basename excel) caption_app]).
      rewrite !app_assoc, map_app. cbn [map]. apply final_state_snoc.
  - intros L. destruct P6 as [l ->]. apply elem_of_app. left. auto.
Qed.

(** When the pages gone over produce no row at all, the run ends with the
    no-table text. *)
Lemma no_rows_no_table env rm chat mid pdf excel ev w pages :
  quiet env ->
  files w !! pdf = Some (PdfFile pages) ->
  pages <> [] ->
  (forall i, i < length pages `min` MAX_PAGES -> signalled_before env i = false) ->
  default false (events w !! ev) = false ->
  rows_produced (take (length pages `min` MAX_PAGES) pages) = [] ->
  let w' := snd (process_pdf_async env rm chat mid pdf excel ev w) in
  final_state (issued w w') = Some (Failed NoTableDetected).
Proof.
  intros Q F N Hs E R w'.
  destruct (quiet_run env rm chat mid pdf excel ev w pages Q F N Hs E)
    as (_ & _ & H & _).
  fold w' in H. rewrite H. now rewrite (sheet_after_no_rows _ _ R).
Qed.

(** The loop of lines 30-35 on pages that can all be extracted: every page
    is gone over, and nothing but the pages extracted changes. *)
Lemma bot_collect_all chat pages : forall a acc w,
  Forall (fun p => p <> ExtractRaises) pages ->
  exists w',
    for_each (BotPy.collect chat) acc (combine (seq a (length pages)) pages) w =
      (Val (acc ++ rows_produced pages), w') /\
    outbox w' = outbox w /\ files w' = files w /\
    extracted w' = extracted w ++ map (pair chat) (seq a (length pages)).
Proof.
  induction pages as [|p pages IH]; intros a acc w H.
  - exists w. cbn. rewrite !app_nil_r. repeat split.
  - inversion H as [|? ? Hp Hr]; subst.
    cbn [length seq combine for_each map].
    unfold mbind, M_bind, BotPy.collect at 1. cbn [fst snd].
    destruct p as [|[rows|]]; [contradiction| |].
    + destruct (IH (S a) (acc ++ rows)
                  (set_extracted (fun l => l ++ [(chat, a)]) w) Hr)
        as (w' & R & O & Fi & X).
      exists w'. rewrite R. unfold rows_produced. cbn [flat_map table_of App.rows_of].
      rewrite app_assoc. repeat split; auto.
      rewrite X. cbn [extracted set_extracted]. now rewrite <- app_assoc.
    + destruct (IH (S a) acc
                  (set_extracted (fun l => l ++ [(chat, a)]) w) Hr)
        as (w' & R & O & Fi & X).
      exists w'. rewrite R. repeat split; auto.
      rewrite X. cbn [extracted set_extracted]. now rewrite <- app_assoc.
Qed.

(** The handler of [Bot.py] on a document it accepts, all of whose pages
    can be extracted: what it returns and what it leaves, by the rows
    collected and by whether pandas has a writer for the output path. *)
Lemma bot_run chat doc pages w :
  Py.endswith (Py.lower (file_name doc)) ".pdf" = true ->
  content doc = PdfFile pages ->
  Forall (fun p => p <> ExtractRaises) pages ->
  let downloaded := <[BotPy.pdf_path_of doc := content doc]> (files w) in
  let written := Pandas.has_writer (BotPy.xlsx_path_of doc) in
  exists w1,
    BotPy.handle_document chat doc w =
      (match rows_produced pages with
       | [] => Val tt
       | _ => if written then Val tt else Raised
       end, w1) /\
    outbox w1 =
      outbox w ++
      (reply_text chat MsgBotGotIt, true) ::
      match rows_produced pages with
      | [] => [(reply_text chat MsgBotNoTables, true)]
      | rows =>
          if written
          then [(send_document chat (FrameFile rows)
                   (Py.basename (BotPy.xlsx_path_of doc)) caption_bot, true)]
          else []
      end /\
    files w1 =
      match rows_produced pages with
      | [] => downloaded
      | rows =>
          if written
          then <[BotPy.xlsx_path_of doc := FrameFile rows]> downloaded
          else downloaded
      end /\
    extracted w1 = extracted w ++ map (pair chat) (seq 0 (length pages)).
Proof.
  intros P C H downloaded written. subst downloaded written.
  unfold BotPy.handle_document, call.
  unfold mbind at 1, M_bind at 1. rewrite P. cbn [negb mret M_ret].
  unfold mbind at 1, M_bind at 1, reply at 1.
  unfold mbind at 1, M_bind at 1, modify at 1.
  unfold mbind at 1, M_bind at 1, gets at 1. cbn [files set_files set_outbox].
  rewrite lookup_insert_eq, C.
  unfold mbind at 1, M_bind at 1.
  destruct (bot_collect_all chat pages 0 []
              (set_files (fun fs => <[BotPy.pdf_path_of doc := PdfFile pages]> fs)
                 (set_outbox (fun l => l ++ [(reply_text chat MsgBotGotIt, true)]) w)) H)
    as (w' & R & O & Fi & X).
  rewrite R. cbn [app]. cbn [outbox files extracted set_files set_outbox] in O, Fi, X.
  destruct (rows_produced pages) as [|row rows].
  - unfold mbind, M_bind, reply. cbn.
    eexists. split; [reflexivity|]. cbn. rewrite O, <- app_assoc. auto.
  - unfold mbind, M_bind, modify, BotPy.to_excel.
    destruct (Pandas.has_writer (BotPy.xlsx_path_of doc)); cbn;
      (eexists; split; [reflexivity|]); cbn; rewrite ?O, ?Fi, <- ?app_assoc;
      auto.
Qed.


End Tables.

(** ** The output path *)

Section OutputPath.

Import App.

(** [replace] replaces every occurrence, not the first one only: on a
    name with two [.pdf] the output path of the code is not the path a
    replacement of the first occurrence gives. *)
Lemma replace_is_not_first_occurrence :
  is_pdf_name twice_pdf = true /\
  excel_path_of twice_pdf = "/tmp/a.xlsx.xlsx" /\
  Py.replace_first (pdf_path_of twice_pdf) ".pdf" ".xlsx" = "/tmp/a.xlsx.pdf" /\
  excel_path_of twice_pdf <>
    Py.replace_first (pdf_path_of twice_pdf) ".pdf" ".xlsx".
Proof. vm_compute. repeat split. discriminate. Qed.

(** The claim C10 fails on the code twice over.  [replace] replaces every
    [.pdf], not the first one: [a.pdf.pdf] goes to [/tmp/a.xlsx.xlsx].  And
    in [Bot.py] a spreadsheet is never written over the source: for
    [scan.PDF], a document with a row, the output path is the source path,
    pandas has no writer for it, the handler ends with the exception of
    [to_excel], the download is what it was and nothing is sent. *)
Lemma output_path_claim_refuted :
  let run := BotPy.handle_document 7 capital_pdf empty_world in
  is_pdf_name twice_pdf = true /\
  excel_path_of twice_pdf = "/tmp/a.xlsx.xlsx" /\
  excel_path_of twice_pdf <>
    Py.replace_first (pdf_path_of twice_pdf) ".pdf" ".xlsx" /\
  Py.endswith (Py.lower (file_name capital_pdf)) ".pdf" = true /\
  BotPy.xlsx_path_of capital_pdf = "/tmp/scan.PDF" /\
  fst run = Raised /\
  files (snd run) !! "/tmp/scan.PDF" = Some (content capital_pdf) /\
  outbox (snd run) = [(reply_text 7 MsgBotGotIt, true)].
Proof. vm_compute. repeat split. discriminate. Qed.

(** C10, as the code has it.  The test of line 235 lowers the name before
    it looks at its end; line 264 replaces every [.pdf] of the path as it
    is.  For a name that passes the test and holds no [.pdf] in lower case
    (one that ends in [.PDF], say) the output path is the source path, in
    [app.py] and in [Bot.py].  In [app.py] the thread is created with the
    two paths equal, the sheet is saved over the downloaded source, and
    the file sent carries the base name of the source path, which is the
    uploaded name when that has no slash.  In [Bot.py] nothing is written
    over the source and nothing is sent: pandas has no writer for a path
    that ends in a spelling of [.pdf], so that, once a row was collected,
    [to_excel] raises; the client has the first reply only and the
    download stays as it was. *)
Theorem capital_suffix_overwrites_source doc :
  is_pdf_name doc = true ->
  Py.contains (file_name doc) ".pdf" = false ->
  excel_path_of doc = pdf_path_of doc /\
  BotPy.xlsx_path_of doc = BotPy.pdf_path_of doc /\
  (forall chat pages w,
     content doc = PdfFile pages ->
     Forall (fun p => p <> ExtractRaises) pages ->
     rows_produced pages <> [] ->
     let run := BotPy.handle_document chat doc w in
     fst run = Raised /\
     issued w (snd run) = [(reply_text chat MsgBotGotIt, true)] /\
     files (snd run) = <[BotPy.pdf_path_of doc := content doc]> (files w)) /\
  (forall dl chat w t w', fetch dl chat doc w = (Val t, w') ->
     t_excel_path t = t_pdf_path t) /\
  (forall env chat mid ws w,
     quiet env -> sheet_is_blank ws = false ->
     files w !! pdf_path_of doc = Some (content doc) ->
     let w' := snd (deliver env chat mid (excel_path_of doc) ws w) in
     files w' !! pdf_path_of doc = Some (XlsxFile ws) /\
     last (outbox w') =
       Some (send_document chat (XlsxFile ws) (Py.basename (pdf_path_of doc))
               caption_app, true)) /\
  (Py.contains (file_name doc) "/" = false ->
   Py.basename (pdf_path_of doc) = file_name doc).
Proof.
  intros P C.
  assert (E : excel_path_of doc = pdf_path_of doc).
  { unfold excel_path_of. apply replace_absent. unfold pdf_path_of.
    rewrite (contains_tmp _ ".pdf" "." "pdf"); auto; discriminate. }
  split; [exact E|]. split; [exact E|]. split; [|split; [|split]].
  - intros chat pages w Hc Hp Hr. cbn zeta.
    assert (W : Pandas.has_writer (BotPy.xlsx_path_of doc) = false).
    { change (BotPy.xlsx_path_of doc) with (excel_path_of doc). rewrite E.
      apply no_writer_for_pdf, endswith_tmp. exact P. }
    destruct (bot_run chat doc pages w P Hc Hp) as (w1 & R & O & Fi & _).
    rewrite W in R, O, Fi. rewrite R. cbn [fst snd].
    destruct (rows_produced pages) as [|row rows]; [contradiction|].
    split; [reflexivity|]. split; [now apply issued_app | exact Fi].
  - intros dl chat w t w' H. apply fetch_paths in H as (_ & -> & ->). exact E.
  - intros env chat mid ws w Q B F. cbn zeta. rewrite E.
    destruct (deliver_sheet env chat mid (pdf_path_of doc) Q ws w B)
      as (w' & R & _ & _ & _ & _ & Fi & O & _).
    rewrite R. cbn [snd]. split.
    + rewrite Fi. apply lookup_insert_eq.
    + rewrite O.
      change [(edit_message_text chat mid MsgComplete, true);
              (send_document chat (XlsxFile ws) (Py.basename (pdf_path_of doc))
                 caption_app, true)]
        with ([(edit_message_text chat mid MsgComplete, true)] ++
              [(send_document chat (XlsxFile ws) (Py.basename (pdf_path_of doc))
                  caption_app, true)]).
      rewrite app_assoc. apply last_snoc.
  - intros S. apply basename_tmp. exact S.
Qed.

Lemma capital_suffix_overwrites_source_witness :
  is_pdf_name capital_pdf = true /\
  excel_path_of capital_pdf = "/tmp/scan.PDF" /\
  Py.basename (pdf_path_of capital_pdf) = "scan.PDF" /\
  fst (BotPy.handle_document 7 capital_pdf empty_world) = Raised.
Proof.
  destruct (capital_suffix_overwrites_source capital_pdf eq_refl eq_refl)
    as (E & _ & Hb & _ & _ & B).
  split; [reflexivity|]. split; [rewrite E; reflexivity|].
  split; [apply B; reflexivity|].
  apply (Hb 7%Z _ empty_world eq_refl); [|discriminate].
  repeat constructor. discriminate.
Defined.

End OutputPath.

(** ** The test of line 142, read on the rows *)

Section Sheet.

Import App.

Lemma append_rows_cells rows : forall ws,
  ws_cells (fold_left Openpyxl.append rows ws) =
    ws_cells ws ++ cells_from (ws_current_row ws) rows /\
  ws_current_row (fold_left Openpyxl.append rows ws) =
    ws_current_row ws + length rows.
Proof.
  induction rows as [|row rows IH]; intros ws; cbn [fold_left cells_from length].
  - rewrite app_nil_r. split; [reflexivity | lia].
  - destruct (IH (Openpyxl.append ws row)) as [-> ->]. cbn.
    rewrite <- app_assoc. split; [reflexivity | lia].
Qed.

Lemma sheet_after_rows pages : forall ws,
  sheet_after pages ws = fold_left Openpyxl.append (rows_produced pages) ws.
Proof.
  unfold rows_produced.
  induction pages as [|p pages IH]; intros ws; [reflexivity|].
  rewrite sheet_after_cons, IH. cbn [flat_map]. now rewrite fold_left_app.
Qed.

Lemma sheet_cells pages :
  ws_cells (sheet_after pages Workbook) = cells_from 0 (rows_produced pages).
Proof.
  rewrite sheet_after_rows.
  destruct (append_rows_cells (rows_produced pages) Workbook) as [-> _].
  reflexivity.
Qed.

Lemma cells_from_rows n rows kv :
  kv ∈ cells_from n rows -> n < fst (fst kv).
Proof.
  revert n. induction rows as [|row rows IH]; intros n H; cbn in H.
  - inversion H.
  - apply elem_of_app in H as [H|H].
    + apply elem_of_lookup_imap in H as (j & v & -> & _). cbn. lia.
    + apply IH in H. lia.
Qed.

Lemma cells_from_nil n rows :
  cells_from n rows = [] <-> Forall (fun r => r = []) rows.
Proof.
  revert n. induction rows as [|row rows IH]; intros n; cbn.
  - split; [constructor | reflexivity].
  - split.
    + intros H. apply app_eq_nil in H as [H1 H2].
      constructor; [|now apply (IH (S n))].
      destruct row; [reflexivity | discriminate].
    + intros H. inversion H; subst. cbn. now apply (IH (S n)).
Qed.

Lemma list_max_ge l x : x ∈ l -> x <= list_max l.
Proof.
  induction l as [|y l IH]; intros H; [inversion H|].
  change (list_max (y :: l)) with (Nat.max y (list_max l)).
  apply elem_of_cons in H as [->|H]; [lia|]. apply IH in H. lia.
Qed.

Lemma list_max_all (l : list nat) n :
  l <> [] -> Forall (fun x => x = n) l -> list_max l = n.
Proof.
  intros N H. induction H as [|x l -> _ IH]; [contradiction|].
  change (list_max (n :: l)) with (Nat.max n (list_max l)).
  destruct l; [cbn; lia|]. rewrite IH by discriminate. lia.
Qed.

(** Reading the cell of column [j+1] in the first row of a sheet whose
    first cells are those of [row]. *)
Lemma find_first_row (row : Row) rest j c : forall o,
  row !! j = Some c ->
  find (fun kv : nat * nat * Cell =>
          (fst (fst kv) =? 1) && (snd (fst kv) =? S (o + j)))
       (imap (fun i v => ((1, S (o + i)), v)) row ++ rest) =
  Some ((1, S (o + j)), c).
Proof.
  revert j. induction row as [|c0 row IH]; intros j o H; [inversion H|].
  destruct j as [|j]; cbn [imap app find fst snd].
  - cbn in H. inversion H; subst.
    rewrite Nat.add_0_r, !Nat.eqb_refl. reflexivity.
  - cbn in H. rewrite Nat.add_0_r.
    replace (S o =? S (o + S j)) with false
      by (symmetry; apply Nat.eqb_neq; lia).
    cbn [andb].
    rewrite (imap_ext _ (fun i v => ((1, S (S o + i)), v)) row)
      by (intros i v _; cbn; f_equal; f_equal; f_equal; lia).
    replace (o + S j) with (S o + j) by lia. apply IH. exact H.
Qed.

(** The test of line 142 on the sheet of a run holds exactly for the rows
    that [looks_empty] describes. *)
Lemma sheet_is_blank_spec pages :
  sheet_is_blank (sheet_after pages Workbook) = true <->
  looks_empty (rows_produced pages).
Proof.
  unfold sheet_is_blank, max_row, row_values, max_column, cell_value.
  rewrite sheet_cells. destruct (rows_produced pages) as [|row rows].
  { cbn. split; auto. }
  cbn [cells_from looks_empty].
  set (first := imap (fun j v => ((1, S j), v)) row).
  set (rest := cells_from 1 rows).
  rewrite andb_true_iff, forallb_forall.
  split.
  - intros [M A].
    assert (R : rest = []).
    { destruct rest as [|kv rest'] eqn:E; [reflexivity|]. exfalso.
      assert (In1 : kv ∈ cells_from 1 rows)
        by (fold rest; rewrite E; apply list_elem_of_here).
      apply cells_from_rows in In1.
      destruct (first ++ kv :: rest') as [|kv0 l0] eqn:E0.
      { destruct first; discriminate. }
      rewrite <- E0 in M. apply Nat.eqb_eq in M.
      assert (fst (fst kv) <= 1).
      { rewrite <- M. apply list_max_ge. apply list_elem_of_fmap.
        exists kv. split; [reflexivity|].
        apply elem_of_app. right. apply list_elem_of_here. }
      lia. }
    split; [|apply (proj1 (cells_from_nil 1 rows)); exact R].
    apply Forall_lookup. intros j c Hj.
    destruct (first ++ rest) as [|kv0 l0] eqn:E0.
    { subst first. destruct row; [inversion Hj | discriminate]. }
    rewrite <- E0 in A.
    assert (C : S j <= list_max (map (fun kv => snd (fst kv)) (first ++ rest))).
    { apply list_max_ge. apply list_elem_of_fmap.
      exists ((1, S j), c). split; [reflexivity|].
      apply elem_of_app. left. subst first.
      apply elem_of_lookup_imap. exists j, c. auto. }
    specialize (A (match find (fun kv => (fst (fst kv) =? 1) && (snd (fst kv) =? S j))
                           (first ++ rest) with
                   | Some kv => snd kv | None => None end)).
    pose proof (find_first_row row rest j c 0 Hj) as F.
    cbn [Nat.add] in F. fold first in F. rewrite F in A. cbn [snd] in A.
    destruct c as [s|]; [|reflexivity].
    discriminate A. apply in_map_iff. exists (S j). split.
    + rewrite F. reflexivity.
    + apply in_seq. lia.
  - intros [A R]. apply (proj2 (cells_from_nil 1 rows)) in R. fold rest in R.
    rewrite R, app_nil_r.
    assert (V : Forall (fun kv => fst (fst kv) = 1 /\ snd kv = None) first).
    { subst first. apply Forall_forall. intros kv H.
      apply elem_of_lookup_imap in H as (j & v & -> & Hj). split; [reflexivity|].
      cbn. eapply Forall_lookup in A; eauto. }
    split.
    + destruct first as [|kv0 l0] eqn:E0; [reflexivity|].
      apply Nat.eqb_eq. apply list_max_all; [discriminate|].
      apply Forall_fmap. eapply Forall_impl; [exact V|]. cbn. tauto.
    + intros x Hx. apply in_map_iff in Hx as (c & <- & _).
      destruct (find _ first) as [kv|] eqn:Fd; [|reflexivity].
      apply find_some in Fd as [Hin _]. apply list_elem_of_In in Hin.
      eapply Forall_forall in V; eauto. destruct V as [_ V].
      destruct kv as [key v]. cbn in V |- *. now subst v.
Qed.

(** When the first row produced holds a value, the sheet does not pass the
    test: the run ends with the spreadsheet. *)
Lemma visible_first_row pages row rows s :
  rows_produced pages = row :: rows -> Some s ∈ row ->
  sheet_is_blank (sheet_after pages Workbook) = false.
Proof.
  intros R H. apply not_true_is_false. intros B.
  apply sheet_is_blank_spec in B. rewrite R in B. destruct B as [A _].
  eapply Forall_forall in A; eauto. discriminate.
Qed.

(** The outcome of a run without faults and without cancellation, read on
    the rows it produced: the no-table text for rows that [looks_empty]
    describes, among them the empty list; the spreadsheet for the others. *)
Lemma outcome_by_rows env rm chat mid pdf excel ev w pages :
  quiet env ->
  files w !! pdf = Some (PdfFile pages) ->
  pages <> [] ->
  (forall i, i < length pages `min` MAX_PAGES -> signalled_before env i = false) ->
  default false (events w !! ev) = false ->
  let rows := rows_produced (take (length pages `min` MAX_PAGES) pages) in
  let w' := snd (process_pdf_async env rm chat mid pdf excel ev w) in
  (looks_empty rows ->
   final_state (issued w w') = Some (Failed NoTableDetected)) /\
  (~ looks_empty rows -> final_state (issued w w') = Some Completed).
Proof.
  intros Q F N Hs E rows w'.
  destruct (quiet_run env rm chat mid pdf excel ev w pages Q F N Hs E)
    as (_ & _ & H & _).
  fold w' in H. rewrite H.
  destruct (sheet_is_blank _) eqn:B.
  - split; [reflexivity|]. intros L. exfalso. apply L.
    now apply sheet_is_blank_spec.
  - split; [|reflexivity]. intros L. apply sheet_is_blank_spec in L.
    unfold rows in L. congruence.
Qed.

End Sheet.

(** ** Rows and outcome *)

Section RowsAndOutcome.

Import App.

Lemma rows_have_text pages :
  Forall as_extracted pages -> Forall row_has_text (rows_produced pages).
Proof.
  unfold rows_produced. induction 1 as [|p pages Hp _ IH]; [constructor|].
  cbn [flat_map]. apply Forall_app. split; [|exact IH].
  destruct p as [|[rows|]]; cbn; auto.
Qed.

(** On tables built as pdfplumber builds them the test of line 142 holds
    exactly when no row was appended. *)
Lemma blank_iff_no_rows pages :
  Forall as_extracted pages ->
  sheet_is_blank (sheet_after pages Workbook) =
    match rows_produced pages with [] => true | _ => false end.
Proof.
  intros A. apply rows_have_text in A.
  destruct (rows_produced pages) as [|row rows] eqn:R.
  - now rewrite (sheet_after_no_rows _ _ R).
  - inversion A as [|? ? Hr _]; subst.
    apply Exists_exists in Hr as (c & Hc & Nc).
    destruct c as [s|]; [|contradiction].
    eapply visible_first_row; eauto.
Qed.

(** C5. A document with pages, its tables built as pdfplumber builds them,
    in a run without faults and without cancellation.  When the pages gone
    over produce no row, the run ends with the no-table text, which is
    not the text of the empty document, and sends no file.  Otherwise the
    sheet the rows were appended to is saved, the run ends Completed, and
    its last call sends that sheet to the client. *)
Theorem rows_decide_the_outcome env rm chat mid pdf excel ev w pages :
  quiet env ->
  files w !! pdf = Some (PdfFile pages) ->
  pages <> [] ->
  (forall i, i < length pages `min` MAX_PAGES -> signalled_before env i = false) ->
  default false (events w !! ev) = false ->
  Forall as_extracted pages ->
  let total := length pages `min` MAX_PAGES in
  let w' := snd (process_pdf_async env rm chat mid pdf excel ev w) in
  let rows := rows_produced (take total pages) in
  let ws := fold_left Openpyxl.append rows Workbook in
  (rows = [] ->
   final_state (issued w w') = Some (Failed NoTableDetected) /\
   Failed NoTableDetected <> Failed EmptyDocument /\
   last (issued w w') = Some (edit_message_text chat mid MsgNoTables, true) /\
   Forall (fun cb => sends_file (fst cb) = false) (issued w w')) /\
  (rows <> [] ->
   final_state (issued w w') = Some Completed /\
   last (issued w w') =
     Some (send_document chat (XlsxFile ws) (Py.basename excel) caption_app, true) /\
   (edit_message_text chat mid MsgComplete, true) ∈ issued w w').
Proof.
  intros Q F N Hs E A. cbn zeta.
  set (total := length pages `min` MAX_PAGES).
  destruct (quiet_run env rm chat mid pdf excel ev w pages Q F N Hs E)
    as (_ & I & Fs & _).
  fold total in I, Fs.
  pose proof (blank_iff_no_rows (take total pages) (Forall_take _ _ _ A)) as B.
  rewrite <- (sheet_after_rows (take total pages) Workbook).
  set (ws := sheet_after (take total pages) Workbook) in *.
  split; intros R.
  - rewrite R in B. rewrite B in I, Fs.
    split; [exact Fs|]. split; [discriminate|]. rewrite I. split.
    + rewrite !app_assoc, map_app. cbn [map]. apply last_snoc.
    + apply Forall_fmap, Forall_app. split; [repeat constructor|].
      apply Forall_app. split; [|repeat constructor].
      unfold reports. apply Forall_fmap, Forall_forall. intros i _. reflexivity.
  - destruct (rows_produced (take total pages)) as [|row rows];
      [contradiction|].
    rewrite B in I, Fs.
    split; [exact Fs|]. rewrite I. split.
    + change [edit_message_text chat mid MsgComplete;
              send_document chat (XlsxFile ws) (Py.basename excel) caption_app]
        with ([edit_message_text chat mid MsgComplete] ++
              [send_document chat (XlsxFile ws) (Py.basename excel) caption_app]).
      rewrite !app_assoc, map_app. cbn [map]. apply last_snoc.
    + apply list_elem_of_fmap. eexists. split; [reflexivity|].
      apply elem_of_app. right. apply elem_of_app. right.
      apply list_elem_of_here.
Qed.

Lemma rows_decide_the_outcome_witness :
  final_state (issued scenario_world (scenario_run never_signalled)) =
  Some Completed.
Proof.
  assert (Q : quiet never_signalled) by (intros op; reflexivity).
  assert (A : Forall as_extracted
                (replicate 10 with_rows ++ replicate 9 without_rows ++
                 replicate 6 with_rows)).
  { repeat (apply Forall_app; split); apply Forall_replicate; cbn; auto;
      repeat constructor; discriminate. }
  refine (proj1 (proj2 (rows_decide_the_outcome never_signalled (fun _ => false)
                          7 0 "/tmp/scenario.pdf" "/tmp/scenario.xlsx" 0
                          scenario_world _ Q eq_refl ltac:(discriminate)
                          (fun _ _ => eq_refl) eq_refl A) _)).
  vm_compute. discriminate.
Defined.

End RowsAndOutcome.

(** ** The ceiling on pages *)

Section Ceiling.

Import App.

(** C6 fails on the code: nothing tells the client of the clamping.  A
    document of 3001 pages is converted with thirteen calls, the texts
    below, which are call for call those of the document of its first
    3000 pages; the one trace of the clamping is the warning in the log. *)
Lemma long_document_gets_no_caveat :
  let w' := snd (process_pdf_async never_signalled (fun _ => false) 7 0
                   "/tmp/long.pdf" "/tmp/long.xlsx" 0 long_world) in
  let v' := snd (process_pdf_async never_signalled (fun _ => false) 7 0
                   "/tmp/long.pdf" "/tmp/long.xlsx" 0 exact_world) in
  map (fun cb => text_of (fst cb)) (issued long_world w') =
    [text MsgProcessing;
     text (MsgProgress 10 300 3000); text (MsgProgress 20 600 3000);
     text (MsgProgress 30 900 3000); text (MsgProgress 40 1200 3000);
     text (MsgProgress 50 1500 3000); text (MsgProgress 60 1800 3000);
     text (MsgProgress 70 2100 3000); text (MsgProgress 80 2400 3000);
     text (MsgProgress 90 2700 3000); text (MsgProgress 100 3000 3000);
     text MsgComplete; caption_app] /\
  issued long_world w' = issued exact_world v' /\
  logs w' = [LogJobStart 7 "/tmp/long.pdf"; LogTooManyPages 3001 7;
             LogJobCompleted 7] /\
  logs v' = [LogJobStart 7 "/tmp/long.pdf"; LogJobCompleted 7].
Proof. vm_compute. repeat split. Qed.

(** C6, as the code has it.  A document of more than [MAX_PAGES] (3000)
    pages, in a run without faults and without cancellation: exactly the
    units 0 .. 2999 are extracted, in order, and the others are not; the
    run ends with the spreadsheet or with the no-table text, never with
    the error text.  The clamping is written to the log as a warning and
    the client is not told of it: the calls of the run are those of the
    run over the document cut at the ceiling. *)
Theorem ceiling_clamps_processing env rm chat mid pdf excel ev w pages :
  quiet env ->
  files w !! pdf = Some (PdfFile pages) ->
  MAX_PAGES < length pages ->
  (forall i, i < MAX_PAGES -> signalled_before env i = false) ->
  default false (events w !! ev) = false ->
  let w' := snd (process_pdf_async env rm chat mid pdf excel ev w) in
  let cut := set_files (fun fs => <[pdf := PdfFile (take MAX_PAGES pages)]> fs) w in
  let cut' := snd (process_pdf_async env rm chat mid pdf excel ev cut) in
  let ws := sheet_after (take MAX_PAGES pages) Workbook in
  MAX_PAGES = 3000 /\
  processed w w' = map (pair chat) (seq 0 MAX_PAGES) /\
  (forall i, MAX_PAGES <= i -> (chat, i) ∉ processed w w') /\
  issued w w' =
    map (fun c => (c, true))
      ([edit_message_text chat mid MsgProcessing] ++
       reports chat mid MAX_PAGES (1 `max` (MAX_PAGES / PROGRESS_STEPS)) 0 MAX_PAGES ++
       (if sheet_is_blank ws
        then [edit_message_text chat mid MsgNoTables]
        else [edit_message_text chat mid MsgComplete;
              send_document chat (XlsxFile ws) (Py.basename excel) caption_app])) /\
  final_state (issued w w') =
    Some (if sheet_is_blank ws then Failed NoTableDetected else Completed) /\
  issued w w' = issued cut cut' /\
  LogTooManyPages (length pages) chat ∈ logs w'.
Proof.
  intros Q F L Hs E. cbn zeta.
  assert (C : length pages `min` MAX_PAGES = MAX_PAGES) by lia.
  assert (N : pages <> []) by (intros ->; cbn in L; lia).
  destruct (quiet_run env rm chat mid pdf excel ev w pages Q F N)
    as (Hp & Hi & Hf & Hl); auto.
  { intros i Hi. apply Hs. lia. }
  rewrite C in Hp, Hi, Hf.
  set (short := take MAX_PAGES pages) in *.
  assert (Ls : length short = MAX_PAGES).
  { subst short. rewrite length_take. lia. }
  assert (Cs : length short `min` MAX_PAGES = MAX_PAGES) by lia.
  destruct (quiet_run env rm chat mid pdf excel ev
              (set_files (fun fs => <[pdf := PdfFile short]> fs) w) short Q)
    as (_ & Hi' & _); auto.
  { cbn [files set_files]. apply lookup_insert_eq. }
  { intros ->. cbn in Ls. unfold MAX_PAGES in Ls. discriminate. }
  { intros i Hi0. apply Hs. lia. }
  rewrite Cs in Hi'.
  assert (T : take MAX_PAGES short = short).
  { subst short. apply take_take_eq || (rewrite take_take; f_equal; lia). }
  rewrite T in Hi'.
  split; [reflexivity|]. split; [exact Hp|]. split; [|split; [exact Hi|]].
  { rewrite Hp. intros i Hi0 Hin. apply list_elem_of_fmap in Hin as (j & Hj & Hin).
    apply elem_of_seq in Hin. inversion Hj. lia. }
  split; [exact Hf|]. split; [now rewrite Hi, Hi'|]. now apply Hl.
Qed.

Lemma ceiling_clamps_processing_witness :
  let w' := snd (process_pdf_async never_signalled (fun _ => false) 7 0
                   "/tmp/long.pdf" "/tmp/long.xlsx" 0 long_world) in
  length (processed long_world w') = 3000 /\
  LogTooManyPages 3001 7 ∈ logs w'.
Proof.
  cbn zeta.
  assert (Q : quiet never_signalled) by (intros op; reflexivity).
  assert (F : files long_world !! "/tmp/long.pdf" =
              Some (PdfFile (replicate 3001 with_rows)))
    by (apply lookup_insert_eq).
  assert (L : MAX_PAGES < length (replicate 3001 with_rows))
    by (rewrite length_replicate; unfold MAX_PAGES; apply Nat.lt_succ_diag_r).
  destruct (ceiling_clamps_processing never_signalled (fun _ => false) 7 0
              "/tmp/long.pdf" "/tmp/long.xlsx" 0 long_world _ Q F L
              (fun _ _ => eq_refl) eq_refl)
    as (_ & Hp & _ & _ & _ & _ & Hl).
  split.
  - rewrite Hp, length_map, length_seq. reflexivity.
  - rewrite length_replicate in Hl. exact Hl.
Defined.

End Ceiling.

(** ** The order of notifications, whatever fails *)

Section Shapes.

Import App.

Variable env : Env.
Variables (chat : Z) (mid : nat) (pdf excel : string) (ev : nat).

Lemma append_rows_world p : forall l ws w r w',
  for_each (append_row env p) ws l w = (r, w') -> w' = w /\ r <> Returned.
Proof.
  induction l as [|x l IH]; intros ws w r w' H.
  - inversion H. split; [reflexivity | discriminate].
  - cbn [for_each] in H. unfold mbind, M_bind, append_row at 1 in H.
    destruct (raises env _); cbn in H.
    + inversion H. split; [reflexivity | discriminate].
    + eapply IH. exact H.
Qed.

(** What one turn of the loop issues. *)
Lemma iteration_shape pages total step ws i w r w' :
  iteration env chat mid ev pages total step ws i w = (r, w') ->
  exists l,
    outbox w' = outbox w ++ l /\
    match r with
    | Val _ =>
        map fst l =
          if report_due total step i then [report chat mid total i] else []
    | Returned =>
        map fst l = [edit_message_text chat mid (MsgCancelled i total)]
    | Raised =>
        map fst l = [] \/
        map fst l = [edit_message_text chat mid (MsgCancelled i total)]
    end.
Proof.
  unfold iteration. fold (report_due total step i).
  unfold mbind at 1, M_bind at 1.
  destruct (interleave env ev i w) as [r0 w0] eqn:E0.
  assert (O0 : outbox w0 = outbox w /\ r0 = Val tt).
  { unfold interleave in E0. destruct (signalled_before env i);
      inversion E0; subst; split; reflexivity. }
  destruct O0 as [O0 ->]. rewrite <- O0. clear E0 O0 w.
  unfold mbind at 1, M_bind at 1, is_set at 1, gets.
  destruct (default false (events w0 !! ev)).
  - unfold mbind, M_bind, log, modify, edit, telegram.
    destruct (raises env _); cbn; intros H; inversion H; subst;
      eexists; (split; [reflexivity|]); cbn; auto.
  - unfold mbind at 1, M_bind at 1, get_page at 1.
    destruct (pages !! i) as [page|];
      [|intros H; inversion H; subst; exists []; cbn; rewrite app_nil_r; auto].
    unfold mbind at 1, M_bind at 1.
    destruct (try_except (extract_table chat i page) _ w0) as [rt w1] eqn:E1.
    assert (O1 : outbox w1 = outbox w0 /\ exists t, rt = Val t).
    { unfold try_except, extract_table, mbind, M_bind, log, modify in E1.
      destruct page; inversion E1; subst; cbn; eauto. }
    destruct O1 as [O1 [t ->]]. rewrite <- O1. clear E1 O1 w0.
    unfold mbind at 1, M_bind at 1.
    destruct (for_each (append_row env (i + 1)) ws _ w1) as [rw w2] eqn:EW.
    apply append_rows_world in EW as [-> NR].
    destruct rw as [ws'| |]; try contradiction;
      try (intros H; inversion H; subst; exists []; cbn; rewrite app_nil_r;
           auto; fail).
    unfold mbind, M_bind, try_except, edit, telegram, log, modify.
    destruct (report_due total step i).
    + destruct (raises env _); cbn; intros H; inversion H; subst;
        eexists; (split; [reflexivity|]); reflexivity.
    + cbn. intros H; inversion H; subst. exists []. rewrite app_nil_r. auto.
Qed.

(** What the loop issues over the pages [a .. a+n-1]: the reports due on
    the pages it completed, then the cancellation text if it saw the
    event. *)
Lemma loop_shape pages total step : forall n a ws w r w',
  for_each (iteration env chat mid ev pages total step) ws (seq a n) w = (r, w') ->
  exists l k,
    outbox w' = outbox w ++ l /\
    k <= n /\
    match r with
    | Val _ => map fst l = reports chat mid total step a k
    | Returned =>
        map fst l =
          reports chat mid total step a k ++
          [edit_message_text chat mid (MsgCancelled (a + k) total)]
    | Raised =>
        map fst l = reports chat mid total step a k \/
        map fst l =
          reports chat mid total step a k ++
          [edit_message_text chat mid (MsgCancelled (a + k) total)]
    end.
Proof.
  induction n as [|n IH]; intros a ws w r w' H.
  - inversion H; subst. exists [], 0. cbn. rewrite app_nil_r. auto.
  - cbn [seq for_each] in H. unfold mbind, M_bind in H.
    destruct (iteration env chat mid ev pages total step ws a w)
      as [r1 w1] eqn:E1.
    destruct (iteration_shape _ _ _ _ _ _ _ _ E1) as (l1 & O1 & S1).
    destruct r1 as [ws'| |].
    + destruct (IH (S a) ws' w1 r w' H) as (l2 & k & O2 & K & S2).
      exists (l1 ++ l2), (S k). rewrite O2, O1, app_assoc.
      split; [reflexivity|]. split; [lia|].
      rewrite map_app, S1, reports_step.
      replace (a + S k) with (S a + k) by lia.
      destruct r as [?| |].
      * now rewrite S2.
      * rewrite S2, app_assoc. reflexivity.
      * destruct S2 as [S2|S2]; rewrite S2; [left | right];
          rewrite ?app_assoc; reflexivity.
    + inversion H; subst. exists l1, 0. split; [exact O1|]. split; [lia|].
      rewrite Nat.add_0_r. exact S1.
    + inversion H; subst. exists l1, 0. split; [exact O1|]. split; [lia|].
      rewrite Nat.add_0_r. exact S1.
Qed.

End Shapes.

Section JobShape.

Import App.

Variable env : Env.
Variables (chat : Z) (mid : nat) (pdf excel : string) (ev : nat).

#[local] Abbreviation terminal := (Forall (fun c : TgCall => is_terminal c = true)).

Lemma on_error_shape w r w' :
  on_error env chat mid w = (r, w') ->
  exists b, outbox w' = outbox w ++ [(edit_message_text chat mid MsgError, b)].
Proof.
  unfold on_error, try_except, mbind, M_bind, edit, telegram, log, modify.
  destruct (raises env _); cbn; intros H; inversion H; subst; eexists;
    reflexivity.
Qed.

Lemma convert_shape ws0 w r w' :
  convert env chat mid pdf ev ws0 w = (r, w') ->
  exists l total step k ending,
    outbox w' = outbox w ++ l /\
    map fst l = reports chat mid total step 0 k ++ ending /\
    terminal ending /\
    match r with
    | Val _ => ending = []
    | Returned => ending <> []
    | Raised => True
    end.
Proof.
  unfold convert. unfold mbind at 1, M_bind at 1, gets at 1.
  destruct (files w !! pdf) as [[pages| | |]|];
    try (intros H; inversion H; subst; exists [], 0, 1, 0, []; cbn;
         rewrite app_nil_r; repeat split; constructor).
  destruct (length pages =? 0).
  - unfold mbind, M_bind, edit, telegram.
    destruct (raises env _); cbn; intros H; inversion H; subst;
      eexists _, 0, 1, 0, [edit_message_text chat mid MsgEmpty];
      (split; [reflexivity|]); cbn; repeat split; try discriminate;
      repeat constructor.
  - cbn zeta. unfold mbind at 1, M_bind at 1.
    set (w0 := snd ((if MAX_PAGES <? length pages
                     then log (LogTooManyPages (length pages) chat)
                     else mret tt) w)).
    assert (E0 : (if MAX_PAGES <? length pages
                  then log (LogTooManyPages (length pages) chat)
                  else mret tt) w = (Val tt, w0) /\ outbox w0 = outbox w).
    { subst w0. destruct (MAX_PAGES <? length pages); split; reflexivity. }
    destruct E0 as [E0 O0]. rewrite E0, <- O0. intros H.
    apply loop_shape in H as (l & k & O & _ & S).
    destruct r as [ws| |].
    + eexists l, _, _, k, []. rewrite app_nil_r. repeat split; eauto.
    + eexists l, _, _, k, _. repeat split; eauto; try discriminate;
        repeat constructor.
    + destruct S as [S|S].
      * eexists l, _, _, k, []. rewrite app_nil_r. repeat split; eauto.
      * eexists l, _, _, k, _. repeat split; eauto; repeat constructor.
Qed.

Lemma deliver_shape ws w r w' :
  deliver env chat mid excel ws w = (r, w') ->
  exists l,
    outbox w' = outbox w ++ l /\
    terminal (map fst l) /\
    (r <> Raised -> l <> []).
Proof.
  unfold deliver. destruct (sheet_is_blank ws).
  - unfold mbind, M_bind, edit, telegram.
    destruct (raises env _); cbn; intros H; inversion H; subst;
      eexists; (split; [reflexivity|]); cbn; split;
      try (intros; discriminate); repeat constructor.
  - unfold mbind at 1, M_bind at 1, save at 1.
    destruct (raises env (OpSave excel)).
    { intros H; inversion H; subst. exists []. rewrite app_nil_r.
      repeat split; [constructor | contradiction]. }
    unfold mbind at 1, M_bind at 1, edit, telegram at 1.
    destruct (raises env _).
    { cbn. intros H; inversion H; subst.
      eexists; (split; [reflexivity|]); cbn; split;
        [repeat constructor | contradiction]. }
    unfold mbind at 1, M_bind at 1, open_rb at 1.
    match goal with |- context [files ?x !! excel] => destruct (files x !! excel) end.
    2:{ cbn. intros H; inversion H; subst.
        eexists; (split; [reflexivity|]); cbn; split;
          [repeat constructor | contradiction]. }
    unfold mbind, M_bind, telegram, log, modify.
    destruct (raises env _); cbn; intros H; inversion H; subst; cbn;
      rewrite <- app_assoc; eexists; (split; [reflexivity|]); cbn; split;
      try (intros; discriminate); repeat constructor.
Qed.

(** Whatever raises and whenever the event is signalled, the calls of a
    job have the shape of [job_shape]. *)
Lemma guarded_shape w r w' :
  guarded env chat mid pdf excel ev w = (r, w') ->
  exists l, outbox w' = outbox w ++ l /\ job_shape chat mid (map fst l).
Proof.
  unfold guarded, try_except.
  destruct ((edit env chat mid MsgProcessing ;; _) w) as [rb wb] eqn:B.
  unfold mbind at 1, M_bind at 1, edit, telegram at 1 in B.
  destruct (raises env _).
  { inversion B; subst. intros H. apply on_error_shape in H as [b O].
    eexists. rewrite O. cbn [outbox set_outbox]. rewrite <- app_assoc.
    split; [reflexivity|].
    exists 0, 1, 0, [edit_message_text chat mid MsgError].
    cbn. repeat split; try discriminate. repeat constructor. }
  unfold mbind at 1, M_bind at 1 in B.
  match type of B with
  | context [convert _ _ _ _ _ _ ?x] =>
      destruct (convert env chat mid pdf ev Workbook x) as [rc wc] eqn:C
  end.
  apply convert_shape in C as (lc & total & step & k & ending & Oc & Sc & Tc & Rc).
  cbn [outbox set_outbox] in Oc.
  destruct rc as [ws| |]; cbn beta iota in B.
  - subst ending. rewrite app_nil_r in Sc.
    destruct (deliver env chat mid excel ws wc) as [rd wd] eqn:D.
    pose proof D as D'. apply deliver_shape in D' as (ld & Od & Td & Nd).
 inversion B; subst rb wb.
    destruct rd as [[]| |].
    + intros H; inversion H; subst. eexists. rewrite Od, Oc, <- !app_assoc.
      split; [reflexivity|]. exists total, step, k, (map fst ld).
      cbn [app map]. rewrite !map_app, Sc. repeat split; auto.
      intros Z. apply map_eq_nil in Z. apply Nd; [discriminate | exact Z].
    + intros H; inversion H; subst. eexists. rewrite Od, Oc, <- !app_assoc.
      split; [reflexivity|]. exists total, step, k, (map fst ld).
      cbn [app map]. rewrite !map_app, Sc. repeat split; auto.
      intros Z. apply map_eq_nil in Z. apply Nd; [discriminate | exact Z].
    + intros H. apply on_error_shape in H as [b O].
      eexists. rewrite O, Od, Oc, <- !app_assoc.
      split; [reflexivity|].
      exists total, step, k, (map fst ld ++ [edit_message_text chat mid MsgError]).
      cbn [app map]. rewrite !map_app, Sc. cbn [map fst]. repeat split.
      * intros Z. apply app_eq_nil in Z as [_ Z]. discriminate.
      * apply Forall_app. split; [exact Td | repeat constructor].
  - inversion B; subst rb wb. intros H; inversion H; subst.
    eexists. rewrite Oc, <- !app_assoc. split; [reflexivity|].
    exists total, step, k, ending. cbn [app map]. rewrite Sc.
    repeat split; auto.
  - inversion B; subst rb wb. intros H. apply on_error_shape in H as [b O].
    eexists. rewrite O, Oc, <- !app_assoc. split; [reflexivity|].
    exists total, step, k, (ending ++ [edit_message_text chat mid MsgError]).
    cbn [app map]. rewrite !map_app, Sc, <- app_assoc. cbn [map fst].
    repeat split.
    + intros Z. apply app_eq_nil in Z as [_ Z]. discriminate.
    + apply Forall_app. split; [exact Tc | repeat constructor].
Qed.

End JobShape.

Section Order.

Import App.

Variables (chat : Z) (mid total step : nat).

(** The reports due on a range of pages, seen through one of their
    numbers: the numbers come in the order of the pages. *)
Lemma reports_sorted (g : TgCall -> option nat) (f : nat -> nat) (R : relation nat) :
  (forall i, g (report chat mid total i) = Some (f i)) ->
  (forall i j, i < j -> R (f i) (f j)) ->
  forall k a,
    StronglySorted R (omap g (reports chat mid total step a k)) /\
    Forall (fun x => exists j, a <= j /\ x = f j)
           (omap g (reports chat mid total step a k)).
Proof.
  intros G Mono. induction k as [|k IH]; intros a.
  - split; constructor.
  - rewrite reports_step, omap_app. destruct (IH (S a)) as [Hs Hf].
    destruct (report_due total step a).
    + cbn [omap list_omap]. rewrite G. cbn [app]. split.
      * constructor; [exact Hs|].
        eapply Forall_impl; [exact Hf|]. cbn.
        intros x (j & Hj & ->). apply Mono. lia.
      * constructor; [exists a; split; [lia | reflexivity]|].
        eapply Forall_impl; [exact Hf|]. cbn.
        intros x (j & Hj & ->). exists j. split; [lia | reflexivity].
    + cbn [omap list_omap app]. split; [exact Hs|].
      eapply Forall_impl; [exact Hf|]. cbn.
      intros x (j & Hj & ->). exists j. split; [lia | reflexivity].
Qed.

Lemma reports_not_terminal a k :
  Forall (fun c => is_terminal c = false) (reports chat mid total step a k).
Proof.
  unfold reports. apply Forall_fmap, Forall_forall. intros i _. reflexivity.
Qed.

Lemma terminal_no_number (g : TgCall -> option nat) ending :
  (forall c, is_Some (g c) -> is_terminal c = false) ->
  Forall (fun c => is_terminal c = true) ending -> omap g ending = [].
Proof.
  intros G H. induction H as [|c ending Hc _ IH]; [reflexivity|].
  cbn [omap list_omap]. destruct (g c) eqn:E.
  - rewrite (G c) in Hc by (rewrite E; eauto). discriminate.
  - exact IH.
Qed.

End Order.

Lemma unit_count_not_terminal c : is_Some (unit_count c) -> is_terminal c = false.
Proof.
  destruct c as [? ? m| |]; try (intros [? H]; discriminate).
  destruct m; try (intros [? H]; discriminate). reflexivity.
Qed.

Lemma percentage_not_terminal c : is_Some (percentage c) -> is_terminal c = false.
Proof.
  destruct c as [? ? m| |]; try (intros [? H]; discriminate).
  destruct m; try (intros [? H]; discriminate). reflexivity.
Qed.

Lemma job_shape_order chat mid calls :
  job_shape chat mid calls ->
  StronglySorted le (omap percentage calls) /\
  StronglySorted lt (omap unit_count calls) /\
  (exists before ending,
     calls = before ++ ending /\
     Forall (fun c => is_terminal c = false) before /\
     Forall (fun c => is_terminal c = true) ending /\
     ending <> []) /\
  (exists c, last calls = Some c /\ is_terminal c = true).
Proof.
  intros (total & step & k & ending & -> & N & T).
  split; [|split; [|split]].
  - cbn [omap list_omap percentage]. rewrite omap_app.
    rewrite (terminal_no_number percentage ending percentage_not_terminal T).
    rewrite app_nil_r.
    apply (reports_sorted chat mid total step percentage
             (fun i => App.percent_of (i + 1) total) le).
    + reflexivity.
    + intros i j H. unfold App.percent_of. apply Nat.Div0.div_le_mono. lia.
  - cbn [omap list_omap unit_count]. rewrite omap_app.
    rewrite (terminal_no_number unit_count ending unit_count_not_terminal T).
    rewrite app_nil_r.
    apply (reports_sorted chat mid total step unit_count (fun i => i + 1) lt).
    + reflexivity.
    + intros i j H. lia.
  - exists (edit_message_text chat mid MsgProcessing ::
            reports chat mid total step 0 k), ending.
    repeat split; auto.
    constructor; [reflexivity | apply reports_not_terminal].
  - destruct (exists_last N) as (ending' & c & ->).
    exists c. split.
    + change (edit_message_text chat mid MsgProcessing ::
              reports chat mid total step 0 k ++ ending' ++ [c])
        with ((edit_message_text chat mid MsgProcessing ::
               reports chat mid total step 0 k) ++ ending' ++ [c]).
      rewrite app_assoc. apply last_snoc.
    + apply Forall_app in T as [_ T]. now inversion T.
Qed.

(** C9. Whatever fails and whenever the event is signalled, the
    notifications a job issues are in order: the percentages of its
    progress reports never go down, their unit counts go up, and the
    notifications split into those of the job under way followed by its
    terminal ones, of which there is at least one, so that the last
    notification issued is a terminal one. *)
Theorem notifications_in_order env rm chat mid pdf excel ev w :
  let w' := snd (App.process_pdf_async env rm chat mid pdf excel ev w) in
  let calls := map fst (issued w w') in
  StronglySorted le (omap percentage calls) /\
  StronglySorted lt (omap unit_count calls) /\
  (exists before ending,
     calls = before ++ ending /\
     Forall (fun c => is_terminal c = false) before /\
     Forall (fun c => is_terminal c = true) ending /\
     ending <> []) /\
  (exists c, last calls = Some c /\ is_terminal c = true).
Proof.
  cbn zeta.
  destruct (guarded env chat mid pdf excel ev
              (set_logs (fun l => l ++ [LogJobStart chat pdf]) w))
    as [r w1] eqn:G.
  destruct (process_after_guarded env rm chat mid pdf excel ev w _ _ G)
    as (P1 & _).
  apply guarded_shape in G as (l & O & S).
  cbn [outbox set_logs] in O. rewrite O in P1.
  rewrite (issued_app _ _ _ P1).
  apply job_shape_order with (chat := chat) (mid := mid). exact S.
Qed.

(** * Further properties *)

(** ** The handlers of [app.py] *)

Section Handlers.

Import App.

(** An upload that passes the three tests of [handle_pdf], its download
    succeeding. *)
Lemma handle_pdf_accepted chat doc w :
  is_pdf_name doc = true -> too_large doc = false ->
  active_jobs w !! chat = None ->
  let run := handle_pdf false chat doc w in
  let job := job_for chat doc w in
  fst run = Val tt /\
  active_jobs (snd run) =
    <[chat := {| cancel_event := t_cancel_event job; thread := job |}]>
      (active_jobs w) /\
  events (snd run) = events w ++ [false] /\
  events (snd run) !! t_cancel_event job = Some false /\
  files (snd run) = <[pdf_path_of doc := content doc]> (files w) /\
  started (snd run) = started w ++ [job] /\
  outbox (snd run) = outbox w ++ [(reply_text chat MsgStarting, true)] /\
  extracted (snd run) = extracted w.
Proof.
  intros P T J. cbn zeta.
  unfold handle_pdf, call, admission, fetch, register_and_start, try_except,
    new_event, mbind, M_bind, log, modify, reply, gets.
  cbn. rewrite P, T. cbn. rewrite J. cbn.
  repeat split. apply list_lookup_middle. reflexivity.
Qed.

(** X1.  A document whose name does not end in [.pdf], whatever its case: the
    reply of line 236 and nothing else, whatever the size of the document
    and whether or not the client has a job. *)
Theorem handle_pdf_refuses_other_names dl chat doc w :
  is_pdf_name doc = false ->
  let run := handle_pdf dl chat doc w in
  fst run = Val tt /\
  active_jobs (snd run) = active_jobs w /\
  events (snd run) = events w /\
  files (snd run) = files w /\
  started (snd run) = started w /\
  outbox (snd run) = outbox w ++ [(reply_text chat MsgPleaseUpload, true)].
Proof.
  intros P. cbn zeta.
  unfold handle_pdf, call, admission, mbind, M_bind, log, modify, reply.
  cbn. rewrite P. cbn. repeat split.
Qed.

Lemma handle_pdf_refuses_other_names_witness :
  let doc := {| file_name := "notes.txt"; file_size := Some 20971521%Z;
                content := OtherFile |} in
  outbox (snd (handle_pdf false 7 doc registered_job)) =
    outbox registered_job ++ [(reply_text 7 MsgPleaseUpload, true)].
Proof.
  cbn zeta.
  destruct (handle_pdf_refuses_other_names false 7
              {| file_name := "notes.txt"; file_size := Some 20971521%Z;
                 content := OtherFile |} registered_job eq_refl)
    as (_ & _ & _ & _ & _ & Ho).
  exact Ho.
Defined.

(** X2.  A download that raises: the client is told so, and there is no job:
    no entry, no event and no thread. *)
Theorem handle_pdf_download_fails chat doc w :
  is_pdf_name doc = true -> too_large doc = false ->
  active_jobs w !! chat = None ->
  let run := handle_pdf true chat doc w in
  fst run = Val tt /\
  active_jobs (snd run) = active_jobs w /\
  events (snd run) = events w /\
  started (snd run) = started w /\
  outbox (snd run) = outbox w ++ [(reply_text chat MsgDownloadFailed, true)].
Proof.
  intros P T J. cbn zeta.
  unfold handle_pdf, call, admission, fetch, try_except, raise, return_,
    mbind, M_bind, log, modify, reply, gets.
  cbn. rewrite P, T. cbn. rewrite J. cbn. repeat split.
Qed.

Lemma handle_pdf_download_fails_witness :
  let run := handle_pdf true 7 report_pdf empty_world in
  active_jobs (snd run) = ∅ /\ started (snd run) = [] /\
  outbox (snd run) = [(reply_text 7 MsgDownloadFailed, true)].
Proof.
  cbn zeta.
  destruct (handle_pdf_download_fails 7 report_pdf empty_world eq_refl eq_refl eq_refl)
    as (_ & Hj & _ & Hs & Ho).
  split; [exact Hj|]. split; [exact Hs | exact Ho].
Defined.

(** X3.  [/stop] from a client without a job: the reply of line 216 and
    nothing else. *)
Theorem stop_without_job chat w :
  active_jobs w !! chat = None ->
  let run := stop chat w in
  fst run = Val tt /\
  active_jobs (snd run) = active_jobs w /\
  events (snd run) = events w /\
  files (snd run) = files w /\
  started (snd run) = started w /\
  outbox (snd run) = outbox w ++ [(reply_text chat MsgNoActive, true)].
Proof.
  intros J. cbn zeta. unfold stop, call, mbind, M_bind, log, modify, reply, gets.
  cbn. rewrite J. cbn. repeat split.
Qed.

Lemma stop_without_job_witness :
  outbox (snd (stop 8 registered_job)) =
    outbox registered_job ++ [(reply_text 8 MsgNoActive, true)].
Proof.
  destruct (stop_without_job 8 registered_job eq_refl) as (_ & _ & _ & _ & _ & Ho).
  exact Ho.
Defined.

(** X4.  [/stop] from a client with a job sets the event of that job and
    leaves the entry in the registry, for the worker to remove; a second
    [/stop] is answered like the first and changes no event: setting an
    event that is set does nothing. *)
Theorem stop_is_idempotent chat job w :
  active_jobs w !! chat = Some job ->
  let once := snd (stop chat w) in
  let twice := snd (stop chat once) in
  active_jobs once = active_jobs w /\
  events once = <[cancel_event job := true]> (events w) /\
  files once = files w /\
  outbox once = outbox w ++ [(reply_text chat MsgStopRequested, true)] /\
  active_jobs twice = active_jobs once /\
  events twice = events once /\
  outbox twice = outbox once ++ [(reply_text chat MsgStopRequested, true)].
Proof.
  intros J. cbn zeta. unfold stop, call, mbind, M_bind, log, modify, reply, gets.
  cbn. rewrite J. cbn. rewrite J. cbn.
  repeat split. apply list_insert_insert_eq.
Qed.

Lemma stop_is_idempotent_witness :
  events (snd (stop 7 (snd (stop 7 registered_job)))) = [true] /\
  is_Some (active_jobs (snd (stop 7 (snd (stop 7 registered_job)))) !! 7%Z).
Proof.
  assert (J : active_jobs registered_job !! 7%Z =
              Some {| cancel_event := 0;
                      thread := {| t_chat_id := 7; t_status_message_id := 0;
                                   t_pdf_path := "/tmp/r.pdf";
                                   t_excel_path := "/tmp/r.xlsx";
                                   t_cancel_event := 0 |} |})
    by reflexivity.
  destruct (stop_is_idempotent 7 _ registered_job J)
    as (Hj & He & _ & _ & Hj2 & He2 & _).
  split.
  - rewrite He2, He. reflexivity.
  - rewrite Hj2, Hj, J. eauto.
Defined.

End Handlers.

(** ** The registry and the events *)

Section Registry.

Import App.

Lemma well_formed_same w w' :
  active_jobs w' = active_jobs w -> length (events w') = length (events w) ->
  well_formed w -> well_formed w'.
Proof.
  intros J E W c j H. rewrite J in H. destruct (W c j H) as [L U].
  split; [now rewrite E|]. intros c' j' H'. rewrite J in H'. eauto.
Qed.

Lemma well_formed_delete c0 w w' :
  active_jobs w' = delete c0 (active_jobs w) ->
  length (events w') = length (events w) ->
  well_formed w -> well_formed w'.
Proof.
  intros J E W c j H. rewrite J in H.
  apply lookup_delete_Some in H as [_ H]. destruct (W c j H) as [L U].
  split; [now rewrite E|]. intros c' j' H'. rewrite J in H'.
  apply lookup_delete_Some in H' as [_ H']. eauto.
Qed.

Lemma well_formed_insert c0 j0 b w w' :
  active_jobs w' = <[c0 := j0]> (active_jobs w) ->
  events w' = events w ++ [b] ->
  cancel_event j0 = length (events w) ->
  well_formed w -> well_formed w'.
Proof.
  intros J E F W c j H. rewrite J in H. rewrite E, length_app. cbn.
  apply lookup_insert_Some in H as [[<- <-]|[N H]].
  - split; [lia|]. intros c' j' H' Eq. rewrite J in H'.
    apply lookup_insert_Some in H' as [[<- _]|[N' H']]; [reflexivity|].
    destruct (W c' j' H') as [L _]. lia.
  - destruct (W c j H) as [L U]. split; [lia|].
    intros c' j' H' Eq. rewrite J in H'.
    apply lookup_insert_Some in H' as [[<- <-]|[N' H']]; [lia|]. eauto.
Qed.

Lemma handle_pdf_cases dl chat doc w :
  let w' := snd (handle_pdf dl chat doc w) in
  (active_jobs w' = active_jobs w /\ events w' = events w) \/
  (active_jobs w' =
     <[chat := {| cancel_event := length (events w);
                  thread := job_for chat doc w |}]> (active_jobs w) /\
   events w' = events w ++ [false]).
Proof.
  cbn zeta.
  unfold handle_pdf, call, admission, fetch, register_and_start, try_except,
    new_event, raise, return_, mbind, M_bind, log, modify, reply, gets.
  cbn. destruct (is_pdf_name doc); cbn; [|left; split; reflexivity].
  destruct (too_large doc); cbn; [left; split; reflexivity|].
  destruct (active_jobs w !! chat); cbn; [left; split; reflexivity|].
  destruct dl; cbn; [left | right]; split; reflexivity.
Qed.

Lemma stop_cases chat w :
  let w' := snd (stop chat w) in
  active_jobs w' = active_jobs w /\
  match active_jobs w !! chat with
  | Some job => events w' = <[cancel_event job := true]> (events w)
  | None => events w' = events w
  end.
Proof.
  cbn zeta. unfold stop, call, mbind, M_bind, log, modify, reply, gets.
  cbn. destruct (active_jobs w !! chat); cbn; split; reflexivity.
Qed.

#[export] Instance same_events_length_preorder : PreOrder same_events_length.
Proof.
  split.
  - intros w. reflexivity.
  - intros w1 w2 w3 H1 H2. unfold same_events_length in *. congruence.
Qed.

Ltac events_prim :=
  let w := fresh "w" in
  intros; unfold preserves, same_events_length; intros w;
  unfold edit, is_set, interleave, path_exists, log;
  unfold get_page, extract_table, append_row, telegram, save, open_rb,
    remove, modify, gets, raise, return_, mret, M_ret;
  repeat match goal with
         | |- context [if ?b then _ else _] => destruct b
         | |- context [match ?x with _ => _ end] => destruct x
         end;
  cbn; rewrite ?length_insert; reflexivity.

Lemma guarded_events_length env chat mid pdf excel ev :
  preserves same_events_length (guarded env chat mid pdf excel ev).
Proof.
  unfold guarded, on_error, deliver.
  apply preserves_try_except; [tc_solve| |frame_structure; events_prim].
  apply preserves_bind; [tc_solve | events_prim | intros _].
  apply preserves_bind; [tc_solve | | intros ws; frame_structure; events_prim].
  unfold convert. apply preserves_bind; [tc_solve | events_prim | intros f].
  destruct f as [[pages| | |]|]; try (apply preserves_raise; tc_solve).
  destruct (length pages =? 0).
  - frame_structure; events_prim.
  - apply preserves_bind; [tc_solve | frame_structure; events_prim | intros _].
    apply preserves_for_each; [tc_solve|]. intros ws i.
    unfold iteration. frame_structure; events_prim.
Qed.

Lemma empty_world_well_formed : well_formed empty_world.
Proof. intros c j H. cbn in H. rewrite lookup_empty in H. discriminate. Qed.

Lemma handle_pdf_well_formed dl chat doc w :
  well_formed w -> well_formed (snd (handle_pdf dl chat doc w)).
Proof.
  intros W. destruct (handle_pdf_cases dl chat doc w) as [[J E]|[J E]].
  - eapply well_formed_same; eauto. now rewrite E.
  - eapply well_formed_insert; eauto.
Qed.

Lemma stop_well_formed chat w :
  well_formed w -> well_formed (snd (stop chat w)).
Proof.
  intros W. destruct (stop_cases chat w) as [J E].
  eapply well_formed_same; eauto.
  destruct (active_jobs w !! chat); rewrite E, ?length_insert; reflexivity.
Qed.

Lemma worker_well_formed env rm chat mid pdf excel ev w :
  well_formed w ->
  well_formed (snd (process_pdf_async env rm chat mid pdf excel ev w)).
Proof.
  intros W. rewrite process_pdf_async_unfold. cbn [snd].
  set (w0 := set_logs _ w).
  set (w1 := snd (guarded env chat mid pdf excel ev w0)).
  destruct (cleanup_registry rm chat pdf excel w1) as (Hj & He & _).
  destruct (guarded_registry env chat mid pdf excel ev w0) as [Hg _].
  pose proof (guarded_events_length env chat mid pdf excel ev w0) as Hl.
  fold w1 in Hg, Hl. unfold same_events_length in Hl.
  eapply well_formed_delete; [| |exact W].
  - rewrite Hj, Hg. reflexivity.
  - rewrite He, Hl. reflexivity.
Qed.

(** X5.  The registry stays well formed.  It is in the world the bot starts in,
    and every handler and every run of the worker, whatever fails in it,
    keeps it: entries refer to events that exist, and no two clients share
    an event. *)
Theorem registry_stays_well_formed :
  well_formed empty_world /\
  (forall dl chat doc w, well_formed w -> well_formed (snd (handle_pdf dl chat doc w))) /\
  (forall chat w, well_formed w -> well_formed (snd (stop chat w))) /\
  (forall chat w, well_formed w -> well_formed (snd (start chat w))) /\
  (forall env rm chat mid pdf excel ev w,
     well_formed w ->
     well_formed (snd (process_pdf_async env rm chat mid pdf excel ev w))).
Proof.
  split; [apply empty_world_well_formed|].
  split; [intros; now apply handle_pdf_well_formed|].
  split; [intros; now apply stop_well_formed|].
  split; [|intros; now apply worker_well_formed].
  intros chat w W. eapply well_formed_same; eauto; reflexivity.
Qed.

Lemma registry_stays_well_formed_witness : well_formed two_clients.
Proof.
  destruct registry_stays_well_formed as (W0 & Wh & _).
  apply Wh, Wh, W0.
Defined.

(** X6.  In a well-formed registry [/stop] reaches the job of its client only:
    the event of the job of any other client is as it was. *)
Theorem stop_reaches_one_client chat other job w :
  well_formed w -> chat <> other ->
  active_jobs w !! other = Some job ->
  events (snd (stop chat w)) !! cancel_event job =
    events w !! cancel_event job.
Proof.
  intros W N J. destruct (stop_cases chat w) as [_ E].
  destruct (active_jobs w !! chat) as [mine|] eqn:M; rewrite E; [|reflexivity].
  apply list_lookup_insert_ne. intros Eq.
  destruct (W chat mine M) as [_ U]. apply N. symmetry. eauto.
Qed.

Lemma stop_reaches_one_client_witness :
  events (snd (stop 1 two_clients)) !! 1 = Some false /\
  events (snd (stop 1 two_clients)) !! 0 = Some true.
Proof.
  assert (W : well_formed two_clients)
    by (apply handle_pdf_well_formed, handle_pdf_well_formed,
          empty_world_well_formed).
  pose proof (stop_reaches_one_client 1 2
                {| cancel_event := 1; thread := job_for 2 invoice_pdf
                     (snd (handle_pdf false 1 report_pdf empty_world)) |}
                two_clients W ltac:(discriminate) eq_refl) as H.
  cbn [cancel_event] in H. split; [rewrite H|]; reflexivity.
Defined.

End Registry.

(** ** From the upload to the end of the job *)

Section Lifecycle.

Import App.

(** X7.  A job leaves no trace.  After an accepted upload and the run of the
    worker it started, whatever fails in the run, the registry is what it
    was before the upload; the two artifacts are gone unless a deletion
    raised; [/stop] finds no job; and the next upload of the client is
    accepted and starts a thread. *)
Theorem job_leaves_no_trace env rm chat doc next w :
  is_pdf_name doc = true -> too_large doc = false ->
  is_pdf_name next = true -> too_large next = false ->
  active_jobs w !! chat = None ->
  let w1 := snd (handle_pdf false chat doc w) in
  let w2 := snd (run_thread env rm (job_for chat doc w) w1) in
  started w1 = started w ++ [job_for chat doc w] /\
  active_jobs w2 = active_jobs w /\
  (rm (pdf_path_of doc) = false -> files w2 !! pdf_path_of doc = None) /\
  (rm (pdf_path_of doc) = false -> rm (excel_path_of doc) = false ->
   files w2 !! excel_path_of doc = None) /\
  outbox (snd (stop chat w2)) = outbox w2 ++ [(reply_text chat MsgNoActive, true)] /\
  started (snd (handle_pdf false chat next w2)) =
    started w2 ++ [job_for chat next w2].
Proof.
  intros P T P' T' J w1 w2.
  destruct (handle_pdf_accepted chat doc w P T J)
    as (_ & Hj & _ & _ & _ & Hs & _).
  fold w1 in Hj, Hs.
  unfold run_thread in w2. cbn [t_chat_id t_status_message_id t_pdf_path
    t_excel_path t_cancel_event job_for] in w2.
  assert (Hw : w2 = snd (cleanup rm chat (pdf_path_of doc) (excel_path_of doc)
                 (snd (guarded env chat (length (outbox w)) (pdf_path_of doc)
                         (excel_path_of doc) (length (events w))
                         (set_logs (fun l => l ++ [LogJobStart chat (pdf_path_of doc)]) w1))))).
  { subst w2. now rewrite process_pdf_async_unfold. }
  set (w0 := set_logs _ w1) in Hw.
  set (wg := snd (guarded _ _ _ _ _ _ w0)) in Hw.
  destruct (cleanup_registry rm chat (pdf_path_of doc) (excel_path_of doc) wg)
    as (Cj & _ & _ & _ & Cs).
  destruct (cleanup_files rm chat (pdf_path_of doc) (excel_path_of doc) wg)
    as (Cp & Cx & _ & _).
  destruct (guarded_registry env chat (length (outbox w)) (pdf_path_of doc)
              (excel_path_of doc) (length (events w)) w0) as [Gj Gs].
  fold wg in Gj, Gs. rewrite <- Hw in Cj, Cs, Cp, Cx.
  assert (J2 : active_jobs w2 = active_jobs w).
  { rewrite Cj, Gj. cbn [active_jobs set_logs w0]. rewrite Hj.
    rewrite delete_insert_eq. apply delete_id. exact J. }
  assert (N2 : active_jobs w2 !! chat = None) by (now rewrite J2).
  split; [exact Hs|]. split; [exact J2|]. split; [exact Cp|].
  split; [exact Cx|]. split.
  - unfold stop, call, mbind, M_bind, log, modify, reply, gets.
    cbn. rewrite N2. reflexivity.
  - destruct (handle_pdf_accepted chat next w2 P' T' N2)
      as (_ & _ & _ & _ & _ & Hs2 & _).
    exact Hs2.
Qed.

Lemma job_leaves_no_trace_witness :
  let w1 := snd (handle_pdf false 7 report_pdf empty_world) in
  let w2 := snd (run_thread failing_notifier (fun _ => false)
                   (job_for 7 report_pdf empty_world) w1) in
  active_jobs w2 = ∅ /\ files w2 !! "/tmp/report.pdf" = None /\
  files w2 !! "/tmp/report.xlsx" = None.
Proof.
  cbn zeta.
  destruct (job_leaves_no_trace failing_notifier (fun _ => false) 7 report_pdf
              invoice_pdf empty_world eq_refl eq_refl eq_refl eq_refl eq_refl)
    as (_ & Hj & Hp & Hx & _).
  split; [exact Hj|]. split; [apply Hp; reflexivity|].
  apply Hx; reflexivity.
Defined.

(** A turn of the loop that finds the event set, as [/stop] left it. *)
Lemma guarded_cancelled_at_once env chat mid pdf excel ev pages w :
  quiet env ->
  files w !! pdf = Some (PdfFile pages) -> pages <> [] ->
  events w !! ev = Some true ->
  exists w',
    guarded env chat mid pdf excel ev w = (Returned, w') /\
    outbox w' =
      outbox w ++
      [(edit_message_text chat mid MsgProcessing, true);
       (edit_message_text chat mid
          (MsgCancelled 0 (length pages `min` MAX_PAGES)), true)] /\
    extracted w' = extracted w.
Proof.
  intros Q F N E. unfold guarded, try_except, edit.
  unfold mbind at 1, M_bind at 1. rewrite telegram_quiet by assumption.
  unfold mbind at 1, M_bind at 1. unfold convert.
  unfold mbind at 1, M_bind at 1, gets at 1. cbn [files set_outbox]. rewrite F.
  destruct (length pages =? 0) eqn:Z.
  { apply Nat.eqb_eq in Z. destruct pages; [contradiction | discriminate]. }
  cbn zeta. unfold mbind at 1, M_bind at 1.
  set (w0 := set_outbox _ w).
  set (w1 := snd ((if MAX_PAGES <? length pages
                   then log (LogTooManyPages (length pages) chat)
                   else mret tt) w0)).
  assert (E0 : (if MAX_PAGES <? length pages
                then log (LogTooManyPages (length pages) chat)
                else mret tt) w0 = (Val tt, w1) /\
               outbox w1 = outbox w0 /\ events w1 = events w /\
               extracted w1 = extracted w).
  { subst w1 w0. destruct (MAX_PAGES <? length pages); repeat split. }
  destruct E0 as (E0 & O1 & E1 & X1). rewrite E0.
  assert (T : exists n, length pages `min` MAX_PAGES = S n).
  { apply Nat.eqb_neq in Z. unfold MAX_PAGES.
    destruct (length pages `min` 3000) eqn:M; [lia | eauto]. }
  destruct T as [n T]. fold MAX_PAGES in T. rewrite T. cbn [seq for_each].
  destruct (iteration_cancelled env chat mid ev Q pages (S n)
              (1 `max` (S n / PROGRESS_STEPS)) Workbook 0 w1)
    as (w2 & R & _ & _ & _ & O2 & X2 & _).
  { rewrite E1. destruct (signalled_before env 0); [|now rewrite E].
    rewrite list_lookup_insert_eq; [reflexivity|].
    apply lookup_lt_Some in E. exact E. }
  rewrite (bind_returned _ _ _ _ R). cbn.
  exists w2. split; [reflexivity|]. split.
  - rewrite O2, O1. subst w0. cbn. now rewrite <- app_assoc.
  - now rewrite X2.
Qed.

(** X8.  [/stop] before the worker has begun.  An accepted upload of a
    document with pages, then [/stop], then the worker, nothing failing:
    the worker sees the event at its first check, extracts no page and
    ends with the cancellation text at page 0; the registry is what it was
    before the upload. *)
Theorem stop_before_the_first_page env rm chat doc pages w :
  quiet env ->
  is_pdf_name doc = true -> too_large doc = false ->
  content doc = PdfFile pages -> pages <> [] ->
  active_jobs w !! chat = None ->
  let w1 := snd (handle_pdf false chat doc w) in
  let w2 := snd (stop chat w1) in
  let w3 := snd (run_thread env rm (job_for chat doc w) w2) in
  let mid := length (outbox w) in
  processed w2 w3 = [] /\
  issued w2 w3 =
    [(edit_message_text chat mid MsgProcessing, true);
     (edit_message_text chat mid
        (MsgCancelled 0 (length pages `min` MAX_PAGES)), true)] /\
  final_state (issued w2 w3) = Some Cancelled /\
  active_jobs w3 = active_jobs w.
Proof.
  intros Q P T C N J w1 w2 w3 mid.
  destruct (handle_pdf_accepted chat doc w P T J)
    as (_ & Hj & He & _ & Hf & _).
  fold w1 in Hj, He, Hf.
  destruct (stop_cases chat w1) as [Sj Se]. fold w2 in Sj, Se.
  rewrite Hj, lookup_insert_eq in Se. cbn [cancel_event t_cancel_event job_for] in Se.
  assert (F2 : files w2 = files w1).
  { subst w2. unfold stop, call, mbind, M_bind, log, modify, reply, gets.
    cbn. rewrite Hj, lookup_insert_eq. reflexivity. }
  unfold run_thread in w3. cbn [t_chat_id t_status_message_id t_pdf_path
    t_excel_path t_cancel_event job_for] in w3. fold mid in w3.
  destruct (guarded_cancelled_at_once env chat mid (pdf_path_of doc)
              (excel_path_of doc) (length (events w)) pages
              (set_logs (fun l => l ++ [LogJobStart chat (pdf_path_of doc)]) w2) Q)
    as (wg & G & Go & Gx).
  { cbn [files set_logs]. rewrite F2, Hf, lookup_insert_eq. now f_equal. }
  { exact N. }
  { cbn [events set_logs]. rewrite Se, He.
    apply list_lookup_insert_eq. rewrite length_app. cbn. lia. }
  destruct (process_after_guarded env rm chat mid (pdf_path_of doc)
              (excel_path_of doc) (length (events w)) w2 _ _ G)
    as (P1 & P2 & _).
  fold w3 in P1, P2. cbn [outbox extracted set_logs] in Go, Gx.
  rewrite Go in P1. rewrite Gx in P2.
  rewrite (issued_app _ _ _ P1).
  assert (X : processed w2 w3 = []).
  { apply processed_app. now rewrite app_nil_r. }
  split; [exact X|]. split; [reflexivity|]. split; [reflexivity|].
  subst w3. rewrite process_pdf_async_unfold, G. cbn [snd].
  destruct (cleanup_registry rm chat (pdf_path_of doc) (excel_path_of doc) wg)
    as (Cj & _).
  rewrite Cj.
  pose proof (guarded_registry env chat mid (pdf_path_of doc) (excel_path_of doc)
                (length (events w))
                (set_logs (fun l => l ++ [LogJobStart chat (pdf_path_of doc)]) w2))
    as [Gj _].
  rewrite G in Gj. cbn [snd active_jobs set_logs] in Gj.
  rewrite Gj, Sj, Hj, delete_insert_eq. apply delete_id. exact J.
Qed.

Lemma stop_before_the_first_page_witness :
  let w1 := snd (handle_pdf false 7 scenario_pdf empty_world) in
  let w2 := snd (stop 7 w1) in
  let w3 := snd (run_thread never_signalled (fun _ => false)
                   (job_for 7 scenario_pdf empty_world) w2) in
  processed w2 w3 = [] /\
  final_state (issued w2 w3) = Some Cancelled.
Proof.
  cbn zeta.
  assert (Q : quiet never_signalled) by (intros op; reflexivity).
  destruct (stop_before_the_first_page never_signalled (fun _ => false) 7
              scenario_pdf _ empty_world Q eq_refl eq_refl eq_refl
              ltac:(discriminate) eq_refl)
    as (Hp & _ & Hf & _).
  split; [exact Hp | exact Hf].
Defined.

End Lifecycle.

(** ** Faults *)

Section Faults.

Import App.

(** X9.  A source that cannot be opened as a PDF (no file at the path, or a
    file that is no PDF): the processing text once delivered, the run
    extracts nothing and ends with the error text. *)
Theorem unreadable_source env rm chat mid pdf excel ev w :
  raises env (OpTelegram (edit_message_text chat mid MsgProcessing)) = false ->
  (forall pages, files w !! pdf <> Some (PdfFile pages)) ->
  let w' := snd (process_pdf_async env rm chat mid pdf excel ev w) in
  processed w w' = [] /\
  map fst (issued w w') =
    [edit_message_text chat mid MsgProcessing;
     edit_message_text chat mid MsgError] /\
  final_state (issued w w') = Some (Failed Unexpected).
Proof.
  intros R F w'.
  assert (G : exists b w1,
    guarded env chat mid pdf excel ev
      (set_logs (fun l => l ++ [LogJobStart chat pdf]) w) = (Val tt, w1) /\
    outbox w1 =
      outbox w ++ [(edit_message_text chat mid MsgProcessing, true);
                   (edit_message_text chat mid MsgError, b)] /\
    extracted w1 = extracted w).
  { unfold guarded, try_except, convert, on_error, edit.
    unfold mbind at 1, M_bind at 1, telegram at 1. rewrite R.
    unfold mbind at 1, M_bind at 1.
    unfold mbind at 1, M_bind at 1, gets at 1. cbn [files set_outbox set_logs].
    assert (C : match files w !! pdf with
                | Some (PdfFile _) => False
                | _ => True
                end).
    { destruct (files w !! pdf) as [[pages| | |]|] eqn:E; try exact I.
      eapply F. reflexivity. }
    destruct (files w !! pdf) as [[pages| | |]|]; try contradiction;
      unfold raise, mbind, M_bind, log, modify, telegram;
      destruct (raises env (OpTelegram (edit_message_text chat mid MsgError)));
      cbn; eexists _, _; (split; [reflexivity|]); cbn;
      rewrite <- app_assoc; split; reflexivity. }
  destruct G as (b & w1 & G & Go & Gx).
  destruct (process_after_guarded env rm chat mid pdf excel ev w _ _ G)
    as (P1 & P2 & _).
  fold w' in P1, P2. rewrite Go in P1. rewrite Gx in P2.
  rewrite (issued_app _ _ _ P1).
  split; [apply processed_app; now rewrite app_nil_r|].
  split; reflexivity.
Qed.

Lemma unreadable_source_witness :
  let w' := snd (process_pdf_async never_signalled (fun _ => false) 7 0
                   "/tmp/garbage.pdf" "/tmp/garbage.xlsx" 0 garbage_world) in
  final_state (issued garbage_world w') = Some (Failed Unexpected) /\
  processed garbage_world w' = [].
Proof.
  cbn zeta.
  assert (F : forall pages,
            files garbage_world !! "/tmp/garbage.pdf" <> Some (PdfFile pages)).
  { intros pages. unfold garbage_world. cbn [files set_files empty_world].
    rewrite lookup_insert_eq. discriminate. }
  destruct (unreadable_source never_signalled (fun _ => false) 7 0
              "/tmp/garbage.pdf" "/tmp/garbage.xlsx" 0 garbage_world eq_refl F)
    as (Hp & _ & Hf).
  split; [exact Hf | exact Hp].
Defined.

Lemma healed_table p : table_of (healed p) = table_of p.
Proof. destruct p; reflexivity. Qed.

Lemma sheet_after_healed pages : forall ws,
  sheet_after (map healed pages) ws = sheet_after pages ws.
Proof.
  induction pages as [|p pages IH]; intros ws; [reflexivity|].
  cbn [map]. rewrite !sheet_after_cons, healed_table. apply IH.
Qed.

(** The turn of the loop on a page whose extraction raises writes the
    error to the log. *)
Lemma iteration_logs_error env chat mid ev pages total step ws i w :
  quiet env ->
  pages !! i = Some ExtractRaises ->
  signalled_before env i = false ->
  default false (events w !! ev) = false ->
  LogExtractError (i + 1) chat ∈
    logs (snd (iteration env chat mid ev pages total step ws i w)).
Proof.
  intros Q P Hs E. unfold iteration, interleave, is_set. rewrite Hs.
  unfold mbind at 1, M_bind at 1. cbn [mret M_ret].
  unfold mbind at 1, M_bind at 1, gets at 1. rewrite E.
  unfold mbind at 1, M_bind at 1, get_page at 1. rewrite P.
  unfold mbind at 1, M_bind at 1, try_except at 1, extract_table at 1.
  unfold mbind at 1, M_bind at 1, log at 1, modify. cbn [mret M_ret rows_of].
  unfold mbind at 1, M_bind at 1. cbn [length seq combine for_each mret M_ret].
  unfold mbind, M_bind, edit, try_except.
  destruct (_ || _); [rewrite telegram_quiet by assumption|]; cbn;
    apply elem_of_app; right; apply list_elem_of_here.
Qed.

Lemma loop_logs_error env chat mid ev pages total step i :
  quiet env -> pages !! i = Some ExtractRaises ->
  forall n a ws w,
    a + n <= length pages ->
    (forall j, a <= j < a + n -> signalled_before env j = false) ->
    default false (events w !! ev) = false ->
    a <= i < a + n ->
    LogExtractError (i + 1) chat ∈
      logs (snd (for_each (iteration env chat mid ev pages total step) ws
                   (seq a n) w)).
Proof.
  intros Q P. induction n as [|n IH]; intros a ws w L Hs E I; [lia|].
  destruct (pages !! a) as [page|] eqn:Pa; [|apply lookup_ge_None in Pa; lia].
  destruct (iteration_quiet env chat mid ev Q pages total step ws a page w Pa)
    as (w1 & R1 & A1); [apply Hs; lia | exact E |].
  cbn [seq for_each]. rewrite (bind_val _ _ _ _ _ R1).
  destruct (decide (i = a)) as [->|Ne].
  - pose proof (iteration_logs_error env chat mid ev pages total step ws a w
                  Q P (Hs a ltac:(lia)) E) as M.
    rewrite R1 in M. cbn [snd] in M.
    destruct (loop_quiet env chat mid ev Q pages total step n (S a)
                (fold_left Openpyxl.append (table_of page) ws) w1)
      as (w2 & R2 & A2).
    + lia.
    + intros j Hj. apply Hs. lia.
    + destruct A1 as (_ & -> & _). exact E.
    + rewrite R2. cbn [snd].
      destruct A2 as (_ & _ & _ & _ & _ & _ & [l ->]).
      apply elem_of_app. left. exact M.
  - apply IH.
    + lia.
    + intros j Hj. apply Hs. lia.
    + destruct A1 as (_ & -> & _). exact E.
    + lia.
Qed.

Lemma deliver_logs env chat mid excel ws w :
  logs w `prefix_of` logs (snd (deliver env chat mid excel ws w)).
Proof.
  unfold deliver. destruct (sheet_is_blank ws).
  - unfold mbind, M_bind, edit, telegram.
    destruct (raises env _); cbn; reflexivity.
  - unfold mbind at 1, M_bind at 1, save at 1.
    destruct (raises env (OpSave excel)); [reflexivity|].
    unfold mbind at 1, M_bind at 1, edit, telegram at 1.
    destruct (raises env _); [reflexivity|].
    unfold mbind at 1, M_bind at 1, open_rb at 1.
    match goal with
    | |- context [files ?x !! excel] => destruct (files x !! excel)
    end; [|reflexivity].
    unfold mbind, M_bind, telegram, log, modify.
    destruct (raises env _); cbn;
      first [reflexivity | apply prefix_app_r; reflexivity].
Qed.

Lemma guarded_logs_error env chat mid pdf excel ev pages i w :
  quiet env ->
  files w !! pdf = Some (PdfFile pages) ->
  (forall j, j < length pages `min` MAX_PAGES -> signalled_before env j = false) ->
  default false (events w !! ev) = false ->
  i < length pages `min` MAX_PAGES ->
  pages !! i = Some ExtractRaises ->
  LogExtractError (i + 1) chat ∈
    logs (snd (guarded env chat mid pdf excel ev w)).
Proof.
  intros Q F Hs E I P. unfold guarded, try_except, edit.
  unfold mbind at 1, M_bind at 1. rewrite telegram_quiet by assumption.
  unfold mbind at 1, M_bind at 1. unfold convert.
  unfold mbind at 1, M_bind at 1, gets at 1. cbn [files set_outbox]. rewrite F.
  destruct (length pages =? 0) eqn:Z.
  { apply Nat.eqb_eq in Z. lia. }
  cbn zeta. unfold mbind at 1, M_bind at 1.
  set (w0 := set_outbox _ w).
  set (w1 := snd ((if MAX_PAGES <? length pages
                   then log (LogTooManyPages (length pages) chat)
                   else mret tt) w0)).
  assert (E0 : (if MAX_PAGES <? length pages
                then log (LogTooManyPages (length pages) chat)
                else mret tt) w0 = (Val tt, w1) /\ events w1 = events w).
  { subst w1 w0. destruct (MAX_PAGES <? length pages); repeat split. }
  destruct E0 as (E0 & E1). rewrite E0.
  pose proof (loop_logs_error env chat mid ev pages
                (length pages `min` MAX_PAGES)
                (1 `max` (length pages `min` MAX_PAGES / PROGRESS_STEPS)) i Q P
                (length pages `min` MAX_PAGES) 0 Workbook w1) as M.
  destruct (loop_quiet env chat mid ev Q pages (length pages `min` MAX_PAGES)
              (1 `max` (length pages `min` MAX_PAGES / PROGRESS_STEPS))
              (length pages `min` MAX_PAGES) 0 Workbook w1) as (w2 & R & _).
  { cbn. lia. }
  { intros j Hj. apply Hs. lia. }
  { now rewrite E1. }
  rewrite R in M |- *. cbn [snd] in M.
  assert (M2 : LogExtractError (i + 1) chat ∈ logs w2).
  { apply M; [cbn; lia | intros j Hj; apply Hs; lia | now rewrite E1 | lia]. }
  pose proof (deliver_logs env chat mid excel
                (sheet_after (take (length pages `min` MAX_PAGES) (drop 0 pages))
                   Workbook) w2) as [l D].
  destruct (deliver env chat mid excel _ w2) as [[[]| |] w3] eqn:Dv;
    cbn [snd] in D |- *.
  - rewrite D. apply elem_of_app. left. exact M2.
  - rewrite D. apply elem_of_app. left. exact M2.
  - unfold on_error, try_except, mbind, M_bind, edit, telegram, log, modify.
    destruct (raises env _); cbn; rewrite D, <- !app_assoc;
      apply elem_of_app; left; exact M2.
Qed.

(** X10.  An error of [extract_table] on a page stays on that page.  In a run
    without other faults and without cancellation the error is written to
    the log, and the run issues the calls and extracts the pages it would
    if the page had no table: the other pages are converted and the
    outcome is theirs. *)
Theorem extraction_error_is_local env rm chat mid pdf excel ev w pages :
  quiet env ->
  files w !! pdf = Some (PdfFile pages) ->
  pages <> [] ->
  (forall i, i < length pages `min` MAX_PAGES -> signalled_before env i = false) ->
  default false (events w !! ev) = false ->
  let w' := snd (process_pdf_async env rm chat mid pdf excel ev w) in
  let wh := set_files (fun fs => <[pdf := PdfFile (map healed pages)]> fs) w in
  let wh' := snd (process_pdf_async env rm chat mid pdf excel ev wh) in
  issued w w' = issued wh wh' /\
  processed w w' = processed wh wh' /\
  processed w w' = map (pair chat) (seq 0 (length pages `min` MAX_PAGES)) /\
  (forall i, i < length pages `min` MAX_PAGES ->
     pages !! i = Some ExtractRaises ->
     LogExtractError (i + 1) chat ∈ logs w').
Proof.
  intros Q F N Hs E w' wh wh'.
  destruct (quiet_run env rm chat mid pdf excel ev w pages Q F N Hs E)
    as (Hp & Hi & _ & _).
  fold w' in Hp, Hi.
  assert (Fh : files wh !! pdf = Some (PdfFile (map healed pages)))
    by (apply lookup_insert_eq).
  assert (Nh : map healed pages <> [])
    by (destruct pages; [contradiction | discriminate]).
  destruct (quiet_run env rm chat mid pdf excel ev wh (map healed pages) Q Fh Nh)
    as (Hp' & Hi' & _ & _).
  { rewrite length_map. exact Hs. }
  { exact E. }
  fold wh' in Hp', Hi'. rewrite length_map in Hp', Hi'.
  change (map healed pages) with (healed <$> pages) in Hi'.
  rewrite <- fmap_take in Hi'.
  change (healed <$> take (length pages `min` MAX_PAGES) pages)
    with (map healed (take (length pages `min` MAX_PAGES) pages)) in Hi'.
  rewrite sheet_after_healed in Hi'.
  split; [now rewrite Hi, Hi'|]. split; [now rewrite Hp, Hp'|].
  split; [exact Hp|].
  intros i I P.
  pose proof (guarded_logs_error env chat mid pdf excel ev pages i
                (set_logs (fun l => l ++ [LogJobStart chat pdf]) w) Q F Hs E I P)
    as M.
  destruct (guarded env chat mid pdf excel ev
              (set_logs (fun l => l ++ [LogJobStart chat pdf]) w))
    as [r w1] eqn:G.
  destruct (process_after_guarded env rm chat mid pdf excel ev w _ _ G)
    as (_ & _ & _ & _ & _ & [l L]).
  fold w' in L. rewrite L. apply elem_of_app. left. exact M.
Qed.

Lemma extraction_error_is_local_witness :
  let w' := snd (process_pdf_async never_signalled (fun _ => false) 7 0
                   "/tmp/torn.pdf" "/tmp/torn.xlsx" 0 torn_world) in
  map snd (processed torn_world w') = [0; 1; 2] /\
  LogExtractError 2 7 ∈ logs w'.
Proof.
  cbn zeta.
  assert (Q : quiet never_signalled) by (intros op; reflexivity).
  destruct (extraction_error_is_local never_signalled (fun _ => false) 7 0
              "/tmp/torn.pdf" "/tmp/torn.xlsx" 0 torn_world
              [with_rows; ExtractRaises; with_rows] Q
              (lookup_insert_eq _ _ _) ltac:(discriminate)
              (fun _ _ => eq_refl) eq_refl)
    as (_ & _ & Hp & Hl).
  split; [rewrite Hp; reflexivity|].
  apply (Hl 1); [cbn; lia | reflexivity].
Defined.

End Faults.

(** ** The numbers the notifications show *)

Section Bounds.

Import App.

#[export] Instance issues_preorder P : PreOrder (issues P).
Proof.
  split.
  - intros w. exists []. split; [now rewrite app_nil_r | constructor].
  - intros w1 w2 w3 (l1 & O1 & F1) (l2 & O2 & F2).
    exists (l1 ++ l2). split; [now rewrite O2, O1, app_assoc|].
    apply Forall_app. split; assumption.
Qed.

Lemma preserves_for_each_in {A S} (R : World -> World -> Prop) `{!PreOrder R}
    (f : S -> A -> M S) (l : list A) :
  (forall s x, x ∈ l -> preserves R (f s x)) ->
  forall s, preserves R (for_each f s l).
Proof.
  induction l as [|x l IH]; intros Hf s; cbn [for_each].
  - apply preserves_ret. tc_solve.
  - apply preserves_bind; [tc_solve | apply Hf, list_elem_of_here |].
    intros s'. apply IH. intros s0 y Hy. apply Hf. now apply list_elem_of_further.
Qed.

Variable env : Env.
Variable P : TgCall -> Prop.

Lemma telegram_issues c : P c -> preserves (issues P) (telegram env c).
Proof.
  intros H w. unfold telegram.
  destruct (raises env _); cbn; eexists [_]; (split; [reflexivity|]);
    repeat constructor; exact H.
Qed.

Lemma silent_issues {A} (m : M A) :
  (forall w, outbox (snd (m w)) = outbox w) -> preserves (issues P) m.
Proof.
  intros H w. exists []. split; [now rewrite H, app_nil_r | constructor].
Qed.

End Bounds.

Ltac silent_prim :=
  intros; apply silent_issues;
  let w := fresh "w" in
  intros w;
  unfold App.is_set, App.interleave, App.path_exists, log;
  unfold App.get_page, App.extract_table, App.append_row, App.save,
    App.open_rb, App.remove, modify, gets, raise, return_, mret, M_ret;
  repeat match goal with
         | |- context [if ?b then _ else _] => destruct b
         | |- context [match ?x with _ => _ end] => destruct x
         end;
  reflexivity.

Section WorkerBounds.

Import App.

Variable env : Env.
Variables (chat : Z) (mid : nat) (pdf excel : string) (ev : nat).

Lemma percent_at_most_100 page_num total :
  page_num <= total -> percent_of page_num total <= 100.
Proof.
  intros H. unfold percent_of. destruct total as [|t]; [cbn; lia|].
  apply Nat.Div0.div_le_upper_bound. lia.
Qed.

Lemma iteration_within_bounds pages total step ws i :
  i < total -> total <= MAX_PAGES ->
  preserves (issues within_bounds)
    (iteration env chat mid ev pages total step ws i).
Proof.
  intros I T. unfold iteration, edit.
  frame_structure;
    try (apply telegram_issues; cbn; repeat split; try lia;
         apply percent_at_most_100; lia);
    try silent_prim.
Qed.

Lemma convert_within_bounds ws :
  preserves (issues within_bounds) (convert env chat mid pdf ev ws).
Proof.
  unfold convert. apply preserves_bind; [tc_solve | silent_prim | intros f].
  destruct f as [[pages| | |]|]; try (apply preserves_raise; tc_solve).
  destruct (length pages =? 0).
  - unfold edit. frame_structure. apply telegram_issues. exact I.
  - apply preserves_bind; [tc_solve | frame_structure; silent_prim | intros _].
    apply preserves_for_each_in; [tc_solve|]. intros s i Hi.
    apply elem_of_seq in Hi.
    apply iteration_within_bounds; lia.
Qed.

Lemma guarded_within_bounds :
  preserves (issues within_bounds) (guarded env chat mid pdf excel ev).
Proof.
  unfold guarded, on_error, deliver, edit.
  apply preserves_try_except; [tc_solve| |].
  - apply preserves_bind; [tc_solve | apply telegram_issues; exact I | intros _].
    apply preserves_bind; [tc_solve | apply convert_within_bounds | intros ws].
    frame_structure; try (apply telegram_issues; exact I); silent_prim.
  - frame_structure; try (apply telegram_issues; exact I); silent_prim.
Qed.

(** X11.  Whatever fails, the numbers a run shows are within bounds: every
    progress report counts a page from 1 to the pages of the run, which are
    at most [MAX_PAGES], and shows at most 100 percent; a cancellation text
    shows fewer pages processed than the run has. *)
Theorem notifications_within_bounds rm w :
  let w' := snd (process_pdf_async env rm chat mid pdf excel ev w) in
  Forall (fun cb => within_bounds (fst cb)) (issued w w').
Proof.
  cbn zeta. rewrite process_pdf_async_unfold. cbn [snd].
  set (w0 := set_logs _ w).
  destruct (guarded_within_bounds w0) as (l & O & F).
  destruct (cleanup_registry rm chat pdf excel
              (snd (guarded env chat mid pdf excel ev w0)))
    as (_ & _ & Ho & _).
  rewrite O in Ho. cbn [outbox set_logs w0] in Ho.
  rewrite (issued_app _ _ _ Ho). exact F.
Qed.

End WorkerBounds.

(** ** How often progress is reported *)

Section Throttle.

Import App.

Lemma div_succ n step :
  1 <= step ->
  S n / step = n / step + (if S n mod step =? 0 then 1 else 0).
Proof.
  intros H.
  pose proof (Nat.div_mod_eq n step) as D.
  pose proof (Nat.div_mod_eq (S n) step) as D'.
  pose proof (Nat.mod_upper_bound n step ltac:(lia)) as U.
  pose proof (Nat.mod_upper_bound (S n) step ltac:(lia)) as U'.
  destruct (S n mod step =? 0) eqn:E.
  - apply Nat.eqb_eq in E. nia.
  - apply Nat.eqb_neq in E. nia.
Qed.

(** The reports due up to page [n] of a run over [total] pages: one for
    each multiple of [step], and one more for the last page when it is no
    multiple. *)
Lemma reports_due_count total step n :
  1 <= step -> n <= total ->
  length (filter (fun i => report_due total step i = true) (seq 0 n)) <=
  n / step + (if (n =? total) && negb (n mod step =? 0) then 1 else 0).
Proof.
  intros H. induction n as [|n IH]; intros T; [cbn; lia|].
  rewrite seq_S, filter_app, length_app. cbn [Nat.add].
  specialize (IH ltac:(lia)).
  replace (n =? total) with false in IH by (symmetry; apply Nat.eqb_neq; lia).
  cbn [andb] in IH.
  rewrite (div_succ n step H).
  rewrite filter_cons, filter_nil.
  assert (D : report_due total step n = ((S n mod step =? 0) || (S n =? total))).
  { unfold report_due. now replace (n + 1) with (S n) by lia. }
  destruct (S n mod step =? 0) eqn:M; destruct (S n =? total) eqn:L;
    cbn [orb andb negb] in *;
    (rewrite decide_True by exact D) ||
    (rewrite decide_False by (rewrite D; discriminate));
    cbn [length]; lia.
Qed.

Lemma step_at_least_one total : 1 <= 1 `max` (total / PROGRESS_STEPS).
Proof. lia. Qed.

(** With the step of line 91 a run has at most 19 reports. *)
Lemma reports_at_most_19 total :
  length (filter (fun i => report_due total (1 `max` (total / PROGRESS_STEPS)) i = true)
            (seq 0 total)) <= 19.
Proof.
  pose proof (reports_due_count total _ total (step_at_least_one total) (le_n _)) as H.
  rewrite Nat.eqb_refl in H. cbn [andb] in H.
  unfold PROGRESS_STEPS in *.
  pose proof (Nat.div_mod_eq total 10) as D.
  pose proof (Nat.mod_upper_bound total 10 ltac:(lia)) as U.
  destruct (le_lt_dec 20 total) as [L|L].
  - set (q := total / 10) in *. assert (Q : 2 <= q) by lia.
    replace (1 `max` q) with q in * by lia.
    assert (total / q < 15) by (apply Nat.Div0.div_lt_upper_bound; lia).
    destruct (negb _); lia.
  - assert (Q : total / 10 <= 1).
    { assert (total / 10 < 2) by (apply Nat.Div0.div_lt_upper_bound; lia). lia. }
    replace (1 `max` (total / 10)) with 1 in * by lia.
    rewrite Nat.mod_1_r, Nat.div_1_r in H. cbn in H. lia.
Qed.

Lemma omap_fmap_some {A B C} (g : B -> option C) (h : A -> B) (f : A -> C) l :
  (forall i, g (h i) = Some (f i)) -> omap g (map h l) = map f l.
Proof.
  intros H. induction l as [|x l IH]; [reflexivity|].
  cbn [map omap list_omap]. rewrite H. cbn. f_equal. exact IH.
Qed.

Lemma last_report_due total step :
  1 <= total ->
  exists l, filter (fun i => report_due total step i = true) (seq 0 total) =
            l ++ [total - 1].
Proof.
  intros H. destruct total as [|t]; [lia|].
  replace (S t - 1) with t by lia.
  rewrite seq_S, filter_app. cbn [Nat.add]. eexists. f_equal.
  rewrite filter_cons, filter_nil, decide_True; [reflexivity|].
  unfold report_due. replace (t + 1) with (S t) by lia.
  rewrite Nat.eqb_refl. apply orb_true_r.
Qed.

Lemma percent_of_all total : 1 <= total -> percent_of total total = 100.
Proof.
  intros H. unfold percent_of. rewrite Nat.mul_comm.
  apply Nat.div_mul. lia.
Qed.

(** X12.  Progress is throttled.  In a run without faults and without
    cancellation over a document with pages, however many they are, the
    status message is edited with a progress text at most 19 times, and the
    last of these texts shows 100 percent and the last page of the run. *)
Theorem progress_is_throttled env rm chat mid pdf excel ev w pages :
  quiet env ->
  files w !! pdf = Some (PdfFile pages) ->
  pages <> [] ->
  (forall i, i < length pages `min` MAX_PAGES -> signalled_before env i = false) ->
  default false (events w !! ev) = false ->
  let w' := snd (process_pdf_async env rm chat mid pdf excel ev w) in
  let calls := map fst (issued w w') in
  length (omap percentage calls) <= 19 /\
  last (omap percentage calls) = Some 100 /\
  last (omap unit_count calls) = Some (length pages `min` MAX_PAGES).
Proof.
  intros Q F N Hs E w' calls.
  destruct (quiet_run env rm chat mid pdf excel ev w pages Q F N Hs E)
    as (_ & I & _).
  fold w' in I. subst calls. rewrite I. clear I.
  rewrite map_map. cbn [fst]. rewrite map_id.
  set (total := length pages `min` MAX_PAGES).
  assert (T : 1 <= total).
  { subst total. unfold MAX_PAGES. destruct pages; [contradiction | cbn; lia]. }
  set (step := 1 `max` (total / PROGRESS_STEPS)).
  set (ending := if sheet_is_blank _ then _ else _).
  assert (P0 : omap percentage ending = []) by (subst ending; now destruct (sheet_is_blank _)).
  assert (U0 : omap unit_count ending = []) by (subst ending; now destruct (sheet_is_blank _)).
  rewrite !omap_app, P0, U0, !app_nil_r. cbn [omap list_omap percentage unit_count app].
  unfold reports.
  rewrite (omap_fmap_some percentage _ (fun i => percent_of (i + 1) total))
    by reflexivity.
  rewrite (omap_fmap_some unit_count _ (fun i => i + 1)) by reflexivity.
  split; [rewrite length_map; apply reports_at_most_19|].
  destruct (last_report_due total step T) as [l L]. rewrite L.
  rewrite !map_app. cbn [map]. rewrite !last_snoc.
  replace (total - 1 + 1) with total by lia.
  now rewrite percent_of_all.
Qed.

Lemma progress_is_throttled_witness :
  let calls := map fst (issued scenario_world (scenario_run never_signalled)) in
  length (omap percentage calls) <= 19 /\
  last (omap percentage calls) = Some 100 /\
  last (omap unit_count calls) = Some 25.
Proof.
  cbn zeta.
  assert (Q : quiet never_signalled) by (intros op; reflexivity).
  exact (progress_is_throttled never_signalled (fun _ => false) 7 0
           "/tmp/scenario.pdf" "/tmp/scenario.xlsx" 0 scenario_world _
           Q eq_refl ltac:(discriminate) (fun _ _ => eq_refl) eq_refl).
Defined.

End Throttle.

(** ** The name of the output *)

Section OutputName.

Import App.

Lemma append_cons (c : ascii) (s t : string) :
  String c s +:+ t = String c (s +:+ t).
Proof. reflexivity. Qed.

Lemma append_empty (t : string) : "" +:+ t = t.
Proof. reflexivity. Qed.

(** [replace] drops at most what it was told to skip. *)
Lemma replace_from_length (s : string) :
  forall skip,
    String.length s - skip <=
    String.length (Py.replace_from ".pdf" ".xlsx" skip s).
Proof.
  induction s as [|c s IH]; intros skip; [cbn; lia|].
  cbn [Py.replace_from]. destruct skip as [|k].
  - destruct (String.prefix ".pdf" (String c s)).
    + rewrite !append_cons, append_empty. cbn [String.length].
      specialize (IH 3). cbn [String.length Nat.sub]. lia.
    + cbn [String.length]. specialize (IH 0). lia.
  - cbn [String.length]. specialize (IH k). lia.
Qed.

(** A name with an occurrence of [.pdf] grows. *)
Lemma replace_grows (s : string) :
  Py.contains s ".pdf" = true ->
  String.length s < String.length (Py.replace s ".pdf" ".xlsx").
Proof.
  unfold Py.replace. induction s as [|c s IH]; intros H; [discriminate|].
  cbn [Py.contains] in H. cbn [Py.replace_from].
  destruct (String.prefix ".pdf" (String c s)).
  - rewrite !append_cons, append_empty. cbn [String.length].
    pose proof (replace_from_length s 3). cbn [String.length Nat.sub] in *. lia.
  - cbn [orb] in H. cbn [String.length]. specialize (IH H). lia.
Qed.

Lemma prefix_before_suffix (s : string) :
  String.prefix ".pdf" s = false -> s <> "" ->
  String.prefix ".pdf" (s +:+ ".pdf") = false.
Proof.
  intros H N.
  destruct s as [|c1 [|c2 [|c3 [|c4 s]]]]; [contradiction|..];
    rewrite ?append_cons, ?append_empty; cbn [String.prefix] in *;
    repeat match goal with
           | |- context [ascii_dec ?a ?b] =>
               destruct (ascii_dec a b); try subst; try congruence
           | H : context [ascii_dec ?a ?b] |- _ =>
               destruct (ascii_dec a b); try subst; try congruence
           end.
  destruct s; discriminate.
Qed.

Lemma replace_stem (stem : string) :
  Py.contains stem ".pdf" = false ->
  Py.replace (stem +:+ ".pdf") ".pdf" ".xlsx" = stem +:+ ".xlsx".
Proof.
  unfold Py.replace. induction stem as [|c s IH]; intros H; [reflexivity|].
  cbn [Py.contains] in H. apply orb_false_iff in H as [Hp Hc].
  pose proof (prefix_before_suffix (String c s) Hp ltac:(discriminate)) as Hp'.
  rewrite !append_cons in *. cbn [Py.replace_from]. rewrite Hp'.
  f_equal. now apply IH.
Qed.

Lemma lower_app (s t : string) : Py.lower (s +:+ t) = Py.lower s +:+ Py.lower t.
Proof.
  induction s as [|c s IH]; [reflexivity|].
  rewrite append_cons. cbn [Py.lower]. rewrite append_cons. now f_equal.
Qed.

Lemma endswith_app (s suf : string) : Py.endswith (s +:+ suf) suf = true.
Proof.
  induction s as [|c s IH].
  - rewrite append_empty. destruct suf; cbn [Py.endswith];
      rewrite String.eqb_refl; reflexivity.
  - rewrite append_cons. cbn [Py.endswith]. rewrite IH. apply orb_true_r.
Qed.

(** X13.  The output path is the source path exactly for the names in which
    [.pdf] does not occur; for every other name the two differ, so that
    saving the spreadsheet leaves the source alone. *)
Theorem output_is_source_iff_no_suffix (document : Document) :
  excel_path_of document = pdf_path_of document <->
  Py.contains (file_name document) ".pdf" = false.
Proof.
  unfold excel_path_of, pdf_path_of. split.
  - intros E. destruct (Py.contains (file_name document) ".pdf") eqn:C;
      [exfalso | reflexivity].
    assert (C' : Py.contains ("/tmp/" +:+ file_name document) ".pdf" = true).
    { rewrite (contains_tmp _ ".pdf" "."%char "pdf"); auto; discriminate. }
    apply replace_grows in C'. rewrite E in C'. lia.
  - intros C. apply replace_absent.
    rewrite (contains_tmp _ ".pdf" "."%char "pdf"); auto; discriminate.
Qed.

(** X14.  An ordinary name.  A document called [stem.pdf], with no other [.pdf]
    in its name, passes the test of the name, and its spreadsheet goes to
    [/tmp/stem.xlsx]. *)
Theorem ordinary_name (stem : string) (size : option Z) (f : File) :
  Py.contains stem ".pdf" = false ->
  let document := {| file_name := stem +:+ ".pdf"; file_size := size; content := f |} in
  is_pdf_name document = true /\
  pdf_path_of document = "/tmp/" +:+ stem +:+ ".pdf" /\
  excel_path_of document = "/tmp/" +:+ stem +:+ ".xlsx".
Proof.
  intros C document. unfold is_pdf_name, excel_path_of, pdf_path_of.
  cbn [file_name document]. split; [|split].
  - rewrite lower_app. apply (endswith_app _ ".pdf").
  - reflexivity.
  - assert (A : forall t, "/tmp/" +:+ (stem +:+ t) = ("/tmp/" +:+ stem) +:+ t).
    { intros t. reflexivity. }
    rewrite A. rewrite replace_stem; [now rewrite <- A|].
    rewrite (contains_tmp _ ".pdf" "."%char "pdf"); auto; discriminate.
Qed.

Lemma ordinary_name_witness :
  excel_path_of {| file_name := "report.pdf"; file_size := None; content := OtherFile |} =
  "/tmp/report.xlsx".
Proof.
  exact (proj2 (proj2 (ordinary_name "report" None OtherFile eq_refl))).
Defined.

End OutputName.

(** ** The files of a job *)

#[export] Instance same_files_but_preorder path : PreOrder (same_files_but path).
Proof.
  split.
  - intros w p _. reflexivity.
  - intros w1 w2 w3 H1 H2 p Hp. rewrite (H2 p Hp). exact (H1 p Hp).
Qed.

Ltac files_prim :=
  let w := fresh "w" in
  intros; unfold preserves; intros w;
  unfold App.edit, App.is_set, App.interleave, App.path_exists, log;
  unfold App.get_page, App.extract_table, App.append_row, App.telegram,
    App.save, App.open_rb, App.remove, modify, gets, raise, return_, mret, M_ret;
  repeat match goal with
         | |- context [if ?b then _ else _] => destruct b
         | |- context [match ?x with _ => _ end] => destruct x
         end;
  intros ? ?; cbn; try reflexivity;
  apply lookup_insert_ne; congruence.

Section Files.

Import App.

Variable env : Env.
Variable rm : string -> bool.
Variables (chat : Z) (mid : nat) (pdf excel : string) (ev : nat).

Lemma convert_files ws :
  preserves (same_files_but excel) (convert env chat mid pdf ev ws).
Proof.
  unfold convert. apply preserves_bind; [tc_solve | files_prim | intros f].
  destruct f as [[pages| | |]|]; try (apply preserves_raise; tc_solve);
    unfold iteration; frame_structure; files_prim.
Qed.

Lemma guarded_files :
  preserves (same_files_but excel) (guarded env chat mid pdf excel ev).
Proof.
  unfold guarded, deliver, on_error.
  apply preserves_try_except; [tc_solve| |].
  - apply preserves_bind; [tc_solve | files_prim | intros _].
    apply preserves_bind; [tc_solve | apply convert_files | intros ws].
    frame_structure; files_prim.
  - frame_structure; files_prim.
Qed.

(** X15.  The worker writes one path and removes two.  Whatever fails, a file
    that is neither the source nor the output of the job is after the run
    what it was before. *)
Theorem worker_keeps_to_its_files w p :
  p <> pdf -> p <> excel ->
  let w' := snd (process_pdf_async env rm chat mid pdf excel ev w) in
  files w' !! p = files w !! p.
Proof.
  intros Hp Hx. cbn zeta. rewrite process_pdf_async_unfold. cbn [snd].
  set (w0 := set_logs _ w).
  destruct (cleanup_files rm chat pdf excel
              (snd (guarded env chat mid pdf excel ev w0)))
    as (_ & _ & C & _).
  rewrite (C p Hp Hx). now rewrite (guarded_files w0 p Hx).
Qed.

(** X16.  The two removals of the [finally] block share one [try].  When the
    removal of the source raises, the output is not removed either: the
    block removes nothing, and says so in the log. *)
Theorem failed_removal_skips_the_output w :
  rm pdf = true -> is_Some (files w !! pdf) ->
  let w' := snd (cleanup rm chat pdf excel w) in
  files w' = files w /\
  active_jobs w' = delete chat (active_jobs w) /\
  logs w' = logs w ++ [LogDeleteFailed].
Proof.
  intros R S. cbn zeta.
  unfold cleanup, try_except, path_exists, remove, log, modify, gets, mbind,
    M_bind, mret, M_ret. cbn.
  rewrite bool_decide_eq_true_2 by exact S. rewrite R. cbn. repeat split.
Qed.

End Files.

Lemma worker_keeps_to_its_files_witness :
  let w := set_files (fun fs => <["/tmp/other.pdf" := OtherFile]> fs) scenario_world in
  files (snd (App.process_pdf_async failing_notifier (fun _ => true) 7 0
                "/tmp/scenario.pdf" "/tmp/scenario.xlsx" 0 w))
    !! "/tmp/other.pdf" = Some OtherFile.
Proof.
  cbn zeta.
  rewrite (worker_keeps_to_its_files failing_notifier (fun _ => true) 7 0
             "/tmp/scenario.pdf" "/tmp/scenario.xlsx" 0 _ "/tmp/other.pdf")
    by discriminate.
  reflexivity.
Defined.

Lemma failed_removal_skips_the_output_witness :
  files (snd (App.cleanup (fun _ => true) 7 "/tmp/scenario.pdf"
                "/tmp/scenario.xlsx" scenario_world)) =
  files scenario_world.
Proof.
  exact (proj1 (failed_removal_skips_the_output (fun _ => true) 7
                  "/tmp/scenario.pdf" "/tmp/scenario.xlsx" scenario_world
                  eq_refl (mk_is_Some _ _ eq_refl))).
Defined.

(** ** Instances of three lemmas above

    X17 is [start_rejected_while_running], X18 [outcome_by_rows] and X19
    [bot_outcome]; here each is applied to a concrete run. *)

Lemma start_rejected_while_running_witness :
  outbox (snd (App.handle_pdf false 7 invoice_pdf registered_job)) =
  outbox registered_job ++ [(reply_text 7 MsgAlreadyRunning, true)].
Proof.
  destruct (start_rejected_while_running false 7 invoice_pdf _ registered_job
              eq_refl eq_refl eq_refl)
    as (_ & _ & _ & _ & _ & Ho).
  exact Ho.
Defined.

Lemma outcome_by_rows_witness :
  final_state (issued blank_row_world
                 (snd (App.process_pdf_async never_signalled (fun _ => false) 7 0
                         "/tmp/blank.pdf" "/tmp/blank.xlsx" 0 blank_row_world))) =
  Some (Failed NoTableDetected).
Proof.
  assert (Q : quiet never_signalled) by (intros op; reflexivity).
  apply (proj1 (outcome_by_rows never_signalled (fun _ => false) 7 0
                  "/tmp/blank.pdf" "/tmp/blank.xlsx" 0 blank_row_world _
                  Q eq_refl ltac:(discriminate) (fun _ _ => eq_refl) eq_refl)).
  cbn. split; repeat constructor.
Defined.


(** ** The handler of [Bot.py] *)

Section PollingBot.

(** X20.  A name that does not end in [.pdf]: the reply of line 16, and nothing
    is downloaded. *)
Theorem bot_refuses_other_names chat doc w :
  Py.endswith (Py.lower (file_name doc)) ".pdf" = false ->
  BotPy.handle_document chat doc w =
    (Val tt, set_outbox (fun l => l ++ [(reply_text chat MsgBotPleaseSend, true)]) w).
Proof.
  intros P. unfold BotPy.handle_document, call.
  unfold mbind at 1, M_bind at 1. rewrite P. reflexivity.
Qed.

Lemma bot_refuses_other_names_witness :
  files (snd (BotPy.handle_document 7
                {| file_name := "notes.txt"; file_size := None; content := OtherFile |}
                empty_world)) = ∅.
Proof.
  rewrite (bot_refuses_other_names 7
             {| file_name := "notes.txt"; file_size := None; content := OtherFile |}
             empty_world eq_refl).
  reflexivity.
Defined.

(** The loop on pages of which one cannot be extracted: the exception
    leaves the loop. *)
Lemma bot_collect_raises chat pages : forall a acc w,
  Exists (fun p => p = ExtractRaises) pages ->
  exists w',
    for_each (BotPy.collect chat) acc (combine (seq a (length pages)) pages) w =
      (Raised, w') /\
    outbox w' = outbox w /\ files w' = files w.
Proof.
  induction pages as [|p pages IH]; intros a acc w H; [inversion H|].
  cbn [length seq combine for_each].
  unfold mbind, M_bind, BotPy.collect at 1. cbn [fst snd].
  destruct p as [|t].
  - eexists. split; [reflexivity|]. split; reflexivity.
  - assert (Hr : Exists (fun p => p = ExtractRaises) pages).
    { inversion H as [? ? E|]; [discriminate | assumption]. }
    destruct t as [rows|].
    + destruct (IH (S a) (acc ++ rows)
                  (set_extracted (fun l => l ++ [(chat, a)]) w) Hr)
        as (w' & R & O & Fi).
      exists w'. rewrite R. repeat split; auto.
    + destruct (IH (S a) acc
                  (set_extracted (fun l => l ++ [(chat, a)]) w) Hr)
        as (w' & R & O & Fi).
      exists w'. rewrite R. repeat split; auto.
Qed.



(** X22.  An extraction that raises ends the handler of [Bot.py]: nothing
    catches the exception, the client has the first reply and hears
    nothing more, no spreadsheet is written, and the download stays. *)
Theorem bot_extraction_error_aborts chat doc pages w :
  Py.endswith (Py.lower (file_name doc)) ".pdf" = true ->
  content doc = PdfFile pages ->
  Exists (fun p => p = ExtractRaises) pages ->
  let run := BotPy.handle_document chat doc w in
  fst run = Raised /\
  issued w (snd run) = [(reply_text chat MsgBotGotIt, true)] /\
  files (snd run) = <[BotPy.pdf_path_of doc := content doc]> (files w).
Proof.
  intros P C H run.
  assert (R : exists w1,
              BotPy.handle_document chat doc w = (Raised, w1) /\
              outbox w1 = outbox w ++ [(reply_text chat MsgBotGotIt, true)] /\
              files w1 = <[BotPy.pdf_path_of doc := content doc]> (files w)).
  { subst run. unfold BotPy.handle_document, call.
    unfold mbind at 1, M_bind at 1. rewrite P. cbn [negb mret M_ret].
    unfold mbind at 1, M_bind at 1, reply at 1.
    unfold mbind at 1, M_bind at 1, modify at 1.
    unfold mbind at 1, M_bind at 1, gets at 1. cbn [files set_files set_outbox].
    rewrite lookup_insert_eq, C.
    unfold mbind at 1, M_bind at 1.
    destruct (bot_collect_raises chat pages 0 []
                (set_files (fun fs => <[BotPy.pdf_path_of doc := PdfFile pages]> fs)
                   (set_outbox (fun l => l ++ [(reply_text chat MsgBotGotIt, true)]) w)) H)
      as (w' & R & O & Fi).
    rewrite R. cbn [outbox files set_files set_outbox] in O, Fi.
    eexists. split; [reflexivity|]. auto. }
  destruct R as (w1 & E & R2 & R3). subst run. rewrite E. cbn [fst snd].
  split; [reflexivity|]. split; [now apply issued_app | exact R3].
Qed.

Lemma bot_extraction_error_aborts_witness :
  let doc := {| file_name := "torn.pdf"; file_size := None;
                content := PdfFile [with_rows; ExtractRaises; with_rows] |} in
  fst (BotPy.handle_document 7 doc empty_world) = Raised.
Proof.
  cbn zeta.
  refine (proj1 (bot_extraction_error_aborts 7
                   {| file_name := "torn.pdf"; file_size := None;
                      content := PdfFile [with_rows; ExtractRaises; with_rows] |}
                   _ empty_world eq_refl eq_refl _)).
  apply Exists_cons_tl, Exists_cons_hd. reflexivity.
Defined.

End PollingBot.

(** ** Progress reports that fail *)

Section Simulation.

Lemma sim_ret {A} (a : A) : simulates (mret a) (mret a).
Proof. intros w1 w2 H. split; [reflexivity | exact H]. Qed.

Lemma sim_return {A} : simulates (@return_ A) (@return_ A).
Proof. intros w1 w2 H. split; [reflexivity | exact H]. Qed.

Lemma sim_raise {A} : simulates (@raise A) (@raise A).
Proof. intros w1 w2 H. split; [reflexivity | exact H]. Qed.

Lemma sim_bind {A B} (m1 m2 : M A) (f1 f2 : A -> M B) :
  simulates m1 m2 -> (forall a, simulates (f1 a) (f2 a)) ->
  simulates (m1 ≫= f1) (m2 ≫= f2).
Proof.
  intros Hm Hf w1 w2 H. unfold mbind, M_bind.
  destruct (Hm w1 w2 H) as [E H'].
  destruct (m1 w1) as [r1 w1'], (m2 w2) as [r2 w2']. cbn in E, H'. subst r2.
  destruct r1 as [a| |]; [apply Hf; exact H' | split; auto..].
Qed.

Lemma sim_try_except {A} (b1 b2 h1 h2 : M A) :
  simulates b1 b2 -> simulates h1 h2 ->
  simulates (try_except b1 h1) (try_except b2 h2).
Proof.
  intros Hb Hh w1 w2 H. unfold try_except.
  destruct (Hb w1 w2 H) as [E H'].
  destruct (b1 w1) as [r1 w1'], (b2 w2) as [r2 w2']. cbn in E, H'. subst r2.
  destruct r1 as [a| |]; [split; auto.. | apply Hh; exact H'].
Qed.

Lemma sim_for_each {A S} (f1 f2 : S -> A -> M S) (l : list A) :
  (forall s x, simulates (f1 s x) (f2 s x)) ->
  forall s, simulates (for_each f1 s l) (for_each f2 s l).
Proof.
  intros Hf. induction l as [|x l IH]; intros s; cbn [for_each].
  - apply sim_ret.
  - apply sim_bind; auto.
Qed.

Lemma sim_gets {A} (f : World -> A) :
  (forall w1 w2, same_but_delivery w1 w2 -> f w1 = f w2) ->
  simulates (gets f) (gets f).
Proof. intros Hf w1 w2 H. cbn. split; [f_equal; auto | exact H]. Qed.

Lemma sim_modify (f : World -> World) :
  (forall w1 w2, same_but_delivery w1 w2 -> same_but_delivery (f w1) (f w2)) ->
  simulates (modify f) (modify f).
Proof. intros Hf w1 w2 H. cbn. split; [reflexivity | auto]. Qed.

Lemma sim_log r : simulates (log r) (log r).
Proof. apply sim_modify. intros w1 w2 H. exact H. Qed.

End Simulation.

Section ProgressFailures.

Import App.

Variable env : Env.
Hypothesis only : only_progress_fails env.

Variable rm : string -> bool.
Variables (chat : Z) (mid : nat) (pdf excel : string) (ev : nat).

Lemma sim_telegram c :
  (forall ch m a b d, c <> edit_message_text ch m (MsgProgress a b d)) ->
  simulates (telegram env c) (telegram (without_faults env) c).
Proof.
  intros N w1 w2 (J & E & F & O & X & T). unfold telegram. cbn [raises without_faults].
  destruct (raises env (OpTelegram c)) eqn:R.
  { apply only in R as (ch & m & a & b & d & R). inversion R. now apply N in H0. }
  cbn. split; [reflexivity|]. repeat split; cbn; auto.
  rewrite !map_app. cbn. now rewrite O.
Qed.

(** The edit of line 130 inside its [try]: delivered or not, the loop goes
    on in the same way. *)
Lemma sim_progress c r :
  simulates (try_except (telegram env c) (log r))
            (try_except (telegram (without_faults env) c) (log r)).
Proof.
  intros w1 w2 (J & E & F & O & X & T). unfold try_except, telegram.
  cbn [raises without_faults].
  destruct (raises env (OpTelegram c)); cbn; (split; [reflexivity|]);
    repeat split; cbn; auto; rewrite !map_app; cbn; now rewrite O.
Qed.

Lemma sim_interleave i :
  simulates (interleave env ev i) (interleave (without_faults env) ev i).
Proof.
  unfold interleave. cbn [signalled_before without_faults].
  destruct (signalled_before env i); [|apply sim_ret].
  apply sim_modify. intros w1 w2 (J & E & F & O & X & T).
  repeat split; cbn; auto. now rewrite E.
Qed.

Lemma sim_is_set : simulates (is_set ev) (is_set ev).
Proof.
  apply sim_gets. intros w1 w2 (J & E & F & O & X & T). now rewrite E.
Qed.

Lemma sim_get_page pages i : simulates (get_page pages i) (get_page pages i).
Proof.
  intros w1 w2 H. unfold get_page. destruct (pages !! i); cbn; auto.
Qed.

Lemma sim_extract_table i page :
  simulates (extract_table chat i page) (extract_table chat i page).
Proof.
  intros w1 w2 (J & E & F & O & X & T). unfold extract_table.
  destruct page; cbn; (split; [reflexivity|]); repeat split; cbn; auto;
    now rewrite X.
Qed.

Lemma sim_append_row page_num ws jr :
  simulates (append_row env page_num ws jr)
            (append_row (without_faults env) page_num ws jr).
Proof.
  unfold append_row. cbn [raises without_faults].
  destruct (raises env (OpAppend page_num jr.1)) eqn:R; [|apply sim_ret].
  apply only in R as (ch & m & a & b & d & R). discriminate.
Qed.

Lemma sim_save path ws :
  simulates (save env path ws) (save (without_faults env) path ws).
Proof.
  intros w1 w2 (J & E & F & O & X & T). unfold save. cbn [raises without_faults].
  destruct (raises env (OpSave path)) eqn:R.
  { apply only in R as (ch & m & a & b & d & R). discriminate. }
  cbn. split; [reflexivity|]. repeat split; cbn; auto. now rewrite F.
Qed.

Lemma sim_open_rb path : simulates (open_rb path) (open_rb path).
Proof.
  intros w1 w2 (J & E & F & O & X & T). unfold open_rb. rewrite F.
  destruct (files w2 !! path); cbn; repeat split; auto.
Qed.

Lemma sim_path_exists path : simulates (path_exists path) (path_exists path).
Proof.
  apply sim_gets. intros w1 w2 (J & E & F & O & X & T). now rewrite F.
Qed.

Lemma sim_remove path : simulates (remove rm path) (remove rm path).
Proof.
  intros w1 w2 (J & E & F & O & X & T). unfold remove.
  destruct (rm path); cbn; (split; [reflexivity|]); repeat split; cbn; auto.
  now rewrite F.
Qed.

End ProgressFailures.

Ltac sim_rule only :=
  lazymatch goal with
  | |- simulates (mbind _ _) (mbind _ _) => apply sim_bind
  | |- simulates (try_except (App.telegram _ _) (log _)) _ =>
      apply (sim_progress _)
  | |- simulates (try_except _ _) _ => apply sim_try_except
  | |- simulates (for_each _ _ _) _ => apply sim_for_each
  | |- simulates (mret _) _ => apply sim_ret
  | |- simulates return_ _ => apply sim_return
  | |- simulates raise _ => apply sim_raise
  | |- simulates (if ?b then _ else _) (if ?b then _ else _) => destruct b
  | |- simulates (log _) _ => apply sim_log
  | |- simulates (App.telegram _ _) _ =>
      apply (sim_telegram _ only); intros; discriminate
  | |- simulates (App.interleave _ _ _) _ => apply sim_interleave
  | |- simulates (App.is_set _) _ => apply sim_is_set
  | |- simulates (App.get_page _ _) _ => apply sim_get_page
  | |- simulates (App.extract_table _ _ _) _ => apply sim_extract_table
  | |- simulates (App.append_row _ _ _ _) _ => apply (sim_append_row _ only)
  | |- simulates (App.save _ _ _) _ => apply (sim_save _ only)
  | |- simulates (App.open_rb _) _ => apply sim_open_rb
  | |- simulates (App.path_exists _) _ => apply sim_path_exists
  | |- simulates (App.remove _ _) _ => apply sim_remove
  end.

Ltac sim_structure only := repeat (intros; sim_rule only).

Section ProgressFailuresRun.

Import App.

Variable env : Env.
Hypothesis only : only_progress_fails env.

Variable rm : string -> bool.
Variables (chat : Z) (mid : nat) (pdf excel : string) (ev : nat).

Lemma sim_convert ws :
  simulates (convert env chat mid pdf ev ws)
            (convert (without_faults env) chat mid pdf ev ws).
Proof.
  unfold convert. apply sim_bind.
  { apply sim_gets. intros w1 w2 (J & E & F & O & X & T). now rewrite F. }
  intros f. destruct f as [[pages| | |]|]; try apply sim_raise.
  unfold iteration, edit. sim_structure only.
Qed.

Lemma sim_guarded :
  simulates (guarded env chat mid pdf excel ev)
            (guarded (without_faults env) chat mid pdf excel ev).
Proof.
  unfold guarded, deliver, on_error, edit.
  apply sim_try_except.
  - apply sim_bind; [sim_rule only | intros _].
    apply sim_bind; [apply sim_convert | intros ws].
    sim_structure only.
  - sim_structure only.
Qed.

Lemma sim_cleanup :
  simulates (cleanup rm chat pdf excel) (cleanup rm chat pdf excel).
Proof.
  unfold cleanup. apply sim_bind.
  { apply sim_modify. intros w1 w2 (J & E & F & O & X & T).
    repeat split; cbn; auto. now rewrite J. }
  sim_structure only.
Qed.

Lemma final_state_calls l1 l2 :
  map fst l1 = map fst l2 -> final_state l1 = final_state l2.
Proof.
  intros H. unfold final_state.
  assert (L : fst <$> last l1 = fst <$> last l2).
  { rewrite <- !fmap_last. change (last (map fst l1) = last (map fst l2)).
    now rewrite H. }
  destruct (last l1) as [[c1 b1]|], (last l2) as [[c2 b2]|]; cbn in L;
    congruence.
Qed.

(** X23.  Progress reports that fail change nothing else.  When the only
    operations that raise are edits that report progress, a run issues
    the calls, extracts the pages and leaves the files and the registry of
    the run in which nothing raises, and ends in the same state: a failure
    of line 130 is logged and passed over. *)
Theorem failed_progress_reports_are_passed_over w :
  let w1 := snd (process_pdf_async env rm chat mid pdf excel ev w) in
  let w2 := snd (process_pdf_async (without_faults env) rm chat mid pdf excel ev w) in
  map fst (issued w w1) = map fst (issued w w2) /\
  processed w w1 = processed w w2 /\
  final_state (issued w w1) = final_state (issued w w2) /\
  files w1 = files w2 /\
  active_jobs w1 = active_jobs w2.
Proof.
  cbn zeta. rewrite !process_pdf_async_unfold. cbn [snd].
  set (w0 := set_logs _ w).
  assert (H0 : same_but_delivery w0 w0) by (repeat split).
  destruct (sim_guarded w0 w0 H0) as [_ Hg].
  destruct (sim_cleanup _ _ Hg) as [_ (J & E & F & O & X & T)].
  assert (I : map fst (issued w
                (snd (cleanup rm chat pdf excel
                        (snd (guarded env chat mid pdf excel ev w0))))) =
              map fst (issued w
                (snd (cleanup rm chat pdf excel
                        (snd (guarded (without_faults env) chat mid pdf excel ev w0)))))).
  { unfold issued.
    change (fst <$> drop (length (outbox w)) (outbox (snd (cleanup rm chat pdf excel
                        (snd (guarded env chat mid pdf excel ev w0))))) =
            fst <$> drop (length (outbox w)) (outbox (snd (cleanup rm chat pdf excel
                        (snd (guarded (without_faults env) chat mid pdf excel ev w0)))))).
    rewrite !fmap_drop. f_equal. exact O. }
  split; [exact I|]. split; [unfold processed; now rewrite X|].
  split; [now apply final_state_calls|]. split; assumption.
Qed.

End ProgressFailuresRun.

Lemma flaky_progress_only : only_progress_fails flaky_progress.
Proof.
  intros op H. destruct op as [[ch m msg| |]| |]; try discriminate.
  destruct msg; try discriminate. eauto 6.
Qed.

Lemma failed_progress_reports_are_passed_over_witness :
  final_state (issued scenario_world
                 (snd (App.process_pdf_async flaky_progress (fun _ => false) 7 0
                         "/tmp/scenario.pdf" "/tmp/scenario.xlsx" 0 scenario_world))) =
  Some Completed.
Proof.
  destruct (failed_progress_reports_are_passed_over flaky_progress
              flaky_progress_only (fun _ => false) 7 0
              "/tmp/scenario.pdf" "/tmp/scenario.xlsx" 0 scenario_world)
    as (_ & _ & H & _).
  rewrite H. vm_compute. reflexivity.
Defined.

(** ** Uploads of two clients side by side *)

Section TwoClients.

Import App.

Lemma registry_at_frame b c p w w' :
  active_jobs w' !! c = active_jobs w !! c ->
  registry_at b c p w -> registry_at b c p w'.
Proof. intros E H. destruct p, b; cbn in *; rewrite ?E; exact H. Qed.

(** One step of a handler whose upload is accepted. *)
Lemma handler_step_accepted b c d p w :
  is_pdf_name d = true -> too_large d = false ->
  registry_at b c p w ->
  exists p' w',
    handler_step (handler_at c d p) w = (handler_at c d p', w') /\
    registry_at b c p' w' /\
    (forall c', c' <> c -> active_jobs w' !! c' = active_jobs w !! c') /\
    length (jobs_of c w') + finished p = length (jobs_of c w) + finished p' /\
    (forall c', c' <> c -> jobs_of c' w' = jobs_of c' w) /\
    length (started w') + finished p = length (started w) + finished p'.
Proof.
  intros P T R. destruct p as [| |t|]; cbn in R.
  - exists AtFetch. eexists. split.
    { unfold handler_step, handler_at, at_point. cbn.
      unfold admission, mbind, M_bind, log, modify, reply, gets.
      cbn. rewrite P, T. cbn. rewrite R. reflexivity. }
    cbn. auto.
  - eexists (AtRegister _). eexists. split.
    { unfold handler_step, handler_at, at_point. cbn. reflexivity. }
    cbn. auto.
  - destruct R as [R <-]. exists Finished. eexists. split.
    { unfold handler_step, handler_at, at_point. cbn. reflexivity. }
    unfold register_and_start, mbind, M_bind, modify, log, jobs_of. cbn.
    split; [destruct b; [rewrite lookup_insert_eq; eauto | exact I]|].
    split; [intros c' N; now rewrite lookup_insert_ne by congruence|].
    rewrite !filter_app, !length_app, filter_cons, filter_nil.
    rewrite decide_True by reflexivity. cbn [length].
    split; [lia|]. split; [|lia].
    intros c' N. rewrite filter_app, filter_cons, filter_nil.
    rewrite decide_False by congruence. apply app_nil_r.
  - exists Finished, w. split; [reflexivity|]. cbn. destruct b; auto.
Qed.

(** The run of a worker takes an entry out of the registry and starts no
    thread. *)
Lemma worker_step env rm t w :
  let w' := snd (run_thread env rm t w) in
  active_jobs w' = delete (t_chat_id t) (active_jobs w) /\
  started w' = started w.
Proof.
  cbn zeta. unfold run_thread. rewrite process_pdf_async_unfold. cbn [snd].
  set (w0 := set_logs _ w).
  destruct (cleanup_registry rm (t_chat_id t) (t_pdf_path t) (t_excel_path t)
              (snd (guarded env (t_chat_id t) (t_status_message_id t)
                      (t_pdf_path t) (t_excel_path t) (t_cancel_event t) w0)))
    as (Cj & _ & _ & _ & Cs).
  destruct (guarded_registry env (t_chat_id t) (t_status_message_id t)
              (t_pdf_path t) (t_excel_path t) (t_cancel_event t) w0) as [Gj Gs].
  rewrite Cj, Cs, Gj, Gs. split; reflexivity.
Qed.

Lemma worker_keeps_pending env rm t c p w :
  registry_at false c p w ->
  registry_at false c p (snd (run_thread env rm t w)).
Proof.
  destruct (worker_step env rm t w) as [J _].
  assert (N : active_jobs w !! c = None ->
              active_jobs (snd (run_thread env rm t w)) !! c = None).
  { intros H. rewrite J. destruct (decide (t_chat_id t = c)) as [->|D].
    - apply lookup_delete_eq.
    - now rewrite lookup_delete_ne. }
  destruct p; cbn; intuition.
Qed.

Variables (c1 c2 : Z) (d1 d2 : Document).
Hypothesis distinct : c1 <> c2.
Hypothesis name1 : is_pdf_name d1 = true.
Hypothesis size1 : too_large d1 = false.
Hypothesis name2 : is_pdf_name d2 = true.
Hypothesis size2 : too_large d2 = false.

Lemma system_invariant b moves : forall p1 p2 w hs' w',
  (b = true -> handlers_only moves) ->
  registry_at b c1 p1 w -> registry_at b c2 p2 w ->
  run_system moves [handler_at c1 d1 p1; handler_at c2 d2 p2] w = (hs', w') ->
  exists q1 q2,
    hs' = [handler_at c1 d1 q1; handler_at c2 d2 q2] /\
    registry_at b c1 q1 w' /\ registry_at b c2 q2 w' /\
    length (jobs_of c1 w') + finished p1 = length (jobs_of c1 w) + finished q1 /\
    length (jobs_of c2 w') + finished p2 = length (jobs_of c2 w) + finished q2 /\
    length (started w') + finished p1 + finished p2 =
    length (started w) + finished q1 + finished q2.
Proof.
  induction moves as [|m moves IH]; intros p1 p2 w hs' w' Ho R1 R2 H.
  - cbn in H. inversion H; subst. exists p1, p2. auto 10.
  - assert (Ho' : b = true -> handlers_only moves).
    { intros Hb. specialize (Ho Hb). now inversion Ho. }
    cbn [run_system] in H. destruct m as [n|k env rm].
    + destruct n as [|[|n]]; cbn [lookup list_lookup] in H.
      * destruct (handler_step_accepted b c1 d1 p1 w name1 size1 R1)
          as (p' & w1 & E & R' & Fr & L1 & Lo & Ls).
        rewrite E in H. cbn in H.
        apply IH in H as (q1 & q2 & -> & Q1 & Q2 & M1 & M2 & Ms); auto.
        -- exists q1, q2. rewrite (Lo c2) in M2 by congruence.
           repeat split; auto; lia.
        -- eapply registry_at_frame; [|exact R2]. apply Fr. congruence.
      * destruct (handler_step_accepted b c2 d2 p2 w name2 size2 R2)
          as (p' & w1 & E & R' & Fr & L2 & Lo & Ls).
        rewrite E in H. cbn in H.
        apply IH in H as (q1 & q2 & -> & Q1 & Q2 & M1 & M2 & Ms); auto.
        -- exists q1, q2. rewrite (Lo c1) in M1 by congruence.
           repeat split; auto; lia.
        -- eapply registry_at_frame; [|exact R1]. apply Fr. congruence.
      * cbn in H. apply IH in H; auto.
    + destruct b.
      { specialize (Ho eq_refl). inversion Ho as [|? ? Hm _]. contradiction. }
      destruct (started w !! k) as [t|] eqn:St; [|apply IH in H; auto].
      destruct (worker_step env rm t w) as [_ Ss].
      apply IH in H as (q1 & q2 & -> & Q1 & Q2 & M1 & M2 & Ms);
        auto using worker_keeps_pending.
      exists q1, q2. unfold jobs_of in *. rewrite Ss in *. auto 10.
Qed.

(** X24.  Two clients never get in each other's way.  Two accepted uploads of
    different clients, neither of which has a job, their handlers and the
    workers of the threads they start moving in whatever order: once both
    handlers are through, one thread more was started for each of the two
    clients and none for anyone else; and when no worker has run by
    then, each of the two has its entry in the registry. *)
Theorem two_clients_both_served moves w hs' w' :
  active_jobs w !! c1 = None -> active_jobs w !! c2 = None ->
  run_system moves [incoming c1 d1; incoming c2 d2] w = (hs', w') ->
  Forall (fun h => h_point h = Finished) hs' ->
  length (jobs_of c1 w') = length (jobs_of c1 w) + 1 /\
  length (jobs_of c2 w') = length (jobs_of c2 w) + 1 /\
  length (started w') = length (started w) + 2 /\
  (handlers_only moves ->
   is_Some (active_jobs w' !! c1) /\ is_Some (active_jobs w' !! c2)).
Proof.
  intros J1 J2 H F.
  assert (G : forall q1 q2, hs' = [handler_at c1 d1 q1; handler_at c2 d2 q2] ->
                            q1 = Finished /\ q2 = Finished).
  { intros q1 q2 ->. inversion F as [|? ? F1 F']; subst.
    inversion F' as [|? ? F2 _]; subst. auto. }
  split; [|split; [|split]].
  1-3: apply (system_invariant false moves AtAdmission AtAdmission) in H
         as (q1 & q2 & E & _ & _ & M1 & M2 & Ms); auto; try discriminate;
       destruct (G q1 q2 E) as [-> ->]; cbn in *; lia.
  intros Ho.
  apply (system_invariant true moves AtAdmission AtAdmission) in H
    as (q1 & q2 & E & Q1 & Q2 & _); auto.
  destruct (G q1 q2 E) as [-> ->]. cbn in *. auto.
Qed.

End TwoClients.

Lemma two_clients_both_served_witness :
  let w' := snd (run_system worker_between
                   [App.incoming 1 report_pdf; App.incoming 2 invoice_pdf]
                   empty_world) in
  length (App.jobs_of 1 w') = 1 /\ length (App.jobs_of 2 w') = 1 /\
  length (started w') = 2 /\
  active_jobs w' !! 1%Z = None /\ is_Some (active_jobs w' !! 2%Z).
Proof.
  cbn zeta.
  destruct (two_clients_both_served 1 2 report_pdf invoice_pdf ltac:(discriminate)
              eq_refl eq_refl eq_refl eq_refl worker_between empty_world
              (fst (run_system worker_between
                      [App.incoming 1 report_pdf; App.incoming 2 invoice_pdf]
                      empty_world))
              (snd (run_system worker_between
                      [App.incoming 1 report_pdf; App.incoming 2 invoice_pdf]
                      empty_world))
              eq_refl eq_refl)
    as (H1 & H2 & H3 & _).
  - apply surjective_pairing.
  - vm_compute. repeat constructor.
  - split; [exact H1|]. split; [exact H2|]. split; [exact H3|].
    split; vm_compute; eauto.
Defined.
